(** * E-commerce synthetic pipeline: generator and loader

    A shallow embedding of [generate_datasets.py] and [load_to_database.py]
    and the properties of the data they produce and store, with the two
    checking scripts [verify_integrity.py] and [test_fk_constraints.py].

    Conventions of the embedding.
    - A Python [date] is its proleptic Gregorian ordinal ([date.toordinal()]),
      an integer; a record field that the script keeps as the
      ["%Y-%m-%d"] text of a date holds that date, since [pd.to_datetime]
      reads back the date [strftime] wrote.
    - A Python [float] holding a price is an exact rational; [round(x, 2)]
      is rounding to the nearest hundredth, ties to even.
    - The two pseudo-random sources (module [random] and Faker's generator)
      are cursors into a stream of raw draws fixed by the seed; every
      library primitive maps the raw draw into the range its contract gives.
    - Script state (the two random sources, the files on disk, the console)
      is threaded explicitly; a Python exception ends the run and leaves the
      state as it was when raised. *)

From Stdlib Require Import ZArith QArith Qcanon Qround String Ascii List Lia Lqa DecimalString.
From stdpp Require Import base option list gmap strings.

Local Open Scope string_scope.
Local Open Scope list_scope.
Local Open Scope Z_scope.

(* ===================================================================== *)
(** * Values, exceptions and the state monad of a script run              *)
(* ===================================================================== *)

(** A cell of a pandas frame or of an SQLite row. *)
Inductive Value :=
  | VNull
  | VInt (z : Z)
  | VReal (q : Qc)
  | VText (s : string).

Record DataFrame := mkDataFrame {
  df_columns : list string;
  df_rows : list (list Value)
}.

Inductive Exception :=
  | IndexError
  | ValueError
  | KeyError (key : string)
  | AssertionError (msg : string)
  | FileNotFoundError (msg : string)
  | ParserError
  | OperationalError (msg : string)
  | IntegrityError (msg : string).

Inductive Result (A : Type) :=
  | Ok (a : A)
  | Raise (e : Exception).
Arguments Ok {A} a.
Arguments Raise {A} e.

(** A seeded pseudo-random source: the stream of its raw draws and how many
    were consumed. *)
Record Rng := mkRng {
  rng_stream : nat -> N;
  rng_pos : nat
}.

Definition Date := Z.

(** ** Rows of the five generated collections *)

Record Customer := mkCustomer {
  customer_id : Z;
  first_name : string;
  last_name : string;
  email : string;
  signup_date : Date;
  country : string
}.

Record Product := mkProduct {
  product_id : Z;
  name : string;
  category : string;
  price : Q;
  launch_date : Date
}.

Record Order := mkOrder {
  order_id : Z;
  o_customer_id : Z;
  order_date : Date;
  ship_date : option Date;     (* [None] is written as the empty string *)
  status : string
}.

Record OrderItem := mkOrderItem {
  order_item_id : Z;
  oi_order_id : Z;
  oi_product_id : Z;
  quantity : Z;
  item_price : Q
}.

Record Shipment := mkShipment {
  shipment_id : Z;
  s_order_id : Z;
  shipment_date : Date;
  carrier : string;
  tracking_number : string;
  shipment_cost : Q
}.

(** What [pd.DataFrame(rows)] holds in the generator. *)
Inductive GenFrame :=
  | CustomersFrame (rows : list Customer)
  | ProductsFrame (rows : list Product)
  | OrdersFrame (rows : list Order)
  | OrderItemsFrame (rows : list OrderItem)
  | ShipmentsFrame (rows : list Shipment).

(** ** The SQLite store *)

Record ForeignKey := mkForeignKey {
  fk_column : string;
  fk_parent : string;
  fk_parent_column : string
}.

Record TableSchema := mkTableSchema {
  ts_columns : list (string * bool);   (* column name, NOT NULL *)
  ts_primary_key : option string;
  ts_foreign_keys : list ForeignKey
}.

Record Table := mkTable {
  tbl_schema : TableSchema;
  tbl_rows : list (list Value)         (* aligned with [ts_columns] *)
}.

Record Database := mkDatabase {
  db_tables : gmap string Table;
  db_indexes : list (string * string * string)
}.

Inductive File :=
  | TextFile (bytes : string)
  | SqliteFile (db : Database).

(** ** The world a script runs in *)

Record World := mkWorld {
  py_random : Rng;            (* state of module [random] *)
  faker_random : Rng;         (* state of Faker's shared generator *)
  fs : gmap string File;      (* working directory *)
  stdout : list string        (* lines printed, oldest first *)
}.

(** The libraries the scripts call and that this repository does not
    contain: the raw stream each seed gives, Faker's name providers as
    decoders of one raw draw, and pandas' CSV writer and reader. *)
Record Lib := mkLib {
  random_stream : Z -> nat -> N;
  faker_stream : Z -> nat -> N;
  faker_first_name : N -> string;
  faker_last_name : N -> string;
  faker_domain_name : N -> string;
  faker_company : N -> string;
  to_csv_bytes : GenFrame -> string;
  read_csv_bytes : string -> Result DataFrame
}.

Definition M (A : Type) : Type := World -> Result A * World.

Definition ret {A} (a : A) : M A := fun w => (Ok a, w).

Definition bind {A B} (m : M A) (k : A -> M B) : M B :=
  fun w => match m w with
           | (Ok a, w') => k a w'
           | (Raise e, w') => (Raise e, w')
           end.

Definition raise {A} (e : Exception) : M A := fun w => (Raise e, w).

(** [try: m  except Exception as e: h e] *)
Definition try_except {A} (m : M A) (h : Exception -> M A) : M A :=
  fun w => match m w with
           | (Ok a, w') => (Ok a, w')
           | (Raise e, w') => h e w'
           end.

Declare Scope script_scope.
Delimit Scope script_scope with script.
Notation "'let!' x ':=' m 'in' k" := (bind m (fun x => k))
  (at level 10, x name, m at level 100, k at level 200, only parsing) : script_scope.
Local Open Scope script_scope.

Definition print (line : string) : M unit :=
  fun w => (Ok tt, mkWorld (py_random w) (faker_random w) (fs w) (stdout w ++ [line])).

Definition path_exists (path : string) : M bool :=
  fun w => (Ok (bool_decide (is_Some (fs w !! path))), w).

Definition write_file (path : string) (f : File) : M unit :=
  fun w => (Ok tt, mkWorld (py_random w) (faker_random w) (<[path := f]> (fs w)) (stdout w)).

(** [os.remove(path)] *)
Definition remove_file (path : string) : M unit :=
  fun w => match fs w !! path with
           | Some _ => (Ok tt, mkWorld (py_random w) (faker_random w) (delete path (fs w)) (stdout w))
           | None => (Raise (FileNotFoundError path), w)
           end.

(** Loops. [iterate body steps i acc] runs [body i], [body (i+1)], ... for
    [steps] rounds, appending each produced row to [acc]. *)
Fixpoint iterate {A} (body : Z -> M A) (steps : nat) (i : Z) (acc : list A) : M (list A) :=
  match steps with
  | O => ret acc
  | S k => let! a := body i in iterate body k (i + 1) (acc ++ [a])
  end.

(** [rows = []; for i in range(lo, hi): rows.append(body(i))] *)
Definition for_range {A} (lo hi : Z) (body : Z -> M A) : M (list A) :=
  iterate body (Z.to_nat (hi - lo)) lo [].

(** [rows = []; i = lo; while i <= bound: rows.append(body(i)); i += 1] *)
Definition while_le {A} (lo bound : Z) (body : Z -> M A) : M (list A) :=
  iterate body (Z.to_nat (bound - lo + 1)) lo [].

(** ** Text helpers *)

Definition str_of_Z (z : Z) : string := NilEmpty.string_of_int (Z.to_int z).

Definition ascii_lower (c : ascii) : ascii :=
  let n := N_of_ascii c in
  if ((65 <=? n) && (n <=? 90))%N then ascii_of_N (n + 32) else c.

Definition ascii_upper (c : ascii) : ascii :=
  let n := N_of_ascii c in
  if ((97 <=? n) && (n <=? 122))%N then ascii_of_N (n - 32) else c.

Fixpoint str_map (f : ascii -> ascii) (s : string) : string :=
  match s with
  | EmptyString => EmptyString
  | String c rest => String (f c) (str_map f rest)
  end.

Definition lower (s : string) : string := str_map ascii_lower s.
Definition upper (s : string) : string := str_map ascii_upper s.

(** [frame[col].iloc[0]] on the rows a boolean mask kept. *)
Definition iloc0 {A} (l : list A) : M A :=
  match l with
  | [] => raise IndexError
  | x :: _ => ret x
  end.

Definition py_assert (cond : bool) (msg : string) : M unit :=
  if cond then ret tt else raise (AssertionError msg).

(** ** Dates and decimal rounding *)

Definition is_leap (year : Z) : bool :=
  (year mod 4 =? 0) && (negb (year mod 100 =? 0) || (year mod 400 =? 0)).

Definition days_before_year (year : Z) : Z :=
  let y := year - 1 in y * 365 + y / 4 - y / 100 + y / 400.

Definition days_before_month (year month : Z) : Z :=
  nth (Z.to_nat month) [-1; 0; 31; 59; 90; 120; 151; 181; 212; 243; 273; 304; 334] 0
  + (if (2 <? month) && is_leap year then 1 else 0).

(** [datetime(year, month, day).toordinal()] *)
Definition ymd (year month day : Z) : Date :=
  days_before_year year + days_before_month year month + day.

(** Nearest integer, ties to the even one. *)
Definition round_half_even (x : Q) : Z :=
  let f := Qfloor x in
  match ((x - inject_Z f) ?= (1 # 2))%Q with
  | Lt => f
  | Gt => f + 1
  | Eq => if Z.even f then f else f + 1
  end.

(** [round(x, 2)] *)
Definition round2 (x : Q) : Q := (inject_Z (round_half_even (x * 100)) / 100)%Q.

(* ===================================================================== *)
(** * generate_datasets.py                                                *)
(* ===================================================================== *)

Definition NUM_CUSTOMERS : Z := 1000.
Definition NUM_PRODUCTS : Z := 500.
Definition NUM_ORDERS : Z := 2000.
Definition NUM_ORDER_ITEMS : Z := 4000.
Definition NUM_SHIPMENTS : Z := 1500.

Definition START_DATE : Date := ymd 2022 1 1.
Definition END_DATE : Date := ymd 2025 10 31.
Definition SIGNUP_END : Date := ymd 2025 10 31.

Definition CATEGORIES : list string :=
  [ "Electronics"; "Apparel"; "Home & Garden"; "Sports & Outdoors"; "Books";
    "Toys & Games"; "Health & Beauty"; "Automotive"; "Food & Beverages";
    "Office Supplies" ].

Definition COUNTRIES : list string :=
  [ "United States"; "United Kingdom"; "Canada"; "Australia";
    "Germany"; "France"; "Italy"; "Spain"; "Netherlands";
    "Sweden"; "Norway"; "Japan"; "South Korea"; "Brazil";
    "Mexico"; "India"; "China"; "Singapore"; "United Arab Emirates" ].

Definition ORDER_STATUSES : list string :=
  [ "Pending"; "Processing"; "Shipped"; "Delivered"; "Cancelled" ].

Definition CARRIERS : list string :=
  [ "UPS"; "FedEx"; "USPS"; "DHL"; "Amazon Logistics"; "OnTrac" ].

Definition PRODUCT_TEMPLATES : gmap string (list string) :=
  list_to_map
  [ ("Electronics", ["Smartphone"; "Laptop"; "Tablet"; "Headphones"; "Speaker"; "Smartwatch"; "Camera"; "TV"; "Monitor"; "Keyboard"; "Mouse"]);
    ("Apparel", ["T-Shirt"; "Jeans"; "Dress"; "Jacket"; "Sneakers"; "Boots"; "Hat"; "Sunglasses"; "Belt"; "Wallet"]);
    ("Home & Garden", ["Lamp"; "Chair"; "Table"; "Rug"; "Curtains"; "Vase"; "Plant Pot"; "Candle"; "Picture Frame"; "Wall Clock"]);
    ("Sports & Outdoors", ["Tent"; "Backpack"; "Bicycle"; "Dumbbells"; "Yoga Mat"; "Running Shoes"; "Golf Clubs"; "Tennis Racket"; "Basketball"; "Soccer Ball"]);
    ("Books", ["Novel"; "Biography"; "Cookbook"; "Textbook"; "Comic Book"; "Guide"; "Atlas"; "Dictionary"; "Encyclopedia"; "Manual"]);
    ("Toys & Games", ["Board Game"; "Action Figure"; "Puzzle"; "Doll"; "LEGO Set"; "RC Car"; "Video Game"; "Card Game"; "Stuffed Animal"; "Building Blocks"]);
    ("Health & Beauty", ["Shampoo"; "Lotion"; "Perfume"; "Makeup Set"; "Vitamins"; "Skincare Cream"; "Hairbrush"; "Toothbrush"; "Deodorant"; "Face Mask"]);
    ("Automotive", ["Car Battery"; "Tire"; "Oil Filter"; "Brake Pad"; "Car Mat"; "Phone Mount"; "Dash Cam"; "Jump Starter"; "Air Freshener"; "Cleaning Kit"]);
    ("Food & Beverages", ["Coffee Beans"; "Tea"; "Chocolate"; "Snack Mix"; "Protein Bar"; "Energy Drink"; "Cereal"; "Pasta"; "Sauce"; "Spice Set"]);
    ("Office Supplies", ["Pen Set"; "Notebook"; "Stapler"; "Paper Clips"; "Folder"; "Binder"; "Calculator"; "Desk Organizer"; "Printer Paper"; "Whiteboard"]) ].

(** The five frames the script holds when it ends. *)
Record Datasets := mkDatasets {
  df_customers : list Customer;
  df_products : list Product;
  df_orders : list Order;
  df_order_items : list OrderItem;
  df_shipments : list Shipment
}.

Section Generator.
Context (L : Lib).

(** *** The two random sources *)

Definition next_raw (r : Rng) : N * Rng :=
  (rng_stream r (rng_pos r), mkRng (rng_stream r) (S (rng_pos r))).

Definition py_raw : M N :=
  fun w => let (x, r) := next_raw (py_random w) in
           (Ok x, mkWorld r (faker_random w) (fs w) (stdout w)).

Definition faker_raw : M N :=
  fun w => let (x, r) := next_raw (faker_random w) in
           (Ok x, mkWorld (py_random w) r (fs w) (stdout w)).

(** [random.seed(n)] *)
Definition random_seed (n : Z) : M unit :=
  fun w => (Ok tt, mkWorld (mkRng (random_stream L n) 0) (faker_random w) (fs w) (stdout w)).

(** [Faker.seed(n)] *)
Definition Faker_seed (n : Z) : M unit :=
  fun w => (Ok tt, mkWorld (py_random w) (mkRng (faker_stream L n) 0) (fs w) (stdout w)).

(** [random.randint(a, b)]: an integer of [a..b]; empty range is an error. *)
Definition randint (a b : Z) : M Z :=
  if b <? a then raise ValueError
  else let! x := py_raw in ret (a + Z.of_N x mod (b - a + 1)).

(** [random.choice(seq)] *)
Definition choice {A} (seq : list A) : M A :=
  match seq with
  | [] => raise IndexError
  | d :: _ => let! x := py_raw in ret (nth (N.to_nat (x mod N.of_nat (length seq))) seq d)
  end.

(** [random.random()]: a 53-bit fraction of [0, 1). *)
Definition random_unit : M Q :=
  let! x := py_raw in ret (Z.of_N (x mod 2 ^ 53) # 2 ^ 53).

(** [random.uniform(a, b)] is [a + (b - a) * random()]. *)
Definition uniform (a b : Q) : M Q :=
  let! u := random_unit in ret (a + (b - a) * u)%Q.

(** [fake.date_between(start_date, end_date)]: a date of
    [start_date..end_date]; Faker draws with [randint], which refuses an
    empty range. *)
Definition date_between (start_date end_date : Date) : M Date :=
  if end_date <? start_date then raise ValueError
  else let! x := faker_raw in ret (start_date + Z.of_N x mod (end_date - start_date + 1)).

Definition fake_first_name : M string := let! x := faker_raw in ret (faker_first_name L x).
Definition fake_last_name : M string := let! x := faker_raw in ret (faker_last_name L x).
Definition fake_domain_name : M string := let! x := faker_raw in ret (faker_domain_name L x).
Definition fake_company : M string := let! x := faker_raw in ret (faker_company L x).

(** [frame.to_csv(path, index=False)] *)
Definition to_csv (frame : GenFrame) (path : string) : M unit :=
  write_file path (TextFile (to_csv_bytes L frame)).

(** *** 1. Customers *)

Definition customer_row (i : Z) : M Customer :=
  let! first := fake_first_name in
  let! last := fake_last_name in
  let! suffix := randint 100 999 in
  let! domain := fake_domain_name in
  let mail := lower first +:+ "." +:+ lower last +:+ str_of_Z suffix +:+ "@" +:+ domain in
  let! signup := date_between START_DATE SIGNUP_END in
  let! ctry := choice COUNTRIES in
  ret (mkCustomer i first last mail signup ctry).

Definition generate_customers (num_customers : Z) : M (list Customer) :=
  for_range 1 (num_customers + 1) customer_row.

(** *** 2. Products *)

Definition product_row (i : Z) : M Product :=
  let! cat := choice CATEGORIES in
  let! templates :=
    match PRODUCT_TEMPLATES !! cat with
    | Some l => ret l
    | None => raise (KeyError cat)
    end in
  let! template := choice templates in
  let! company := fake_company in
  let nm := company +:+ " " +:+ template in
  let! p := uniform 5 5000 in
  let! launch := date_between START_DATE (ymd 2025 9 1) in
  ret (mkProduct i nm cat (round2 p) launch).

Definition generate_products (num_products : Z) : M (list Product) :=
  for_range 1 (num_products + 1) product_row.

(** *** 3. Orders *)

Definition order_row (customers : list Customer) (customer_ids : list Z) (i : Z) : M Order :=
  let! cid := choice customer_ids in
  let! customer_signup :=
    iloc0 (map signup_date (filter (fun c => customer_id c = cid) customers)) in
  let! odate := date_between (Z.max customer_signup START_DATE) END_DATE in
  let! st := choice ORDER_STATUSES in
  let! sdate :=
    if bool_decide (st ∈ ["Pending"; "Cancelled"]) then ret None
    else let! ship_days := randint 1 7 in ret (Some (odate + ship_days)) in
  ret (mkOrder i cid odate sdate st).

Definition generate_orders (num_orders : Z) (customers : list Customer) : M (list Order) :=
  let customer_ids := map customer_id customers in
  for_range 1 (num_orders + 1) (order_row customers customer_ids).

(** *** 4. Order items *)

Definition order_item_row (products : list Product) (order_ids product_ids : list Z)
    (item_id : Z) : M OrderItem :=
  let! oid := choice order_ids in
  let! pid := choice product_ids in
  let! base_price := iloc0 (map price (filter (fun p => product_id p = pid) products)) in
  let! factor := uniform (9 # 10) (11 # 10) in
  let iprice := round2 (base_price * factor) in
  let! qty := randint 1 5 in
  ret (mkOrderItem item_id oid pid qty iprice).

Definition generate_order_items (num_order_items : Z) (orders : list Order)
    (products : list Product) : M (list OrderItem) :=
  let order_ids := map order_id orders in
  let product_ids := map product_id products in
  while_le 1 num_order_items (order_item_row products order_ids product_ids).

(** *** 5. Shipments *)

Definition shipment_row (orders : list Order) (order_ids_with_shipments : list Z)
    (sid : Z) : M Shipment :=
  let! oid := choice order_ids_with_shipments in
  let! odate := iloc0 (map order_date (filter (fun o => order_id o = oid) orders)) in
  let! ship_date_from_order :=
    iloc0 (map ship_date (filter (fun o => order_id o = oid) orders)) in
  let min_ship_date :=
    match ship_date_from_order with
    | Some d => d
    | None => odate
    end in
  let min_ship_date := if END_DATE <? min_ship_date then odate else min_ship_date in
  let end_ship_date := Z.max min_ship_date END_DATE in
  let! sdate := date_between min_ship_date end_ship_date in
  let! carr := choice CARRIERS in
  let! digits := randint 1000000000 9999999999 in
  let tracking := upper (substring 0 2 carr) +:+ str_of_Z digits in
  let! cost := uniform 5 50 in
  ret (mkShipment sid oid sdate carr tracking (round2 cost)).

Definition generate_shipments (num_shipments : Z) (orders : list Order) : M (list Shipment) :=
  let order_ids_with_shipments :=
    map order_id
      (filter (fun o => status o ∈ ["Shipped"; "Delivered"]) orders) in
  while_le 1 num_shipments (shipment_row orders order_ids_with_shipments).

(** *** Verification *)

Definition verification (d : Datasets) : M unit :=
  let! _ := print "" in
  let! _ := print "Verifying referential integrity..." in
  let orders_customers : gset Z := list_to_set (map o_customer_id (df_orders d)) in
  let valid_customers : gset Z := list_to_set (map customer_id (df_customers d)) in
  let! _ := py_assert (bool_decide (orders_customers ⊆ valid_customers))
              "Some orders reference non-existent customers" in
  let order_items_products : gset Z := list_to_set (map oi_product_id (df_order_items d)) in
  let valid_products : gset Z := list_to_set (map product_id (df_products d)) in
  let! _ := py_assert (bool_decide (order_items_products ⊆ valid_products))
              "Some order_items reference non-existent products" in
  let order_items_orders : gset Z := list_to_set (map oi_order_id (df_order_items d)) in
  let valid_orders : gset Z := list_to_set (map order_id (df_orders d)) in
  let! _ := py_assert (bool_decide (order_items_orders ⊆ valid_orders))
              "Some order_items reference non-existent orders" in
  let shipments_orders : gset Z := list_to_set (map s_order_id (df_shipments d)) in
  let! _ := py_assert (bool_decide (shipments_orders ⊆ valid_orders))
              "Some shipments reference non-existent orders" in
  let! _ := print "[OK] All referential integrity checks passed!" in
  let! _ := print "" in
  print "All datasets generated successfully!".

(** *** The script, top to bottom *)

Definition generated_line (file : string) (rows : nat) : string :=
  "[OK] Generated " +:+ file +:+ " with " +:+ str_of_Z (Z.of_nat rows) +:+ " rows".

(** Everything below the two seeding statements. *)
Definition generate_body (num_customers num_products num_orders num_order_items
    num_shipments : Z) : M Datasets :=
  let! _ := print "Generating synthetic e-commerce datasets..." in
  let! _ := print "Generating customers..." in
  let! customers := generate_customers num_customers in
  let! _ := to_csv (CustomersFrame customers) "customers.csv" in
  let! _ := print (generated_line "customers.csv" (length customers)) in
  let! _ := print "Generating products..." in
  let! products := generate_products num_products in
  let! _ := to_csv (ProductsFrame products) "products.csv" in
  let! _ := print (generated_line "products.csv" (length products)) in
  let! _ := print "Generating orders..." in
  let! orders := generate_orders num_orders customers in
  let! _ := to_csv (OrdersFrame orders) "orders.csv" in
  let! _ := print (generated_line "orders.csv" (length orders)) in
  let! _ := print "Generating order items..." in
  let! order_items := generate_order_items num_order_items orders products in
  let! _ := to_csv (OrderItemsFrame order_items) "order_items.csv" in
  let! _ := print (generated_line "order_items.csv" (length order_items)) in
  let! _ := print "Generating shipments..." in
  let! shipments := generate_shipments num_shipments orders in
  let! _ := to_csv (ShipmentsFrame shipments) "shipments.csv" in
  let! _ := print (generated_line "shipments.csv" (length shipments)) in
  let d := mkDatasets customers products orders order_items shipments in
  let! _ := verification d in
  ret d.

(** The script for given sizes and seeds:
    [Faker.seed(faker_seed); random.seed(py_seed)], then the body. *)
Definition generate_with (num_customers num_products num_orders num_order_items
    num_shipments : Z) (faker_seed py_seed : Z) : M Datasets :=
  let! _ := Faker_seed faker_seed in
  let! _ := random_seed py_seed in
  generate_body num_customers num_products num_orders num_order_items num_shipments.

(** The script as it stands: the five [NUM_*] constants, and
    [Faker.seed(42); random.seed(42)]. *)
Definition generate_datasets : M Datasets :=
  generate_with NUM_CUSTOMERS NUM_PRODUCTS NUM_ORDERS NUM_ORDER_ITEMS NUM_SHIPMENTS 42 42.

End Generator.

(* ===================================================================== *)
(** * load_to_database.py                                                 *)
(* ===================================================================== *)

Definition DB_FILE : string := "ecommerce.db".

(** An open [sqlite3] connection: the database file it writes through to
    and the connection's [PRAGMA foreign_keys] setting. Statements take
    effect on the file as they run; transactions are not modelled. *)
Record Connection := mkConnection {
  conn_file : string;
  conn_foreign_keys : bool
}.

#[global] Instance Value_eq_dec : EqDecision Value.
Proof. solve_decision. Defined.

Fixpoint index_of (c : string) (cols : list string) : option nat :=
  match cols with
  | [] => None
  | x :: rest => if String.eqb x c then Some O else S <$> index_of c rest
  end.

Definition cell (row : list Value) (i : nat) : Value := default VNull (row !! i).

Definition table_columns (t : Table) : list string := map fst (ts_columns (tbl_schema t)).

(** ** The schema of [create_database_schema] *)

Definition customers_schema : TableSchema :=
  mkTableSchema
    [ ("customer_id", false); ("first_name", true); ("last_name", true);
      ("email", true); ("signup_date", true); ("country", true) ]
    (Some "customer_id") [].

Definition products_schema : TableSchema :=
  mkTableSchema
    [ ("product_id", false); ("name", true); ("category", true);
      ("price", true); ("launch_date", true) ]
    (Some "product_id") [].

Definition orders_schema : TableSchema :=
  mkTableSchema
    [ ("order_id", false); ("customer_id", true); ("order_date", true);
      ("ship_date", false); ("status", true) ]
    (Some "order_id")
    [ mkForeignKey "customer_id" "customers" "customer_id" ].

Definition order_items_schema : TableSchema :=
  mkTableSchema
    [ ("order_item_id", false); ("order_id", true); ("product_id", true);
      ("quantity", true); ("item_price", true) ]
    (Some "order_item_id")
    [ mkForeignKey "order_id" "orders" "order_id";
      mkForeignKey "product_id" "products" "product_id" ].

Definition shipments_schema : TableSchema :=
  mkTableSchema
    [ ("shipment_id", false); ("order_id", true); ("shipment_date", true);
      ("carrier", true); ("tracking_number", true); ("shipment_cost", true) ]
    (Some "shipment_id")
    [ mkForeignKey "order_id" "orders" "order_id" ].

(** ** SQL statements on a database *)

(** [a = b] in SQL: never true on NULL; integers and reals compare by value. *)
Definition sql_eq (a b : Value) : bool :=
  match a, b with
  | VInt x, VInt y => bool_decide (x = y)
  | VReal x, VReal y => bool_decide (x = y)
  | VInt x, VReal y | VReal y, VInt x => bool_decide (Q2Qc (inject_Z x) = y)
  | VText x, VText y => bool_decide (x = y)
  | _, _ => false
  end.

Definition is_null (v : Value) : bool :=
  match v with
  | VNull => true
  | _ => false
  end.

Definition empty_database : Database := mkDatabase ∅ [].

(** [DROP TABLE IF EXISTS name] *)
Definition drop_table_if_exists (name : string) (db : Database) : Result (unit * Database) :=
  Ok (tt, mkDatabase (delete name (db_tables db))
            (filter (fun ix => ix.1.2 ≠ name) (db_indexes db))).

(** [CREATE TABLE name (...)] *)
Definition create_table (name : string) (schema : TableSchema) (db : Database)
    : Result (unit * Database) :=
  match db_tables db !! name with
  | Some _ => Raise (OperationalError ("table " +:+ name +:+ " already exists"))
  | None => Ok (tt, mkDatabase (<[name := mkTable schema []]> (db_tables db)) (db_indexes db))
  end.

(** The row an [INSERT INTO t (df_cols) VALUES (row)] offers to table [t]:
    a value for each table column, NULL where the statement names none. *)
Definition align_row (table_cols df_cols : list string) (row : list Value) : list Value :=
  map (fun c => match index_of c df_cols with
                | Some i => cell row i
                | None => VNull
                end) table_cols.

Definition int_keys (keys : list Value) : list Z :=
  omap (fun v => match v with
                 | VInt k => Some k
                 | _ => None
                 end) keys.

(** The rowid SQLite gives a row inserted with a NULL integer primary key. *)
Definition next_rowid (keys : list Value) : Z := 1 + foldr Z.max 0 (int_keys keys).

Definition check_not_null (schema : TableSchema) (stored : list Value) : Result unit :=
  if forallb (fun '(i, (c, notnull)) => negb notnull || negb (is_null (cell stored i)))
       (imap (fun i c => (i, c)) (ts_columns schema))
  then Ok tt
  else Raise (IntegrityError "NOT NULL constraint failed").

Definition check_foreign_key (db : Database) (cols : list string) (stored : list Value)
    (fk : ForeignKey) : Result unit :=
  match index_of (fk_column fk) cols with
  | None => Raise (OperationalError "unknown column in foreign key definition")
  | Some i =>
      let v := cell stored i in
      if is_null v then Ok tt
      else match db_tables db !! fk_parent fk with
           | None => Raise (OperationalError ("no such table: " +:+ fk_parent fk))
           | Some parent =>
               match index_of (fk_parent_column fk) (table_columns parent) with
               | None => Raise (OperationalError "foreign key mismatch")
               | Some j =>
                   if existsb (fun pr => sql_eq v (cell pr j)) (tbl_rows parent)
                   then Ok tt
                   else Raise (IntegrityError "FOREIGN KEY constraint failed")
               end
           end
  end.

Fixpoint check_foreign_keys (db : Database) (cols : list string) (stored : list Value)
    (fks : list ForeignKey) : Result unit :=
  match fks with
  | [] => Ok tt
  | fk :: rest =>
      match check_foreign_key db cols stored fk with
      | Ok _ => check_foreign_keys db cols stored rest
      | Raise e => Raise e
      end
  end.

(** The primary-key step of an insert: the row as it will be stored.
    An integer key must be new; a NULL key receives the next rowid. *)
Definition assign_primary_key (t : Table) (aligned : list Value) : Result (list Value) :=
  match ts_primary_key (tbl_schema t) with
  | None => Ok aligned
  | Some pk =>
      match index_of pk (table_columns t) with
      | None => Ok aligned
      | Some i =>
          let keys := map (fun r => cell r i) (tbl_rows t) in
          match cell aligned i with
          | VInt k =>
              if bool_decide (VInt k ∈ keys)
              then Raise (IntegrityError "UNIQUE constraint failed")
              else Ok aligned
          | VNull => Ok (<[i := VInt (next_rowid keys)]> aligned)
          | _ => Raise (IntegrityError "datatype mismatch")
          end
      end
  end.

(** One row of [INSERT INTO name (df_cols) VALUES ...]. Column type affinity
    is not modelled: a value is stored as given. *)
Definition insert_row (foreign_keys : bool) (name : string) (df_cols : list string)
    (db : Database) (row : list Value) : Result Database :=
  match db_tables db !! name with
  | None => Raise (OperationalError ("no such table: " +:+ name))
  | Some t =>
      if negb (forallb (fun c => bool_decide (is_Some (index_of c (table_columns t)))) df_cols)
      then Raise (OperationalError ("table " +:+ name +:+ " has no such column"))
      else
        match assign_primary_key t (align_row (table_columns t) df_cols row) with
        | Raise e => Raise e
        | Ok stored =>
            match check_not_null (tbl_schema t) stored with
            | Raise e => Raise e
            | Ok _ =>
                match (if foreign_keys
                       then check_foreign_keys db (table_columns t) stored
                              (ts_foreign_keys (tbl_schema t))
                       else Ok tt) with
                | Raise e => Raise e
                | Ok _ =>
                    Ok (mkDatabase
                          (<[name := mkTable (tbl_schema t) (tbl_rows t ++ [stored])]> (db_tables db))
                          (db_indexes db))
                end
            end
        end
  end.

(** A multi-row insert is one statement: all rows are stored or none. *)
Fixpoint insert_rows (foreign_keys : bool) (name : string) (df_cols : list string)
    (db : Database) (rows : list (list Value)) : Result Database :=
  match rows with
  | [] => Ok db
  | row :: rest =>
      match insert_row foreign_keys name df_cols db row with
      | Ok db' => insert_rows foreign_keys name df_cols db' rest
      | Raise e => Raise e
      end
  end.

(** [CREATE INDEX IF NOT EXISTS index_name ON table_name(column_name)] *)
Definition create_index_if_not_exists (index_name table_name column_name : string)
    (db : Database) : Result (unit * Database) :=
  if existsb (fun ix => String.eqb ix.1.1 index_name) (db_indexes db) then Ok (tt, db)
  else match db_tables db !! table_name with
       | None => Raise (OperationalError ("no such table: " +:+ table_name))
       | Some t =>
           match index_of column_name (table_columns t) with
           | None => Raise (OperationalError ("no such column: " +:+ column_name))
           | Some _ =>
               Ok (tt, mkDatabase (db_tables db)
                         (db_indexes db ++ [(index_name, table_name, column_name)]))
           end
       end.

(** [SELECT COUNT( * ) FROM table_name] *)
Definition select_count (table_name : string) (db : Database) : Result (Z * Database) :=
  match db_tables db !! table_name with
  | None => Raise (OperationalError ("no such table: " +:+ table_name))
  | Some t => Ok (Z.of_nat (length (tbl_rows t)), db)
  end.

(** [child LEFT JOIN parent ON child.child_col = parent.parent_col]: every
    pair of matching rows, and a child row without a match once, with NULLs
    for the parent's columns. *)
Definition left_join (on : list Value -> list Value -> bool)
    (child parent : list (list Value)) : list (list Value * option (list Value)) :=
  flat_map (fun c =>
    match List.filter (on c) parent with
    | [] => [(c, None)]
    | matches => map (fun p => (c, Some p)) matches
    end) child.

(** [SELECT COUNT( * ) FROM child c LEFT JOIN parent p
     ON c.child_col = p.parent_col WHERE p.parent_col IS NULL] *)
Definition select_orphan_count (child child_col parent parent_col : string) (db : Database)
    : Result (Z * Database) :=
  match db_tables db !! child, db_tables db !! parent with
  | Some ct, Some pt =>
      match index_of child_col (table_columns ct), index_of parent_col (table_columns pt) with
      | Some i, Some j =>
          let joined := left_join (fun c p => sql_eq (cell c i) (cell p j))
                          (tbl_rows ct) (tbl_rows pt) in
          let kept := List.filter (fun cp => match cp.2 with
                                             | None => true
                                             | Some p => is_null (cell p j)
                                             end) joined in
          Ok (Z.of_nat (length kept), db)
      | _, _ => Raise (OperationalError "no such column")
      end
  | _, _ => Raise (OperationalError "no such table")
  end.

Definition exception_text (e : Exception) : string :=
  match e with
  | IndexError => "list index out of range"
  | ValueError => "empty range"
  | KeyError key => key
  | AssertionError msg => msg
  | FileNotFoundError msg => msg
  | ParserError => "Error tokenizing data"
  | OperationalError msg => msg
  | IntegrityError msg => msg
  end.

Definition lift {A} (r : Result A) : M A := fun w => (r, w).

(** [for x in items: body(x)] *)
Fixpoint for_each {A} (items : list A) (body : A -> M unit) : M unit :=
  match items with
  | [] => ret tt
  | x :: rest => let! _ := body x in for_each rest body
  end.

(** [separator.join(items)] *)
Fixpoint join (separator : string) (items : list string) : string :=
  match items with
  | [] => ""
  | [x] => x
  | x :: rest => x +:+ separator +:+ join separator rest
  end.

(** ** Frames *)

(** Rows whose key was not met before, in their order: what
    [drop_duplicates(subset=[col], keep='first')] keeps. *)
Fixpoint keep_first (key : list Value -> Value) (seen : list Value)
    (rows : list (list Value)) : list (list Value) :=
  match rows with
  | [] => []
  | r :: rest =>
      if bool_decide (key r ∈ seen) then keep_first key seen rest
      else r :: keep_first key (key r :: seen) rest
  end.

Definition drop_duplicates (df : DataFrame) (subset : string) : Result DataFrame :=
  match index_of subset (df_columns df) with
  | None => Raise (KeyError subset)
  | Some i => Ok (mkDataFrame (df_columns df) (keep_first (fun r => cell r i) [] (df_rows df)))
  end.

(** [df[col] = df[col].replace('', None)] *)
Definition replace_empty_with_none (df : DataFrame) (col : string) : Result DataFrame :=
  match index_of col (df_columns df) with
  | None => Raise (KeyError col)
  | Some i =>
      Ok (mkDataFrame (df_columns df)
            (map (fun r => if bool_decide (cell r i = VText "") then <[i := VNull]> r else r)
                 (df_rows df)))
  end.

Section Loader.
Context (L : Lib).

(** [cursor.execute(stmt)] on the connection's database. *)
Definition execute {A} (conn : Connection) (stmt : Database -> Result (A * Database)) : M A :=
  fun w =>
    match fs w !! conn_file conn with
    | Some (SqliteFile db) =>
        match stmt db with
        | Ok (a, db') =>
            (Ok a, mkWorld (py_random w) (faker_random w)
                     (<[conn_file conn := SqliteFile db']> (fs w)) (stdout w))
        | Raise e => (Raise e, w)
        end
    | Some (TextFile _) => (Raise (OperationalError "file is not a database"), w)
    | None => (Raise (OperationalError "unable to open database file"), w)
    end.

(** [sqlite3.connect(path)]: opens the file, creating an empty database
    when there is none; foreign keys are not enforced until asked. *)
Definition connect (path : string) : M Connection :=
  fun w =>
    match fs w !! path with
    | Some _ => (Ok (mkConnection path false), w)
    | None =>
        (Ok (mkConnection path false),
         mkWorld (py_random w) (faker_random w)
           (<[path := SqliteFile empty_database]> (fs w)) (stdout w))
    end.

(** [conn.execute("PRAGMA foreign_keys = ON")] *)
Definition enable_foreign_keys (conn : Connection) : Connection :=
  mkConnection (conn_file conn) true.

(** [pd.read_csv(path)] *)
Definition read_csv (path : string) : M DataFrame :=
  fun w =>
    match fs w !! path with
    | Some (TextFile bytes) => (read_csv_bytes L bytes, w)
    | Some (SqliteFile _) => (Raise ParserError, w)
    | None => (Raise (FileNotFoundError path), w)
    end.

(** [df.to_sql(table_name, conn, if_exists='append', index=False,
    method='multi')]; pandas creates a plain table when there is none. *)
Definition to_sql (df : DataFrame) (table_name : string) (conn : Connection) : M unit :=
  execute conn (fun db =>
    let db1 :=
      match db_tables db !! table_name with
      | Some _ => db
      | None =>
          mkDatabase
            (<[table_name := mkTable (mkTableSchema (map (fun c => (c, false)) (df_columns df))
                                        None []) []]> (db_tables db))
            (db_indexes db)
      end in
    match insert_rows (conn_foreign_keys conn) table_name (df_columns df) db1 (df_rows df) with
    | Ok db2 => Ok (tt, db2)
    | Raise e => Raise e
    end).

Definition create_database_schema (conn : Connection) : M unit :=
  let! _ := print "Creating database schema..." in
  let! _ := execute conn (drop_table_if_exists "shipments") in
  let! _ := execute conn (drop_table_if_exists "order_items") in
  let! _ := execute conn (drop_table_if_exists "orders") in
  let! _ := execute conn (drop_table_if_exists "products") in
  let! _ := execute conn (drop_table_if_exists "customers") in
  let! _ := execute conn (create_table "customers" customers_schema) in
  let! _ := execute conn (create_table "products" products_schema) in
  let! _ := execute conn (create_table "orders" orders_schema) in
  let! _ := execute conn (create_table "order_items" order_items_schema) in
  let! _ := execute conn (create_table "shipments" shipments_schema) in
  print "[OK] Database schema created successfully".

Definition duplicates_warning (duplicates_removed : Z) (primary_key_col : string) : string :=
  "  Warning: Removed " +:+ str_of_Z duplicates_removed +:+ " duplicate rows based on "
  +:+ primary_key_col.

Definition load_failed_line (csv_file : string) (e : Exception) : string :=
  "  [ERROR] Failed to load " +:+ csv_file +:+ ": " +:+ exception_text e.

Definition load_csv_to_table (conn : Connection) (csv_file table_name primary_key_col : string)
    : M unit :=
  try_except
    (let! _ := print "" in
     let! _ := print ("Loading " +:+ csv_file +:+ " into " +:+ table_name +:+ "...") in
     let! present := path_exists csv_file in
     let! _ := if present then ret tt
               else raise (FileNotFoundError ("CSV file not found: " +:+ csv_file)) in
     let! df := read_csv csv_file in
     let! df := if String.eqb table_name "orders"
                then lift (replace_empty_with_none df "ship_date")
                else ret df in
     let initial_rows := length (df_rows df) in
     let! df := lift (drop_duplicates df primary_key_col) in
     let duplicates_removed := Z.of_nat initial_rows - Z.of_nat (length (df_rows df)) in
     let! _ := if 0 <? duplicates_removed
               then print (duplicates_warning duplicates_removed primary_key_col)
               else ret tt in
     let! _ := to_sql df table_name conn in
     print ("  [OK] Loaded " +:+ str_of_Z (Z.of_nat (length (df_rows df))) +:+ " rows into "
            +:+ table_name))
    (fun e =>
       let! _ := print (load_failed_line csv_file e) in
       raise e).

Definition INDEXES : list (string * string * string) :=
  [ ("idx_orders_customer_id", "orders", "customer_id");
    ("idx_order_items_order_id", "order_items", "order_id");
    ("idx_order_items_product_id", "order_items", "product_id");
    ("idx_shipments_order_id", "shipments", "order_id");
    ("idx_customers_email", "customers", "email");
    ("idx_products_category", "products", "category");
    ("idx_orders_status", "orders", "status");
    ("idx_orders_order_date", "orders", "order_date") ].

Definition create_indexes (conn : Connection) : M unit :=
  let! _ := print "" in
  let! _ := print "Creating indexes..." in
  for_each INDEXES (fun '(index_name, table_name, column_name) =>
    try_except
      (let! _ := execute conn (create_index_if_not_exists index_name table_name column_name) in
       print ("  [OK] Created index " +:+ index_name +:+ " on " +:+ table_name +:+ "."
              +:+ column_name))
      (fun e =>
         print ("  [ERROR] Failed to create index " +:+ index_name +:+ ": "
                +:+ exception_text e))).

Definition TABLES : list string :=
  [ "customers"; "products"; "orders"; "order_items"; "shipments" ].

(** The width and thousands separators of the printed counts are left out. *)
Definition print_table_counts (conn : Connection) : M unit :=
  let! _ := print "" in
  let! _ := print "ROW COUNTS PER TABLE" in
  for_each TABLES (fun table =>
    try_except
      (let! count := execute conn (select_count table) in
       print (table +:+ ": " +:+ str_of_Z count +:+ " rows"))
      (fun e => print (table +:+ ": ERROR - " +:+ exception_text e))).

(** The loop over [checks] that prints each line and clears [all_passed]
    on a failed check. *)
Fixpoint report_checks (checks : list (string * bool * Z)) (all_passed : bool) : M bool :=
  match checks with
  | [] => ret all_passed
  | (check_name, passed, orphan_count) :: rest =>
      let! _ := print (check_name +:+ ": " +:+ (if passed then "[PASS]" else "[FAIL]")
                       +:+ " (orphan rows: " +:+ str_of_Z orphan_count +:+ ")") in
      report_checks rest (if negb passed then false else all_passed)
  end.

Definition verify_referential_integrity (conn : Connection) : M bool :=
  let! _ := print "" in
  let! _ := print "REFERENTIAL INTEGRITY VERIFICATION" in
  let checks := [] in
  let! orphan_orders :=
    execute conn (select_orphan_count "orders" "customer_id" "customers" "customer_id") in
  let checks := checks ++ [("Orders -> Customers", orphan_orders =? 0, orphan_orders)] in
  let! orphan_order_items_orders :=
    execute conn (select_orphan_count "order_items" "order_id" "orders" "order_id") in
  let checks := checks ++ [("Order Items -> Orders", orphan_order_items_orders =? 0,
                            orphan_order_items_orders)] in
  let! orphan_order_items_products :=
    execute conn (select_orphan_count "order_items" "product_id" "products" "product_id") in
  let checks := checks ++ [("Order Items -> Products", orphan_order_items_products =? 0,
                            orphan_order_items_products)] in
  let! orphan_shipments :=
    execute conn (select_orphan_count "shipments" "order_id" "orders" "order_id") in
  let checks := checks ++ [("Shipments -> Orders", orphan_shipments =? 0, orphan_shipments)] in
  let! all_passed := report_checks checks true in
  let! _ := if all_passed
            then print "[OK] All referential integrity checks passed!"
            else print "[ERROR] Some referential integrity checks failed!" in
  ret all_passed.

Definition csv_files : list (string * (string * string)) :=
  [ ("customers.csv", ("customers", "customer_id"));
    ("products.csv", ("products", "product_id"));
    ("orders.csv", ("orders", "order_id"));
    ("order_items.csv", ("order_items", "order_item_id"));
    ("shipments.csv", ("shipments", "shipment_id")) ].

Definition load_order : list string :=
  [ "customers.csv"; "products.csv"; "orders.csv"; "order_items.csv"; "shipments.csv" ].

(** [[f for f in csv_files.keys() if not os.path.exists(f)]] *)
Definition missing_csv_files : M (list string) :=
  fun w => (Ok (List.filter (fun f => negb (bool_decide (is_Some (fs w !! f))))
                  (map fst csv_files)), w).

Definition missing_files_line (missing_files : list string) : string :=
  "[ERROR] Missing CSV files: " +:+ join ", " missing_files.

Definition main : M unit :=
  let! _ := print "E-COMMERCE DATABASE LOADING SCRIPT" in
  let! missing_files := missing_csv_files in
  match missing_files with
  | _ :: _ =>
      let! _ := print "" in
      let! _ := print (missing_files_line missing_files) in
      print "Please ensure all CSV files are in the current directory."
  | [] =>
      try_except
        (let! db_present := path_exists DB_FILE in
         let! _ := if db_present
                   then let! _ := print "" in
                        let! _ := print ("Removing existing database: " +:+ DB_FILE) in
                        remove_file DB_FILE
                   else ret tt in
         let! conn := connect DB_FILE in
         let! _ := print "" in
         let! _ := print ("[OK] Connected to database: " +:+ DB_FILE) in
         let conn := enable_foreign_keys conn in
         let! _ := print "[OK] Foreign key constraints enabled" in
         let! _ := create_database_schema conn in
         let! _ := for_each load_order (fun csv_file =>
                     match list_to_map (M := gmap string (string * string)) csv_files !! csv_file with
                     | Some (table_name, primary_key) =>
                         load_csv_to_table conn csv_file table_name primary_key
                     | None => raise (KeyError csv_file)
                     end) in
         let! _ := create_indexes conn in
         let! _ := print_table_counts conn in
         let! integrity_ok := verify_referential_integrity conn in
         let! _ := print "" in
         let! _ := if integrity_ok
                   then print "DATABASE LOADING COMPLETED SUCCESSFULLY!"
                   else print "DATABASE LOADING COMPLETED WITH WARNINGS!" in
         let! _ := print "" in
         print ("Database saved to: " +:+ DB_FILE))
        (fun e =>
           let! _ := print "" in
           print ("[ERROR] Database operation failed: " +:+ exception_text e))
  end.

End Loader.

(* ===================================================================== *)
(** * Properties of the generated data and of the store                   *)
(* ===================================================================== *)

(** The rule tying an order's ship date to its status. *)
Definition ship_date_rule (o : Order) : Prop :=
  (ship_date o = None <-> status o ∈ ["Pending"; "Cancelled"]) /\
  (status o ∉ ["Pending"; "Cancelled"] ->
   exists days, 1 <= days <= 7 /\ ship_date o = Some (order_date o + days)).

(** An order refers to a customer of the frame, and is dated within
    [max(signup, START_DATE) .. END_DATE] for the customer it refers to. *)
Definition order_after_signup (customers : list Customer) (o : Order) : Prop :=
  (exists c, c ∈ customers /\ customer_id c = o_customer_id o) /\
  (forall c, c ∈ customers -> customer_id c = o_customer_id o ->
     Z.max (signup_date c) START_DATE <= order_date o <= END_DATE /\
     signup_date c <= order_date o).


(** The shipment-date rule as the specification words it: on or after the
    order's ship date when that is set, else on or after its order date, and
    never after [END_DATE]. *)
Definition shipment_date_claim (orders : list Order) (s : Shipment) : Prop :=
  exists o, o ∈ orders /\ order_id o = s_order_id s /\
    match ship_date o with
    | Some d => d <= shipment_date s
    | None => order_date o <= shipment_date s
    end /\
    shipment_date s <= END_DATE.

(** The shipment-date rule the generator follows: a ship date that falls
    after [END_DATE] is set aside and the order date takes its place. *)
Definition shipment_date_rule (orders : list Order) (s : Shipment) : Prop :=
  (exists o, o ∈ orders /\ order_id o = s_order_id s) /\
  (forall o, o ∈ orders -> order_id o = s_order_id s ->
     (forall d, ship_date o = Some d -> d <= END_DATE -> d <= shipment_date s) /\
     (ship_date o = None \/ (exists d, ship_date o = Some d /\ END_DATE < d) ->
      order_date o <= shipment_date s) /\
     shipment_date s <= END_DATE).

(** Orders that may be shipped. *)
Definition shippable (orders : list Order) : list Order :=
  filter (fun o => status o ∈ ["Shipped"; "Delivered"]) orders.

Definition ships_shippable_order (orders : list Order) (s : Shipment) : Prop :=
  exists o, o ∈ orders /\ order_id o = s_order_id s /\ status o ∈ ["Shipped"; "Delivered"].

(** Every foreign key of a child frame is a key of its parent frame. *)
Definition foreign_keys_closed (d : Datasets) : Prop :=
  Forall (fun o => o_customer_id o ∈ map customer_id (df_customers d)) (df_orders d) /\
  Forall (fun it => oi_order_id it ∈ map order_id (df_orders d) /\
                    oi_product_id it ∈ map product_id (df_products d)) (df_order_items d) /\
  Forall (fun s => s_order_id s ∈ map order_id (df_orders d)) (df_shipments d).

(** A run from [w] that does not end in a failed [assert]. *)
Definition never_asserts_at {A} (m : M A) (w : World) : Prop :=
  forall e w', m w = (Raise e, w') -> forall msg, e <> AssertionError msg.

(** Statements that only draw from the two random sources: they print
    nothing, write no file and fail no assertion. *)
Inductive draws_only : forall {A}, M A -> Prop :=
  | draws_ret {A} (a : A) : draws_only (ret a)
  | draws_raise {A} (e : Exception) :
      (forall msg, e <> AssertionError msg) -> draws_only (@raise A e)
  | draws_py : draws_only py_raw
  | draws_faker : draws_only faker_raw
  | draws_bind {A B} (m : M A) (k : A -> M B) :
      draws_only m -> (forall a, draws_only (k a)) -> draws_only (bind m k).

(** Two states whose random sources stand at the same point. *)
Definition same_draws (w w' : World) : Prop :=
  py_random w = py_random w' /\ faker_random w = faker_random w'.

(** A statement whose outcome and draws depend on the state of the random
    sources only. *)
Definition rng_driven {A} (m : M A) : Prop :=
  forall w w', same_draws w w' ->
    fst (m w) = fst (m w') /\ same_draws (snd (m w)) (snd (m w')).

Definition CSV_PATHS : list string :=
  [ "customers.csv"; "products.csv"; "orders.csv"; "order_items.csv"; "shipments.csv" ].

(** The rows of [child] whose value in column [i] equals the value in
    column [j] of no row of [parent]: the orphan rows of a relationship. *)
Definition orphan_rows (i j : nat) (child parent : list (list Value)) : list (list Value) :=
  List.filter (fun c => negb (existsb (fun p => sql_eq (cell c i) (cell p j)) parent)) child.

(** The four foreign-key relationships of the store, as
    (child table, child column, parent table, parent column). *)
Definition RELATIONSHIPS : list (string * string * string * string) :=
  [ ("orders", "customer_id", "customers", "customer_id");
    ("order_items", "order_id", "orders", "order_id");
    ("order_items", "product_id", "products", "product_id");
    ("shipments", "order_id", "orders", "order_id") ].

(** The orphan rows of one relationship in a database, when its two tables
    and columns exist. *)
Definition orphans_of (db : Database) (rel : string * string * string * string)
    : option (list (list Value)) :=
  let '(child, child_col, parent, parent_col) := rel in
  ct ← db_tables db !! child;
  pt ← db_tables db !! parent;
  i ← index_of child_col (table_columns ct);
  j ← index_of parent_col (table_columns pt);
  Some (orphan_rows i j (tbl_rows ct) (tbl_rows pt)).



(** ** Small instances on which the statements are exercised *)

Definition counting : nat -> N := N.of_nat.
Definition counting_from (k : nat) : nat -> N := fun i => N.of_nat (k + i).
Definition always (x : N) : nat -> N := fun _ => x.

(** A customers file in which the id 1 comes twice. *)
Definition dup_frame : DataFrame :=
  mkDataFrame
    [ "customer_id"; "first_name"; "last_name"; "email"; "signup_date"; "country" ]
    [ [ VInt 1; VText "Ann"; VText "Lee"; VText "ann@example.org"; VText "2022-01-04";
        VText "Canada" ];
      [ VInt 2; VText "Bob"; VText "Ray"; VText "bob@example.org"; VText "2023-05-06";
        VText "Japan" ];
      [ VInt 1; VText "Amy"; VText "Lin"; VText "amy@example.org"; VText "2024-07-08";
        VText "Spain" ] ].

(** Libraries over two given raw streams; the reader knows one file. *)
Definition demo_lib (faker_draws py_draws : nat -> N) : Lib :=
  mkLib (fun _ => py_draws) (fun _ => faker_draws)
        (fun _ => "Ann") (fun _ => "Lee") (fun _ => "example.org") (fun _ => "Acme")
        (fun _ => "")
        (fun bytes => if String.eqb bytes "customers, id 1 twice" then Ok dup_frame
                      else Raise ParserError).

Definition demo_world (faker_draws py_draws : nat -> N) : World :=
  mkWorld (mkRng py_draws O) (mkRng faker_draws O) ∅ [].

Definition demo_customers : list Customer :=
  [ mkCustomer 1 "Ann" "Lee" "ann.lee100@example.org" (ymd 2022 1 4) "United Kingdom";
    mkCustomer 2 "Ann" "Lee" "ann.lee102@example.org" (ymd 2022 1 8) "Australia" ].

Definition demo_orders : list Order :=
  [ mkOrder 1 1 (ymd 2022 1 4) (Some (ymd 2022 1 7)) "Processing";
    mkOrder 2 2 (ymd 2022 1 9) None "Cancelled" ].

Definition shipped_orders : list Order :=
  [ mkOrder 1 1 (ymd 2022 1 4) (Some (ymd 2022 1 7)) "Shipped";
    mkOrder 2 1 (ymd 2022 1 5) (Some (ymd 2022 1 8)) "Shipped" ].

Definition demo_shipments : list Shipment :=
  [ mkShipment 1 1 (ymd 2022 1 7) "FedEx" "FE1000000002" (500 # 100);
    mkShipment 2 1 (ymd 2022 1 8) "OnTrac" "ON1000000006" (500 # 100) ].



(** The frames of a run of sizes 1 with faker draws 0, 1, 2, ... and
    [random] draws 1, 2, 3, ... *)
Definition demo_datasets : Datasets :=
  mkDatasets
    [ mkCustomer 1 "Ann" "Lee" "ann.lee101@example.org" (ymd 2022 1 4) "Canada" ]
    [ mkProduct 1 "Acme Yoga Mat" "Sports & Outdoors" (500 # 100) (ymd 2022 1 6) ]
    [ mkOrder 1 1 (ymd 2022 1 10) (Some (ymd 2022 1 12)) "Shipped" ]
    [ mkOrderItem 1 1 1 3 (450 # 100) ]
    [ mkShipment 1 1 (ymd 2022 1 19) "USPS" "US1000000015" (500 # 100) ].

(** The frames of a run of sizes 1 whose customer signs up and orders on
    2025-10-30, with three days to the ship date. *)
Definition late_datasets : Datasets :=
  mkDatasets
    [ mkCustomer 1 "Ann" "Lee" "ann.lee102@example.org" (ymd 2025 10 30) "Canada" ]
    [ mkProduct 1 "Acme Table" "Home & Garden" (500 # 100) (ymd 2022 2 28) ]
    [ mkOrder 1 1 (ymd 2025 10 30) (Some (ymd 2025 11 2)) "Shipped" ]
    [ mkOrderItem 1 1 1 3 (450 # 100) ]
    [ mkShipment 1 1 (ymd 2025 10 30) "USPS" "US1000000002" (500 # 100) ].

(** A machine that has seen other work: its sources stand elsewhere, a file
    lies on disk and a line is on the console. *)
Definition used_world : World :=
  mkWorld (mkRng (always 7) 12) (mkRng (always 9) 3)
    {[ "notes.txt" := TextFile "to do" ]} [ "earlier output" ].

(** The store as [create_database_schema] leaves it. *)
Definition created_db : Database :=
  mkDatabase
    (list_to_map
       [ ("customers", mkTable customers_schema []);
         ("products", mkTable products_schema []);
         ("orders", mkTable orders_schema []);
         ("order_items", mkTable order_items_schema []);
         ("shipments", mkTable shipments_schema []) ])
    [].

Definition demo_conn : Connection := mkConnection DB_FILE true.

Definition world_with_files (files : list (string * File)) : World :=
  mkWorld (mkRng counting O) (mkRng counting O) (list_to_map files) [].

(** The duplicated customers file next to a freshly created store. *)
Definition dup_world : World :=
  world_with_files
    [ ("customers.csv", TextFile "customers, id 1 twice");
      (DB_FILE, SqliteFile created_db) ].


Definition customer_1 : list Value :=
  [ VInt 1; VText "Ann"; VText "Lee"; VText "ann@example.org"; VText "2022-01-04";
    VText "Canada" ].
Definition order_of_customer (order customer : Z) : list Value :=
  [ VInt order; VInt customer; VText "2024-01-01"; VNull; VText "Pending" ].

(** A store in which order 2 refers to a customer 9 that does not exist. *)
Definition orphan_db : Database :=
  mkDatabase
    (list_to_map
       [ ("customers", mkTable customers_schema [ customer_1 ]);
         ("products", mkTable products_schema []);
         ("orders", mkTable orders_schema [ order_of_customer 1 1; order_of_customer 2 9 ]);
         ("order_items", mkTable order_items_schema []);
         ("shipments", mkTable shipments_schema []) ])
    [].

(** The same store without the stray order. *)
Definition clean_db : Database :=
  mkDatabase
    (list_to_map
       [ ("customers", mkTable customers_schema [ customer_1 ]);
         ("products", mkTable products_schema []);
         ("orders", mkTable orders_schema [ order_of_customer 1 1 ]);
         ("order_items", mkTable order_items_schema []);
         ("shipments", mkTable shipments_schema []) ])
    [].

(* ===================================================================== *)
(** * Further properties: the shape of the generated rows                 *)
(* ===================================================================== *)

(** What the customers loop puts in a row. *)
Definition customer_well_formed (c : Customer) : Prop :=
  START_DATE <= signup_date c <= SIGNUP_END /\
  country c ∈ COUNTRIES /\
  exists suffix domain,
    100 <= suffix <= 999 /\
    email c = lower (first_name c) +:+ "." +:+ lower (last_name c) +:+ str_of_Z suffix
              +:+ "@" +:+ domain.

(** What the products loop puts in a row: a template of the row's own
    category in the name, a price in whole cents from 5.00 to 5000.00. *)
Definition product_well_formed (p : Product) : Prop :=
  category p ∈ CATEGORIES /\
  (exists templates company template,
     PRODUCT_TEMPLATES !! category p = Some templates /\
     template ∈ templates /\
     name p = company +:+ " " +:+ template) /\
  (exists cents, 500 <= cents <= 500000 /\ price p = (inject_Z cents / 100)%Q) /\
  START_DATE <= launch_date p <= ymd 2025 9 1.

(** What the orders loop puts in a row, besides the customer. *)
Definition order_well_formed (o : Order) : Prop :=
  status o ∈ ORDER_STATUSES /\
  START_DATE <= order_date o <= END_DATE /\
  (forall d, ship_date o = Some d -> order_date o < d <= END_DATE + 7).

(** What the shipments loop puts in a row, besides the order and date. *)
Definition shipment_well_formed (s : Shipment) : Prop :=
  carrier s ∈ CARRIERS /\
  (exists digits,
     1000000000 <= digits <= 9999999999 /\
     tracking_number s = upper (substring 0 2 (carrier s)) +:+ str_of_Z digits) /\
  (exists cents, 500 <= cents <= 5000 /\ shipment_cost s = (inject_Z cents / 100)%Q).

(* ===================================================================== *)
(** * Further properties: the store and the console                       *)
(* ===================================================================== *)

(** ** Specifications of statements *)

(** From a state in [P], [m] ends normally in a state in [Q] of its
    result, or raises [e] in a state in [E e]. *)
Definition triple {A} (P : World -> Prop) (m : M A) (Q : A -> World -> Prop)
    (E : Exception -> World -> Prop) : Prop :=
  forall w, P w ->
    match m w with
    | (Ok a, w') => Q a w'
    | (Raise e, w') => E e w'
    end.

(** ** Invariants of the store *)

Definition SCHEMAS : list (string * TableSchema) :=
  [ ("customers", customers_schema); ("products", products_schema);
    ("orders", orders_schema); ("order_items", order_items_schema);
    ("shipments", shipments_schema) ].

(** The five tables are there, each with the schema
    [create_database_schema] gives it. *)
Definition has_schema (db : Database) : Prop :=
  Forall (fun '(name, schema) =>
            exists rows, db_tables db !! name = Some (mkTable schema rows)) SCHEMAS.

(** A stored row meets the constraints its table declares: its NOT NULL
    columns, and its foreign keys looked up in [db]. *)
Definition row_ok (db : Database) (t : Table) (r : list Value) : Prop :=
  check_not_null (tbl_schema t) r = Ok tt /\
  check_foreign_keys db (table_columns t) r (ts_foreign_keys (tbl_schema t)) = Ok tt.

Definition consistent (db : Database) : Prop :=
  forall name t, db_tables db !! name = Some t -> Forall (row_ok db t) (tbl_rows t).

(** [db'] has the tables of [db], with their schemas and at least their rows. *)
Definition extends (db db' : Database) : Prop :=
  forall name t, db_tables db !! name = Some t ->
    exists t', db_tables db' !! name = Some t' /\
               tbl_schema t' = tbl_schema t /\
               (forall r, r ∈ tbl_rows t -> r ∈ tbl_rows t').

Definition no_orphans (db : Database) : Prop :=
  Forall (fun rel => orphans_of db rel = Some []) RELATIONSHIPS.

(** [m] never prints [line]. *)
Definition never_prints {A} (line : string) (m : M A) : Prop :=
  forall w, exists lines, stdout (snd (m w)) = stdout w ++ lines /\ line ∉ lines.

Definition WARNINGS_LINE : string := "DATABASE LOADING COMPLETED WITH WARNINGS!".

(** The console shows what it showed at [s0] and, since, no [line]. *)
Definition console (s0 : list string) (line : string) (w : World) : Prop :=
  exists lines, stdout w = s0 ++ lines /\ line ∉ lines.

(** The database file at [path] holds a store that meets its constraints
    and has grown from [db0]; the other files are those of [fs0]. *)
Definition store_grows (path : string) (fs0 : gmap string File) (db0 : Database)
    (w : World) : Prop :=
  exists db, fs w = <[path := SqliteFile db]> fs0 /\ consistent db /\ extends db0 db.

(** Five small files that fit together, a sixth with an order of a customer
    who is not there, and a reader that knows them by their content. *)
Definition shop_frames : list (string * DataFrame) :=
  [ ("customers",
     mkDataFrame
       [ "customer_id"; "first_name"; "last_name"; "email"; "signup_date"; "country" ]
       [ customer_1 ]);
    ("products",
     mkDataFrame [ "product_id"; "name"; "category"; "price"; "launch_date" ]
       [ [ VInt 1; VText "Acme Mouse"; VText "Electronics"; VReal (Q2Qc (1999 # 100));
           VText "2022-01-04" ] ]);
    ("orders",
     mkDataFrame [ "order_id"; "customer_id"; "order_date"; "ship_date"; "status" ]
       [ [ VInt 1; VInt 1; VText "2024-01-01"; VText "2024-01-03"; VText "Shipped" ];
         [ VInt 2; VInt 1; VText "2024-02-01"; VText ""; VText "Pending" ] ]);
    ("stray orders",
     mkDataFrame [ "order_id"; "customer_id"; "order_date"; "ship_date"; "status" ]
       [ order_of_customer 1 1; order_of_customer 2 9 ]);
    ("order_items",
     mkDataFrame [ "order_item_id"; "order_id"; "product_id"; "quantity"; "item_price" ]
       [ [ VInt 1; VInt 1; VInt 1; VInt 2; VReal (Q2Qc (1899 # 100)) ];
         [ VInt 2; VInt 2; VInt 1; VInt 1; VReal (Q2Qc (2050 # 100)) ] ]);
    ("shipments",
     mkDataFrame
       [ "shipment_id"; "order_id"; "shipment_date"; "carrier"; "tracking_number";
         "shipment_cost" ]
       [ [ VInt 1; VInt 1; VText "2024-01-03"; VText "UPS"; VText "UP1000000002";
           VReal (Q2Qc (750 # 100)) ] ]) ].

Definition shop_lib : Lib :=
  mkLib (fun _ => counting) (fun _ => counting)
        (fun _ => "Ann") (fun _ => "Lee") (fun _ => "example.org") (fun _ => "Acme")
        (fun _ => "")
        (fun bytes => match list_to_map (M := gmap string DataFrame) shop_frames !! bytes with
                      | Some df => Ok df
                      | None => Raise ParserError
                      end).

(** The five files, and an old database in the way. *)
Definition shop_world : World :=
  world_with_files
    [ ("customers.csv", TextFile "customers"); ("products.csv", TextFile "products");
      ("orders.csv", TextFile "orders"); ("order_items.csv", TextFile "order_items");
      ("shipments.csv", TextFile "shipments"); (DB_FILE, SqliteFile orphan_db) ].

(** The same with the stray order in [orders.csv]. *)
Definition stray_world : World :=
  world_with_files
    [ ("customers.csv", TextFile "customers"); ("products.csv", TextFile "products");
      ("orders.csv", TextFile "stray orders"); ("order_items.csv", TextFile "order_items");
      ("shipments.csv", TextFile "shipments") ].

(** ** Files that fit the tables *)

(** The key of a row in the tables of the loader: its first cell. *)
Definition row_key (r : list Value) : Value := cell r 0.



(** [path] holds a CSV text that parses to [df]. *)
Definition parses_to (L : Lib) (w : World) (path : string) (df : DataFrame) : Prop :=
  exists bytes, fs w !! path = Some (TextFile bytes) /\ read_csv_bytes L bytes = Ok df.


(** A statement whose outcome and whose effect on the files depend on the
    files only: not on the console, not on the random sources. *)
Definition fs_driven {A} (m : M A) : Prop :=
  forall w w', fs w = fs w' ->
    fst (m w) = fst (m w') /\ fs (snd (m w)) = fs (snd (m w')).

(** [m] writes no file but [path]. *)
Definition only_writes {A} (path : string) (m : M A) : Prop :=
  forall w, delete path (fs (snd (m w))) = delete path (fs w).

(* ===================================================================== *)
(** * verify_integrity.py                                                 *)
(* ===================================================================== *)

(** The cells of a column of a frame, when it has one of that name. *)
Definition column_values (df : DataFrame) (col : string) : option (list Value) :=
  match index_of col (df_columns df) with
  | Some i => Some (map (fun r => cell r i) (df_rows df))
  | None => None
  end.

(** [frame[col]]: [KeyError] when there is no column of that name. *)
Definition column (df : DataFrame) (col : string) : M (list Value) :=
  match column_values df col with
  | Some cells => ret cells
  | None => raise (KeyError col)
  end.

(** [set(a).issubset(set(b))]: values compare as Python compares them,
    numbers by value and a missing value (NaN) equal to nothing. *)
Definition issubset (a b : list Value) : bool :=
  forallb (fun x => existsb (sql_eq x) b) a.

(** [str(b)] of a Python bool. *)
Definition str_of_bool (b : bool) : string := if b then "True" else "False".

Section VerifyIntegrity.
Context (L : Lib).

Definition verify_integrity : M unit :=
  let! customers := read_csv L "customers.csv" in
  let! products := read_csv L "products.csv" in
  let! orders := read_csv L "orders.csv" in
  let! order_items := read_csv L "order_items.csv" in
  let! shipments := read_csv L "shipments.csv" in
  let! _ := print "Referential Integrity Check:" in
  let! a := column orders "customer_id" in
  let! b := column customers "customer_id" in
  let! _ := print ("All order customer_ids in customers: " +:+ str_of_bool (issubset a b)) in
  let! a := column order_items "product_id" in
  let! b := column products "product_id" in
  let! _ := print ("All order_item product_ids in products: "
                   +:+ str_of_bool (issubset a b)) in
  let! a := column order_items "order_id" in
  let! b := column orders "order_id" in
  let! _ := print ("All order_item order_ids in orders: " +:+ str_of_bool (issubset a b)) in
  let! a := column shipments "order_id" in
  let! b := column orders "order_id" in
  let! _ := print ("All shipment order_ids in orders: " +:+ str_of_bool (issubset a b)) in
  let! _ := print "" in
  print "[OK] All checks passed!".

End VerifyIntegrity.

(* ===================================================================== *)
(** * test_fk_constraints.py                                              *)
(* ===================================================================== *)

(** [try: m  except sqlite3.IntegrityError as e: h str(e)]; any other
    exception passes through. *)
Definition try_except_integrity {A} (m : M A) (h : string -> M A) : M A :=
  fun w => match m w with
           | (Raise (IntegrityError msg), w') => h msg w'
           | outcome => outcome
           end.

(** [INSERT INTO table (columns) VALUES (row)] *)
Definition insert_into (foreign_keys : bool) (table : string) (columns : list string)
    (row : list Value) (db : Database) : Result (unit * Database) :=
  match insert_row foreign_keys table columns db row with
  | Ok db' => Ok (tt, db')
  | Raise e => Raise e
  end.

Definition test_fk_constraints : M unit :=
  let! conn := connect DB_FILE in
  let conn := enable_foreign_keys conn in
  let! _ := print "Testing Foreign Key Constraints..." in
  let! _ :=
    try_except_integrity
      (let! _ := execute conn
                   (insert_into (conn_foreign_keys conn) "orders"
                      [ "order_id"; "customer_id"; "order_date"; "status" ]
                      [ VInt 99999; VInt 99999; VText "2024-01-01"; VText "Pending" ]) in
       print "[FAIL] Foreign key constraint NOT enforced - invalid customer_id was accepted")
      (fun e =>
         let! _ := print "[PASS] Foreign key constraint enforced - invalid customer_id was rejected" in
         print ("      Error: " +:+ substring 0 60 e +:+ "...")) in
  let! _ :=
    try_except_integrity
      (let! _ := execute conn
                   (insert_into (conn_foreign_keys conn) "order_items"
                      [ "order_item_id"; "order_id"; "product_id"; "quantity"; "item_price" ]
                      [ VInt 99999; VInt 99999; VInt 1; VInt 1; VReal (Q2Qc 10) ]) in
       print "[FAIL] Foreign key constraint NOT enforced - invalid order_id was accepted")
      (fun e =>
         let! _ := print "[PASS] Foreign key constraint enforced - invalid order_id was rejected" in
         print ("      Error: " +:+ substring 0 60 e +:+ "...")) in
  let! _ :=
    try_except_integrity
      (let! _ := execute conn
                   (insert_into (conn_foreign_keys conn) "order_items"
                      [ "order_item_id"; "order_id"; "product_id"; "quantity"; "item_price" ]
                      [ VInt 99998; VInt 1; VInt 99999; VInt 1; VReal (Q2Qc 10) ]) in
       print "[FAIL] Foreign key constraint NOT enforced - invalid product_id was accepted")
      (fun e =>
         let! _ := print "[PASS] Foreign key constraint enforced - invalid product_id was rejected" in
         print ("      Error: " +:+ substring 0 60 e +:+ "...")) in
  let! _ :=
    try_except_integrity
      (let! _ := execute conn
                   (insert_into (conn_foreign_keys conn) "shipments"
                      [ "shipment_id"; "order_id"; "shipment_date"; "carrier";
                        "tracking_number"; "shipment_cost" ]
                      [ VInt 99999; VInt 99999; VText "2024-01-01"; VText "UPS";
                        VText "TEST123"; VReal (Q2Qc 10) ]) in
       print "[FAIL] Foreign key constraint NOT enforced - invalid order_id was accepted")
      (fun e =>
         let! _ := print "[PASS] Foreign key constraint enforced - invalid order_id was rejected" in
         print ("      Error: " +:+ substring 0 60 e +:+ "...")) in
  let! _ := print "" in
  print "[OK] All foreign key constraint tests completed!".

(** No row of [rows] has the integer [k] for key. *)
Definition key_absent (k : Z) (rows : list (list Value)) : Prop :=
  Forall (fun r => sql_eq (VInt k) (row_key r) = false) rows.

(* ===================================================================== *)
(** * Reasoning about script runs                                         *)
(* ===================================================================== *)

Lemma bind_ok {A B} (m : M A) (k : A -> M B) w b w' :
  bind m k w = (Ok b, w') ->
  exists a w1, m w = (Ok a, w1) /\ k a w1 = (Ok b, w').
Proof.
  unfold bind. destruct (m w) as [[a|e] w1]; intros H; [eauto | discriminate].
Qed.

Lemma bind_eq {A B} (m : M A) (k : A -> M B) w a w1 :
  m w = (Ok a, w1) -> bind m k w = k a w1.
Proof. unfold bind. intros ->. reflexivity. Qed.

Lemma bind_raise {A B} (m : M A) (k : A -> M B) w e w1 :
  m w = (Raise e, w1) -> bind m k w = (Raise e, w1).
Proof. unfold bind. intros ->. reflexivity. Qed.

Lemma ret_ok {A} (a b : A) w w' : ret a w = (Ok b, w') -> a = b /\ w = w'.
Proof. unfold ret. intros H. inversion H. auto. Qed.

(** Splits a successful run of a sequence of statements into the runs of
    its statements. *)
Ltac run_inv H :=
  repeat match type of H with
  | bind _ _ _ = (Ok _, _) =>
      let a := fresh "a" in let w := fresh "w" in let Ha := fresh "Hrun" in
      apply bind_ok in H; destruct H as (a & w & Ha & H)
  | ret _ _ = (Ok _, _) =>
      apply ret_ok in H; destruct H as [? ?]; subst
  end.

Lemma iterate_Forall {A} (P : A -> Prop) (body : Z -> M A) steps :
  (forall i w a w', body i w = (Ok a, w') -> P a) ->
  forall i acc w r w',
    Forall P acc -> iterate body steps i acc w = (Ok r, w') -> Forall P r.
Proof.
  intros Hbody. induction steps as [|k IH]; simpl; intros i acc w r w' Hacc H.
  - apply ret_ok in H as [-> _]. exact Hacc.
  - apply bind_ok in H as (a & w1 & Ha & H).
    eapply IH; [|exact H]. apply Forall_app. split; [exact Hacc|].
    constructor; [eauto | constructor].
Qed.

Lemma iterate_length {A} (body : Z -> M A) steps :
  forall i acc w r w',
    iterate body steps i acc w = (Ok r, w') -> length r = (length acc + steps)%nat.
Proof.
  induction steps as [|k IH]; simpl; intros i acc w r w' H.
  - apply ret_ok in H as [-> _]. lia.
  - apply bind_ok in H as (a & w1 & Ha & H).
    apply IH in H. rewrite length_app in H. simpl in H. lia.
Qed.

(** Rows are numbered by the loop counter. *)
Lemma iterate_ids {A} (f : A -> Z) (body : Z -> M A) steps :
  (forall i w a w', body i w = (Ok a, w') -> f a = i) ->
  forall i acc w r w',
    iterate body steps i acc w = (Ok r, w') -> map f r = map f acc ++ seqZ i (Z.of_nat steps).
Proof.
  intros Hbody. induction steps as [|k IH]; intros i acc w r w' H.
  - simpl in H. apply ret_ok in H as [-> _]. simpl. rewrite app_nil_r. reflexivity.
  - simpl in H. apply bind_ok in H as (a & w1 & Ha & H).
    apply IH in H. rewrite H, map_app. simpl. rewrite (Hbody _ _ _ _ Ha).
    rewrite <- app_assoc. f_equal. simpl.
    rewrite Nat2Z.inj_succ, (seqZ_cons i) by lia. f_equal. f_equal; lia.
Qed.

(** A loop whose body cannot fail runs to its end. *)
Lemma iterate_total {A} (body : Z -> M A) steps :
  (forall i w, exists a w', body i w = (Ok a, w')) ->
  forall i acc w, exists r w', iterate body steps i acc w = (Ok r, w').
Proof.
  intros Hbody. induction steps as [|k IH]; simpl; intros i acc w.
  - eexists _, _. reflexivity.
  - destruct (Hbody i w) as (a & w1 & Ha).
    rewrite (bind_eq _ _ _ _ _ Ha). apply IH.
Qed.

(** A loop stops at the first failure of its body. *)
Lemma iterate_raise_first {A} (body : Z -> M A) steps i acc w e w1 :
  body i w = (Raise e, w1) -> iterate body (S steps) i acc w = (Raise e, w1).
Proof. intros H. simpl. apply bind_raise. exact H. Qed.

Section GeneratorFacts.
Context (L : Lib).

Lemma py_raw_ok w : exists x w', py_raw w = (Ok x, w').
Proof. unfold py_raw. destruct (next_raw (py_random w)). eauto. Qed.

Lemma faker_raw_ok w : exists x w', faker_raw w = (Ok x, w').
Proof. unfold faker_raw. destruct (next_raw (faker_random w)). eauto. Qed.

Lemma randint_ok a b w x w' : randint a b w = (Ok x, w') -> a <= x <= b.
Proof.
  unfold randint. destruct (Z.ltb_spec b a) as [Hlt|Hle]; [discriminate|].
  intros H. run_inv H.
  match goal with
  | |- context [Z.of_N ?x mod ?n] => pose proof (Z.mod_pos_bound (Z.of_N x) n)
  end. lia.
Qed.

Lemma randint_total a b w : a <= b -> exists x w', randint a b w = (Ok x, w').
Proof.
  intros Hab. unfold randint. destruct (Z.ltb_spec b a) as [Hlt|Hle]; [lia|].
  destruct (py_raw_ok w) as (x & w' & Hx). rewrite (bind_eq _ _ _ _ _ Hx).
  eexists _, _. reflexivity.
Qed.

Lemma choice_ok {A} (seq : list A) w x w' : choice seq w = (Ok x, w') -> x ∈ seq.
Proof.
  unfold choice. destruct seq as [|d rest]; [discriminate|].
  intros H. run_inv H. apply list_elem_of_In, nth_In.
  match goal with
  | |- context [(?x mod ?n)%N] => pose proof (N.mod_upper_bound x n ltac:(simpl; lia))
  end. lia.
Qed.

Lemma choice_total {A} (seq : list A) w : seq <> [] -> exists x w', choice seq w = (Ok x, w').
Proof.
  intros Hne. unfold choice. destruct seq as [|d rest]; [congruence|].
  destruct (py_raw_ok w) as (x & w' & Hx). rewrite (bind_eq _ _ _ _ _ Hx).
  eexists _, _. reflexivity.
Qed.

Lemma choice_empty {A} w : choice (@nil A) w = (Raise IndexError, w).
Proof. reflexivity. Qed.

Lemma date_between_ok a b w d w' : date_between a b w = (Ok d, w') -> a <= d <= b.
Proof.
  unfold date_between. destruct (Z.ltb_spec b a) as [Hlt|Hle]; [discriminate|].
  intros H. run_inv H.
  match goal with
  | |- context [Z.of_N ?x mod ?n] => pose proof (Z.mod_pos_bound (Z.of_N x) n)
  end. lia.
Qed.

Lemma date_between_total a b w : a <= b -> exists d w', date_between a b w = (Ok d, w').
Proof.
  intros Hab. unfold date_between. destruct (Z.ltb_spec b a) as [Hlt|Hle]; [lia|].
  destruct (faker_raw_ok w) as (x & w' & Hx). rewrite (bind_eq _ _ _ _ _ Hx).
  eexists _, _. reflexivity.
Qed.

Lemma iloc0_ok {A} (l : list A) w x w' : iloc0 l w = (Ok x, w') -> head l = Some x /\ w' = w.
Proof. destruct l; simpl; [discriminate|]. intros H. apply ret_ok in H as [-> ->]. auto. Qed.

End GeneratorFacts.

(* ===================================================================== *)
(** * The generated orders                                                *)
(* ===================================================================== *)

Lemma head_filter_unique {A} (f : A -> Z) (l : list A) (x : A) :
  NoDup (map f l) -> x ∈ l -> head (filter (fun y => f y = f x) l) = Some x.
Proof.
  induction l as [|y l IH]; intros Hnd Hin.
  - inversion Hin.
  - simpl in Hnd. apply NoDup_cons in Hnd as [Hy Hnd].
    rewrite filter_cons. destruct (decide (f y = f x)) as [Heq|Hne].
    + simpl. f_equal. apply elem_of_cons in Hin as [->|Hin]; [reflexivity|].
      exfalso. apply Hy. rewrite Heq. apply list_elem_of_fmap. eauto.
    + apply elem_of_cons in Hin as [->|Hin]; [congruence|]. auto.
Qed.

Lemma head_filter_elem {A} (P : A -> Prop) `{forall x, Decision (P x)} (l : list A) (x : A) :
  head (filter P l) = Some x -> P x /\ x ∈ l.
Proof.
  intros Hh. apply (list_elem_of_filter P).
  destruct (filter P l) as [|y t]; simpl in Hh; [discriminate|].
  inversion Hh; subst. apply elem_of_cons. auto.
Qed.

Section OrdersFacts.
Context (L : Lib).

Lemma customer_row_id i w c w' : customer_row L i w = (Ok c, w') -> customer_id c = i.
Proof. unfold customer_row. intros H. run_inv H. reflexivity. Qed.

Lemma customer_row_signup i w c w' :
  customer_row L i w = (Ok c, w') -> START_DATE <= signup_date c <= SIGNUP_END.
Proof.
  unfold customer_row. intros H. run_inv H. simpl.
  eapply date_between_ok; eauto.
Qed.

(** Customer ids are 1, 2, ... in row order. *)
Lemma generate_customers_ids n w customers w' :
  generate_customers L n w = (Ok customers, w') ->
  map customer_id customers = seqZ 1 (Z.of_nat (Z.to_nat (n + 1 - 1))).
Proof.
  unfold generate_customers, for_range. intros H.
  apply (iterate_ids customer_id) in H; [exact H|].
  intros. eapply customer_row_id; eauto.
Qed.

Lemma order_row_ok customers ids i w o w' :
  order_row customers ids i w = (Ok o, w') ->
  order_id o = i /\
  o_customer_id o ∈ ids /\
  (exists c, head (filter (fun c => customer_id c = o_customer_id o) customers) = Some c /\
             Z.max (signup_date c) START_DATE <= order_date o <= END_DATE) /\
  status o ∈ ORDER_STATUSES /\
  (if bool_decide (status o ∈ ["Pending"; "Cancelled"])
   then ship_date o = None
   else exists days, 1 <= days <= 7 /\ ship_date o = Some (order_date o + days)).
Proof.
  unfold order_row. intros H.
  apply bind_ok in H as (cid & w1 & Hcid & H).
  apply bind_ok in H as (signup & w2 & Hsignup & H).
  apply bind_ok in H as (odate & w3 & Hodate & H).
  apply bind_ok in H as (st & w4 & Hst & H).
  apply bind_ok in H as (sdate & w5 & Hsdate & H).
  apply ret_ok in H as [<- _]. simpl.
  apply choice_ok in Hcid. apply choice_ok in Hst.
  apply iloc0_ok in Hsignup as [Hhead _].
  apply date_between_ok in Hodate.
  split; [reflexivity|]. split; [exact Hcid|]. split.
  - destruct (filter (fun c => customer_id c = cid) customers) as [|c t] eqn:Hf;
      simpl in Hhead; [discriminate|].
    inversion Hhead; subst. exists c. auto.
  - split; [exact Hst|].
    destruct (bool_decide (st ∈ ["Pending"; "Cancelled"])).
    + apply ret_ok in Hsdate as [<- _]. reflexivity.
    + apply bind_ok in Hsdate as (days & w6 & Hdays & Hsdate).
      apply ret_ok in Hsdate as [<- _]. apply randint_ok in Hdays. eauto.
Qed.

(** C3. For every generated order, the ship date is absent exactly when
    the status is Pending or Cancelled; under any other status it is the
    order date plus a whole number of days between 1 and 7. *)
Theorem orders_ship_date_rule n customers w orders w' :
  generate_orders n customers w = (Ok orders, w') ->
  Forall ship_date_rule orders.
Proof.
  unfold generate_orders, for_range. intros H.
  eapply iterate_Forall in H; [exact H| |constructor].
  intros i w1 o w2 Hrow.
  apply order_row_ok in Hrow as (_ & _ & _ & _ & Hship).
  unfold ship_date_rule.
  destruct (bool_decide (status o ∈ ["Pending"; "Cancelled"])) eqn:Hst.
  - apply bool_decide_eq_true in Hst. rewrite Hship.
    split; [tauto|]. intros Hn. contradiction.
  - apply bool_decide_eq_false in Hst. destruct Hship as (days & Hdays & Hs).
    split; [|eauto]. rewrite Hs. split; [discriminate|]. intros Hin. contradiction.
Qed.

(** C7. Every generated order is dated between
    [max(signup date of its customer, START_DATE)] and [END_DATE], hence
    on or after the signup date of the customer it refers to. *)
Theorem orders_after_signup nc w0 customers w1 n w2 orders w3 :
  generate_customers L nc w0 = (Ok customers, w1) ->
  generate_orders n customers w2 = (Ok orders, w3) ->
  Forall (order_after_signup customers) orders.
Proof.
  intros Hc Ho. apply generate_customers_ids in Hc.
  assert (Hnd : NoDup (map customer_id customers)) by (rewrite Hc; apply NoDup_seqZ).
  unfold generate_orders, for_range in Ho.
  eapply iterate_Forall in Ho; [exact Ho| |constructor].
  intros i wa o wb Hrow.
  apply order_row_ok in Hrow as (_ & _ & (c & Hhead & Hrange) & _).
  split.
  - exists c. apply head_filter_elem in Hhead as [Hid Hin]. auto.
  - intros c' Hin' Hid'.
    rewrite <- Hid' in Hhead.
    rewrite (head_filter_unique customer_id customers c' Hnd Hin') in Hhead.
    inversion Hhead; subst c'. lia.
Qed.

End OrdersFacts.

(* ===================================================================== *)
(** * Prices and order items                                              *)
(* ===================================================================== *)

Lemma round_half_even_near (x : Q) :
  (inject_Z (round_half_even x) - (1 # 2) <= x <= inject_Z (round_half_even x) + (1 # 2))%Q.
Proof.
  unfold round_half_even.
  pose proof (Qfloor_le x) as Hlo. pose proof (Qlt_floor x) as Hhi.
  rewrite inject_Z_plus in Hhi. change (inject_Z 1) with 1%Q in Hhi.
  destruct (Qcompare_spec (x - inject_Z (Qfloor x)) (1 # 2)) as [He|Hl|Hg].
  - destruct (Z.even (Qfloor x)); [|rewrite inject_Z_plus; change (inject_Z 1) with 1%Q]; lra.
  - lra.
  - rewrite inject_Z_plus. change (inject_Z 1) with 1%Q. lra.
Qed.


Lemma unit_fraction_bounds (x : N) : (0 <= Z.of_N (x mod 2 ^ 53) # 2 ^ 53 <= 1)%Q.
Proof.
  pose proof (N.mod_upper_bound x (2 ^ 53)%N ltac:(discriminate)) as Hlt.
  unfold Qle. simpl.
  assert (E : Z.pos (2 ^ 53) = Z.of_N (2 ^ 53)%N) by reflexivity.
  rewrite E. set (m := (x mod 2 ^ 53)%N) in *. set (n := (2 ^ 53)%N) in *.
  clearbody m n. lia.
Qed.

Lemma uniform_ok (a b : Q) w x w' :
  (a <= b)%Q -> uniform a b w = (Ok x, w') -> (a <= x <= b)%Q.
Proof.
  intros Hab H. unfold uniform in H. run_inv H. unfold random_unit in Hrun. run_inv Hrun.
  match goal with
  | |- context [Z.of_N (?r mod _) # _] => pose proof (unit_fraction_bounds r) as Hu
  end.
  set (u := (Z.of_N _ # _)) in *.
  assert (0 <= (b - a) * u)%Q by (apply Qmult_le_0_compat; lra).
  assert (0 <= (b - a) * (1 - u))%Q by (apply Qmult_le_0_compat; lra).
  lra.
Qed.

Lemma uniform_total (a b : Q) w : exists x w', uniform a b w = (Ok x, w').
Proof.
  unfold uniform, random_unit.
  destruct (py_raw_ok w) as (x & w' & Hx).
  eexists _, _. unfold bind at 1. unfold bind at 1. rewrite Hx. reflexivity.
Qed.

Section ItemsFacts.
Context (L : Lib).



Lemma order_item_row_ok products order_ids product_ids i w it w' :
  order_item_row products order_ids product_ids i w = (Ok it, w') ->
  order_item_id it = i /\
  oi_order_id it ∈ order_ids /\
  oi_product_id it ∈ product_ids /\
  (exists p factor,
     head (filter (fun p => product_id p = oi_product_id it) products) = Some p /\
     (9 # 10 <= factor <= 11 # 10)%Q /\
     item_price it = round2 (price p * factor)) /\
  1 <= quantity it <= 5.
Proof.
  unfold order_item_row. intros H.
  apply bind_ok in H as (oid & w1 & Hoid & H).
  apply bind_ok in H as (pid & w2 & Hpid & H).
  apply bind_ok in H as (base & w3 & Hbase & H).
  apply bind_ok in H as (factor & w4 & Hfactor & H).
  apply bind_ok in H as (qty & w5 & Hqty & H).
  apply ret_ok in H as [<- _]. simpl.
  apply choice_ok in Hoid. apply choice_ok in Hpid.
  apply iloc0_ok in Hbase as [Hhead _].
  apply uniform_ok in Hfactor; [|lra]. apply randint_ok in Hqty.
  repeat split; try assumption; try lia.
  destruct (filter (fun p => product_id p = pid) products) as [|p t] eqn:Hf;
    simpl in Hhead; [discriminate|].
  inversion Hhead; subst. exists p, factor. auto.
Qed.


End ItemsFacts.

(* ===================================================================== *)
(** * Shipments                                                           *)
(* ===================================================================== *)

Lemma head_map_filter {A B} (f : A -> B) (P : A -> Prop) `{forall x, Decision (P x)}
    (l : list A) (y : B) :
  head (map f (filter P l)) = Some y -> exists x, head (filter P l) = Some x /\ f x = y.
Proof.
  destruct (filter P l) as [|x t]; simpl; [discriminate|].
  intros Hy. inversion Hy. eauto.
Qed.

Section ShipmentsFacts.

Lemma generate_orders_ok n customers w orders w' :
  generate_orders n customers w = (Ok orders, w') ->
  NoDup (map order_id orders) /\
  Forall (fun o => order_date o <= END_DATE /\
                   forall d, ship_date o = Some d -> order_date o <= d) orders.
Proof.
  unfold generate_orders, for_range. intros H. split.
  - apply (iterate_ids order_id) in H.
    + rewrite H. apply NoDup_seqZ.
    + intros. eapply order_row_ok; eauto.
  - eapply iterate_Forall in H; [exact H| |constructor].
    intros i wa o wb Hrow.
    apply order_row_ok in Hrow as (_ & _ & (c & _ & Hrange) & _ & Hship).
    split; [lia|]. intros d Hd.
    destruct (bool_decide (status o ∈ ["Pending"; "Cancelled"])).
    + congruence.
    + destruct Hship as (days & Hdays & Hs). rewrite Hs in Hd. inversion Hd. lia.
Qed.

Lemma shipment_row_ok orders eligible i w s w' :
  shipment_row orders eligible i w = (Ok s, w') ->
  shipment_id s = i /\
  s_order_id s ∈ eligible /\
  exists o, head (filter (fun o => order_id o = s_order_id s) orders) = Some o /\
    let earliest := default (order_date o) (ship_date o) in
    let earliest := if END_DATE <? earliest then order_date o else earliest in
    earliest <= shipment_date s <= Z.max earliest END_DATE.
Proof.
  unfold shipment_row. intros H.
  apply bind_ok in H as (oid & w1 & Hoid & H).
  apply bind_ok in H as (odate & w2 & Hodate & H).
  apply bind_ok in H as (sfo & w3 & Hsfo & H).
  apply bind_ok in H as (sdate & w4 & Hsdate & H).
  apply bind_ok in H as (carr & w5 & _ & H).
  apply bind_ok in H as (digits & w6 & _ & H).
  apply bind_ok in H as (cost & w7 & _ & H).
  apply ret_ok in H as [<- _]. simpl.
  apply choice_ok in Hoid.
  apply iloc0_ok in Hodate as [Hodate _]. apply iloc0_ok in Hsfo as [Hsfo _].
  apply head_map_filter in Hodate as (o & Ho & Hod).
  apply head_map_filter in Hsfo as (o' & Ho' & Hsd).
  rewrite Ho in Ho'. inversion Ho'; subst o'.
  apply date_between_ok in Hsdate.
  split; [reflexivity|]. split; [exact Hoid|].
  exists o. split; [exact Ho|]. subst odate sfo.
  destruct (ship_date o) as [d|]; simpl in *; exact Hsdate.
Qed.

Lemma shipment_row_total orders eligible i w :
  eligible <> [] ->
  (forall oid, oid ∈ eligible -> exists o, o ∈ orders /\ order_id o = oid) ->
  exists s w', shipment_row orders eligible i w = (Ok s, w').
Proof.
  intros Hne Hsub. unfold shipment_row.
  destruct (choice_total eligible w Hne) as (oid & w1 & Hoid).
  rewrite (bind_eq _ _ _ _ _ Hoid).
  apply choice_ok in Hoid. destruct (Hsub oid Hoid) as (o & Hin & Hid).
  assert (Hf : o ∈ filter (fun o => order_id o = oid) orders)
    by (apply list_elem_of_filter; auto).
  destruct (filter (fun o => order_id o = oid) orders) as [|o1 t]; [inversion Hf|].
  simpl. unfold bind at 1. simpl. unfold bind at 1. simpl.
  set (m0 := match ship_date o1 with Some d => d | None => order_date o1 end).
  set (m := if END_DATE <? m0 then order_date o1 else m0).
  destruct (date_between_total m (Z.max m END_DATE) w1 ltac:(lia)) as (sd & w2 & Hsd).
  rewrite (bind_eq _ _ _ _ _ Hsd).
  destruct (choice_total CARRIERS w2 ltac:(discriminate)) as (carr & w3 & Hcarr).
  rewrite (bind_eq _ _ _ _ _ Hcarr).
  destruct (randint_total 1000000000 9999999999 w3 ltac:(lia)) as (dg & w4 & Hdg).
  rewrite (bind_eq _ _ _ _ _ Hdg).
  destruct (uniform_total 5 50 w4) as (cost & w5 & Hcost).
  rewrite (bind_eq _ _ _ _ _ Hcost).
  eexists _, _. reflexivity.
Qed.

Lemma shippable_ids orders oid :
  oid ∈ map order_id (shippable orders) ->
  exists o, o ∈ orders /\ order_id o = oid /\ status o ∈ ["Shipped"; "Delivered"].
Proof.
  intros Hin. apply list_elem_of_fmap in Hin as (o & -> & Ho).
  apply list_elem_of_filter in Ho as [Hst Ho]. eauto.
Qed.

(** C10. With at least one shipment to generate, the shipments loop
    succeeds only when some order is Shipped or Delivered: over an empty
    set of such orders the first [random.choice] raises [IndexError] and no
    shipment is produced; otherwise the loop returns all its shipments,
    each of an order whose status is Shipped or Delivered. *)
Theorem shipments_need_shippable_order n orders w :
  1 <= n ->
  (shippable orders = [] -> generate_shipments n orders w = (Raise IndexError, w)) /\
  (shippable orders <> [] ->
   exists shipments w',
     generate_shipments n orders w = (Ok shipments, w') /\
     length shipments = Z.to_nat n /\
     Forall (ships_shippable_order orders) shipments).
Proof.
  intros Hn. unfold generate_shipments, while_le. fold (shippable orders). split.
  - intros ->. simpl.
    replace (Z.to_nat (n - 1 + 1)) with (S (Z.to_nat (n - 1))) by lia.
    apply iterate_raise_first. reflexivity.
  - intros Hne.
    set (eligible := map order_id (shippable orders)).
    assert (Hne' : eligible <> []).
    { subst eligible. destruct (shippable orders); [congruence|discriminate]. }
    assert (Hsub : forall oid, oid ∈ eligible -> exists o, o ∈ orders /\ order_id o = oid).
    { intros oid Hin. apply shippable_ids in Hin as (o & ? & ? & _). eauto. }
    destruct (iterate_total (shipment_row orders eligible) (Z.to_nat (n - 1 + 1))
                (fun i w => shipment_row_total orders eligible i w Hne' Hsub) 1 [] w)
      as (shipments & w' & Hrun).
    exists shipments, w'. split; [exact Hrun|]. split.
    + apply iterate_length in Hrun. simpl in Hrun. lia.
    + eapply iterate_Forall in Hrun; [exact Hrun| |constructor].
      intros i wa s wb Hrow. apply shipment_row_ok in Hrow as (_ & Hin & _).
      apply shippable_ids in Hin. exact Hin.
Qed.

(** C1, as the generator has it. Every generated shipment is of a
    generated order; it is dated on or after that order's ship date when
    the ship date is not after [END_DATE], on or after the order date when
    the ship date is absent or after [END_DATE], and never after
    [END_DATE]. *)
Theorem shipments_date_rule n customers w0 orders w1 m w2 shipments w3 :
  generate_orders n customers w0 = (Ok orders, w1) ->
  generate_shipments m orders w2 = (Ok shipments, w3) ->
  Forall (shipment_date_rule orders) shipments.
Proof.
  intros Ho Hs. apply generate_orders_ok in Ho as [Hnd Hdates].
  unfold generate_shipments, while_le in Hs.
  eapply iterate_Forall in Hs; [exact Hs| |constructor].
  intros i wa s wb Hrow.
  apply shipment_row_ok in Hrow as (_ & _ & (o & Hhead & Hrange)).
  split.
  - exists o. apply head_filter_elem in Hhead as [Hid Hin]. auto.
  - intros o' Hin' Hid'.
    rewrite <- Hid' in Hhead.
    rewrite (head_filter_unique order_id orders o' Hnd Hin') in Hhead.
    inversion Hhead; subst o'.
    rewrite Forall_forall in Hdates. destruct (Hdates o Hin') as [Hend Hship].
    simpl in Hrange.
    destruct (ship_date o) as [d|] eqn:Hd; simpl in Hrange.
    + specialize (Hship d eq_refl).
      destruct (Z.ltb_spec END_DATE d) as [Hlate|Hearly].
      * split; [intros d' Hd'; inversion Hd'; lia|]. split; lia.
      * split; [intros d' Hd'; inversion Hd'; lia|].
        split; [|lia]. intros [Hnone|(d' & Hd' & Hlate)]; [discriminate|].
        inversion Hd'. lia.
    + destruct (Z.ltb_spec END_DATE (order_date o)) as [Hlate|Hearly]; [lia|].
      split; [intros d' Hd'; discriminate|]. split; lia.
Qed.

End ShipmentsFacts.

(* ===================================================================== *)
(** * Statements that only draw                                           *)
(* ===================================================================== *)

Lemma draws_only_spec {A} (m : M A) :
  draws_only m ->
  forall w,
    never_asserts_at m w /\
    fs (snd (m w)) = fs w /\
    stdout (snd (m w)) = stdout w /\
    (forall w', same_draws w w' ->
       fst (m w) = fst (m w') /\ same_draws (snd (m w)) (snd (m w'))).
Proof.
  induction 1 as [A a|A e He| | |A B m k Hm IHm Hk IHk]; intros w.
  - split; [intros e w' H; discriminate|]. simpl. auto.
  - split; [intros e' w' H; inversion H; subst; exact He|]. simpl. auto.
  - unfold py_raw, next_raw. simpl.
    split; [intros e w' H; discriminate|].
    split; [reflexivity|]. split; [reflexivity|].
    intros w' [Hpy Hfk]. simpl. rewrite Hpy. unfold same_draws. simpl. auto.
  - unfold faker_raw, next_raw. simpl.
    split; [intros e w' H; discriminate|].
    split; [reflexivity|]. split; [reflexivity|].
    intros w' [Hpy Hfk]. simpl. rewrite Hfk. unfold same_draws. simpl. auto.
  - destruct (IHm w) as (Hna & Hfs & Hout & Hdr).
    split; [|split; [|split]].
    + intros e w' Hrun. unfold bind in Hrun.
      destruct (m w) as [[a|e1] w1] eqn:Hmw.
      * destruct (IHk a w1) as (Hna' & _). eapply Hna'; eauto.
      * inversion Hrun; subst. eapply Hna; eauto.
    + unfold bind. destruct (m w) as [[a|e1] w1]; simpl in *; [|exact Hfs].
      destruct (IHk a w1) as (_ & Hfs' & _). congruence.
    + unfold bind. destruct (m w) as [[a|e1] w1]; simpl in *; [|exact Hout].
      destruct (IHk a w1) as (_ & _ & Hout' & _). congruence.
    + intros w' Hsame. destruct (Hdr w' Hsame) as [Hres Hsame'].
      unfold bind. destruct (m w) as [[a|e1] w1]; destruct (m w') as [[a'|e1'] w1'];
        simpl in Hres, Hsame' |- *; try discriminate Hres.
      * inversion Hres; subst a'.
        destruct (IHk a w1) as (_ & _ & _ & Hdr'). apply Hdr'. exact Hsame'.
      * inversion Hres; subst e1'. split; [reflexivity|exact Hsame'].
Qed.

Lemma draws_iterate {A} (body : Z -> M A) steps :
  (forall i, draws_only (body i)) -> forall i acc, draws_only (iterate body steps i acc).
Proof.
  intros Hbody. induction steps as [|k IH]; simpl; intros i acc.
  - constructor.
  - constructor; [apply Hbody|]. intros. apply IH.
Qed.

Lemma draws_randint a b : draws_only (randint a b).
Proof.
  unfold randint. destruct (b <? a); repeat (constructor; try discriminate); intros.
Qed.

Lemma draws_choice {A} (seq : list A) : draws_only (choice seq).
Proof. unfold choice. destruct seq; repeat (constructor; try discriminate); intros. Qed.

Lemma draws_date_between a b : draws_only (date_between a b).
Proof.
  unfold date_between. destruct (b <? a); repeat (constructor; try discriminate); intros.
Qed.

Lemma draws_iloc0 {A} (l : list A) : draws_only (iloc0 l).
Proof. destruct l; simpl; constructor; discriminate. Qed.

Lemma draws_uniform a b : draws_only (uniform a b).
Proof. unfold uniform, random_unit. repeat (constructor; intros). Qed.

Create HintDb draws discriminated.
#[global] Hint Resolve draws_randint draws_choice draws_date_between draws_iloc0
  draws_uniform : draws.
#[global] Hint Constructors draws_only : draws.

(** Walks a straight-line block of drawing statements. *)
Ltac draws_block :=
  repeat match goal with
  | |- draws_only (bind _ _) => apply draws_bind; [|intros ?]
  | |- draws_only (@raise _ _) => apply draws_raise; discriminate
  | |- draws_only (if ?b then _ else _) => destruct b
  | |- draws_only (match ?x with Some _ => _ | None => _ end) => destruct x
  | |- draws_only _ => solve [auto with draws]
  end.

Section StagesDraw.
Context (L : Lib).

Lemma draws_generate_customers n : draws_only (generate_customers L n).
Proof.
  unfold generate_customers, for_range. apply draws_iterate. intros i.
  unfold customer_row, fake_first_name, fake_last_name, fake_domain_name. draws_block.
Qed.

Lemma draws_generate_products n : draws_only (generate_products L n).
Proof.
  unfold generate_products, for_range. apply draws_iterate. intros i.
  unfold product_row, fake_company. draws_block.
Qed.

Lemma draws_generate_orders n customers : draws_only (generate_orders n customers).
Proof.
  unfold generate_orders, for_range. apply draws_iterate. intros i.
  unfold order_row. draws_block.
Qed.

Lemma draws_generate_order_items n orders products :
  draws_only (generate_order_items n orders products).
Proof.
  unfold generate_order_items, while_le. apply draws_iterate. intros i.
  unfold order_item_row. draws_block.
Qed.

Lemma draws_generate_shipments n orders : draws_only (generate_shipments n orders).
Proof.
  unfold generate_shipments, while_le. apply draws_iterate. intros i.
  unfold shipment_row. draws_block.
Qed.

End StagesDraw.

#[global] Hint Resolve draws_generate_customers draws_generate_products
  draws_generate_orders draws_generate_order_items draws_generate_shipments : draws.

Lemma draws_keep_files {A} (m : M A) w r w' :
  draws_only m -> m w = (r, w') -> fs w' = fs w /\ stdout w' = stdout w.
Proof.
  intros Hm Hrun. destruct (draws_only_spec m Hm w) as (_ & Hfs & Hout & _).
  rewrite Hrun in Hfs, Hout. auto.
Qed.

Lemma draws_never_assert {A} (m : M A) w : draws_only m -> never_asserts_at m w.
Proof. intros Hm. apply (draws_only_spec m Hm w). Qed.

Lemma draws_rng_driven {A} (m : M A) : draws_only m -> rng_driven m.
Proof. intros Hm w w' Hsame. apply (draws_only_spec m Hm w). exact Hsame. Qed.

(* ===================================================================== *)
(** * Referential integrity of the generated frames                       *)
(* ===================================================================== *)

Lemma na_ret {A} (a : A) w : never_asserts_at (ret a) w.
Proof. intros e w' H. discriminate. Qed.

Lemma na_bind {A B} (m : M A) (k : A -> M B) w :
  never_asserts_at m w ->
  (forall a w1, m w = (Ok a, w1) -> never_asserts_at (k a) w1) ->
  never_asserts_at (bind m k) w.
Proof.
  intros Hm Hk e w' H. unfold bind in H.
  destruct (m w) as [[a|e1] w1] eqn:Hmw.
  - eapply Hk; eauto.
  - inversion H; subst. eapply Hm; eauto.
Qed.

Lemma na_total {A} (m : M A) w : (exists a w', m w = (Ok a, w')) -> never_asserts_at m w.
Proof. intros (a & w1 & Ha) e w' H. congruence. Qed.

Lemma print_total line w : exists u w', print line w = (Ok u, w').
Proof. eexists _, _. reflexivity. Qed.

Lemma write_file_total path f w : exists u w', write_file path f w = (Ok u, w').
Proof. eexists _, _. reflexivity. Qed.

Lemma orders_reference_customers n customers w orders w' :
  generate_orders n customers w = (Ok orders, w') ->
  Forall (fun o => o_customer_id o ∈ map customer_id customers) orders.
Proof.
  unfold generate_orders, for_range. intros H.
  eapply iterate_Forall in H; [exact H| |constructor].
  intros i wa o wb Hrow. eapply order_row_ok; eauto.
Qed.

Lemma order_items_reference_parents n orders products w items w' :
  generate_order_items n orders products w = (Ok items, w') ->
  Forall (fun it => oi_order_id it ∈ map order_id orders /\
                    oi_product_id it ∈ map product_id products) items.
Proof.
  unfold generate_order_items, while_le. intros H.
  eapply iterate_Forall in H; [exact H| |constructor].
  intros i wa it wb Hrow. apply order_item_row_ok in Hrow. tauto.
Qed.

Lemma shipments_reference_orders n orders w shipments w' :
  generate_shipments n orders w = (Ok shipments, w') ->
  Forall (fun s => s_order_id s ∈ map order_id orders) shipments.
Proof.
  unfold generate_shipments, while_le. intros H.
  eapply iterate_Forall in H; [exact H| |constructor].
  intros i wa s wb Hrow. apply shipment_row_ok in Hrow as (_ & Hin & _).
  apply list_elem_of_fmap in Hin as (o & -> & Ho).
  apply list_elem_of_filter in Ho as [_ Ho].
  apply list_elem_of_fmap. eauto.
Qed.

Lemma subset_of_Forall {A} (f : A -> Z) (l : list A) (ids : list Z) :
  Forall (fun x => f x ∈ ids) l ->
  (list_to_set (map f l) : gset Z) ⊆ list_to_set ids.
Proof.
  intros Hall k Hk. apply elem_of_list_to_set in Hk. apply elem_of_list_to_set.
  apply list_elem_of_fmap in Hk as (x & -> & Hx).
  rewrite Forall_forall in Hall. auto.
Qed.

(** On frames with closed foreign keys the four assertions pass. *)
Lemma verification_passes d w :
  foreign_keys_closed d -> exists w', verification d w = (Ok tt, w').
Proof.
  intros (Ho & Hi & Hs). unfold verification.
  assert (H1 := subset_of_Forall o_customer_id _ _ Ho).
  assert (H2 := subset_of_Forall oi_product_id (df_order_items d)
                  (map product_id (df_products d))
                  (Forall_impl _ _ _ Hi (fun _ H => proj2 H))).
  assert (H3 := subset_of_Forall oi_order_id (df_order_items d)
                  (map order_id (df_orders d))
                  (Forall_impl _ _ _ Hi (fun _ H => proj1 H))).
  assert (H4 := subset_of_Forall s_order_id _ _ Hs).
  unfold bind, print, py_assert; simpl.
  rewrite (bool_decide_eq_true_2 _ H1). simpl.
  rewrite (bool_decide_eq_true_2 _ H2). simpl.
  rewrite (bool_decide_eq_true_2 _ H3). simpl.
  rewrite (bool_decide_eq_true_2 _ H4). simpl.
  eexists. reflexivity.
Qed.

(* ===================================================================== *)
(** * The script as a whole                                               *)
(* ===================================================================== *)

Lemma print_inv line w u w' : print line w = (Ok u, w') ->
  fs w' = fs w /\ py_random w' = py_random w /\ faker_random w' = faker_random w.
Proof. unfold print. intros H. inversion H. simpl. auto. Qed.

Lemma rd_ret {A} (a : A) : rng_driven (ret a).
Proof. intros w w' Hs. simpl. auto. Qed.

Lemma rd_raise {A} (e : Exception) : rng_driven (@raise A e).
Proof. intros w w' Hs. simpl. auto. Qed.

Lemma rd_print line : rng_driven (print line).
Proof. intros w w' Hs. simpl. auto. Qed.

Lemma rd_write_file path f : rng_driven (write_file path f).
Proof. intros w w' Hs. simpl. auto. Qed.

Lemma rd_bind {A B} (m : M A) (k : A -> M B) :
  rng_driven m -> (forall a, rng_driven (k a)) -> rng_driven (bind m k).
Proof.
  intros Hm Hk w w' Hs. destruct (Hm w w' Hs) as [Hres Hs'].
  unfold bind. destruct (m w) as [[a|e] w1]; destruct (m w') as [[a'|e'] w1'];
    simpl in Hres, Hs' |- *; try discriminate Hres.
  - inversion Hres; subst a'. apply Hk. exact Hs'.
  - inversion Hres; subst e'. auto.
Qed.

Lemma rd_py_assert cond msg : rng_driven (py_assert cond msg).
Proof. unfold py_assert. destruct cond; [apply rd_ret|apply rd_raise]. Qed.

Create HintDb rd discriminated.
#[global] Hint Resolve rd_ret rd_raise rd_print rd_write_file rd_py_assert : rd.

Ltac rd_block :=
  repeat match goal with
  | |- rng_driven (bind _ _) => apply rd_bind; [|intros ?]
  | |- rng_driven _ => solve [auto with rd | apply draws_rng_driven; auto with draws]
  end.

Section ScriptFacts.
Context (L : Lib).

Lemma to_csv_inv frame path w u w' :
  to_csv L frame path w = (Ok u, w') ->
  fs w' = <[path := TextFile (to_csv_bytes L frame)]> (fs w).
Proof. unfold to_csv, write_file. intros H. inversion H. reflexivity. Qed.

Lemma rd_verification d : rng_driven (verification d).
Proof. unfold verification. rd_block. Qed.

Lemma verification_keeps_files d w r w' : verification d w = (r, w') -> fs w' = fs w.
Proof.
  unfold verification, bind, print, py_assert. simpl.
  repeat (destruct (bool_decide _); simpl); intros H; inversion H; reflexivity.
Qed.

Lemma rd_generate_body nc np no ni ns : rng_driven (generate_body L nc np no ni ns).
Proof.
  unfold generate_body, to_csv. rd_block. apply rd_verification.
Qed.

(** A successful run ran its five stages, and left each frame's CSV
    rendering in its file. *)
Lemma generate_body_inv nc np no ni ns w d w' :
  generate_body L nc np no ni ns w = (Ok d, w') ->
  (exists wa wa' wb wb' wc wc' wd wd' we we',
     generate_customers L nc wa = (Ok (df_customers d), wa') /\
     generate_products L np wb = (Ok (df_products d), wb') /\
     generate_orders no (df_customers d) wc = (Ok (df_orders d), wc') /\
     generate_order_items ni (df_orders d) (df_products d) wd
       = (Ok (df_order_items d), wd') /\
     generate_shipments ns (df_orders d) we = (Ok (df_shipments d), we')) /\
  fs w' =
    <["shipments.csv" := TextFile (to_csv_bytes L (ShipmentsFrame (df_shipments d)))]>
    (<["order_items.csv" := TextFile (to_csv_bytes L (OrderItemsFrame (df_order_items d)))]>
    (<["orders.csv" := TextFile (to_csv_bytes L (OrdersFrame (df_orders d)))]>
    (<["products.csv" := TextFile (to_csv_bytes L (ProductsFrame (df_products d)))]>
    (<["customers.csv" := TextFile (to_csv_bytes L (CustomersFrame (df_customers d)))]>
       (fs w))))).
Proof.
  unfold generate_body. intros H.
  apply bind_ok in H as (u1 & w1 & H1 & H). apply print_inv in H1 as (F1 & _).
  apply bind_ok in H as (u2 & w2 & H2 & H). apply print_inv in H2 as (F2 & _).
  apply bind_ok in H as (customers & w3 & Hc & H).
  pose proof (draws_keep_files _ _ _ _ (draws_generate_customers L nc) Hc) as [F3 _].
  apply bind_ok in H as (u4 & w4 & H4 & H). apply to_csv_inv in H4 as F4.
  apply bind_ok in H as (u5 & w5 & H5 & H). apply print_inv in H5 as (F5 & _).
  apply bind_ok in H as (u6 & w6 & H6 & H). apply print_inv in H6 as (F6 & _).
  apply bind_ok in H as (products & w7 & Hp & H).
  pose proof (draws_keep_files _ _ _ _ (draws_generate_products L np) Hp) as [F7 _].
  apply bind_ok in H as (u8 & w8 & H8 & H). apply to_csv_inv in H8 as F8.
  apply bind_ok in H as (u9 & w9 & H9 & H). apply print_inv in H9 as (F9 & _).
  apply bind_ok in H as (u10 & w10 & H10 & H). apply print_inv in H10 as (F10 & _).
  apply bind_ok in H as (orders & w11 & Ho & H).
  pose proof (draws_keep_files _ _ _ _ (draws_generate_orders no customers) Ho) as [F11 _].
  apply bind_ok in H as (u12 & w12 & H12 & H). apply to_csv_inv in H12 as F12.
  apply bind_ok in H as (u13 & w13 & H13 & H). apply print_inv in H13 as (F13 & _).
  apply bind_ok in H as (u14 & w14 & H14 & H). apply print_inv in H14 as (F14 & _).
  apply bind_ok in H as (items & w15 & Hi & H).
  pose proof (draws_keep_files _ _ _ _ (draws_generate_order_items ni orders products) Hi)
    as [F15 _].
  apply bind_ok in H as (u16 & w16 & H16 & H). apply to_csv_inv in H16 as F16.
  apply bind_ok in H as (u17 & w17 & H17 & H). apply print_inv in H17 as (F17 & _).
  apply bind_ok in H as (u18 & w18 & H18 & H). apply print_inv in H18 as (F18 & _).
  apply bind_ok in H as (shipments & w19 & Hs & H).
  pose proof (draws_keep_files _ _ _ _ (draws_generate_shipments ns orders) Hs) as [F19 _].
  apply bind_ok in H as (u20 & w20 & H20 & H). apply to_csv_inv in H20 as F20.
  apply bind_ok in H as (u21 & w21 & H21 & H). apply print_inv in H21 as (F21 & _).
  apply bind_ok in H as (u22 & w22 & Hv & H). apply verification_keeps_files in Hv as F22.
  apply ret_ok in H as [<- <-]. simpl. split.
  - do 10 eexists. repeat split; eassumption.
  - rewrite F22, F21, F20, F19, F18, F17, F16, F15, F14, F13, F12, F11, F10, F9, F8, F7,
      F6, F5, F4, F3, F2, F1. reflexivity.
Qed.

Lemma generate_body_closed nc np no ni ns w d w' :
  generate_body L nc np no ni ns w = (Ok d, w') -> foreign_keys_closed d.
Proof.
  intros H. apply generate_body_inv in H as [(wa & wa' & wb & wb' & wc & wc' & wd & wd'
    & we & we' & Hc & Hp & Ho & Hi & Hs) _].
  split; [|split].
  - eapply orders_reference_customers; eauto.
  - eapply order_items_reference_parents; eauto.
  - eapply shipments_reference_orders; eauto.
Qed.

End ScriptFacts.

Section ScriptTheorems.
Context (L : Lib).

Lemma generate_with_seeded nc np no ni ns fseed pseed w :
  generate_with L nc np no ni ns fseed pseed w =
  generate_body L nc np no ni ns
    (mkWorld (mkRng (random_stream L pseed) O) (mkRng (faker_stream L fseed) O)
       (fs w) (stdout w)).
Proof. reflexivity. Qed.

Lemma generate_body_never_asserts nc np no ni ns w :
  never_asserts_at (generate_body L nc np no ni ns) w.
Proof.
  unfold generate_body.
  apply na_bind; [apply na_total, print_total|intros u1 w1 _].
  apply na_bind; [apply na_total, print_total|intros u2 w2 _].
  apply na_bind; [apply draws_never_assert; auto with draws|intros customers w3 _].
  apply na_bind; [apply na_total, write_file_total|intros u4 w4 _].
  apply na_bind; [apply na_total, print_total|intros u5 w5 _].
  apply na_bind; [apply na_total, print_total|intros u6 w6 _].
  apply na_bind; [apply draws_never_assert; auto with draws|intros products w7 _].
  apply na_bind; [apply na_total, write_file_total|intros u8 w8 _].
  apply na_bind; [apply na_total, print_total|intros u9 w9 _].
  apply na_bind; [apply na_total, print_total|intros u10 w10 _].
  apply na_bind; [apply draws_never_assert; auto with draws|intros orders w11 Ho].
  apply na_bind; [apply na_total, write_file_total|intros u12 w12 _].
  apply na_bind; [apply na_total, print_total|intros u13 w13 _].
  apply na_bind; [apply na_total, print_total|intros u14 w14 _].
  apply na_bind; [apply draws_never_assert; auto with draws|intros items w15 Hi].
  apply na_bind; [apply na_total, write_file_total|intros u16 w16 _].
  apply na_bind; [apply na_total, print_total|intros u17 w17 _].
  apply na_bind; [apply na_total, print_total|intros u18 w18 _].
  apply na_bind; [apply draws_never_assert; auto with draws|intros shipments w19 Hs].
  apply na_bind; [apply na_total, write_file_total|intros u20 w20 _].
  apply na_bind; [apply na_total, print_total|intros u21 w21 _].
  apply na_bind; [|intros; apply na_ret].
  apply na_total.
  destruct (verification_passes (mkDatasets customers products orders items shipments) w21)
    as (wv & Hv); [|eauto].
  split; [|split]; simpl.
  - eapply orders_reference_customers; eauto.
  - eapply order_items_reference_parents; eauto.
  - eapply shipments_reference_orders; eauto.
Qed.

(** C2. Every foreign key of a generated child row is a key of its parent
    frame: an order's customer id, an order item's order and product ids,
    a shipment's order id. Hence no run of the script, whatever the sizes,
    seeds and draws, ends in a failed assertion of the verification block,
    and a run that ends well returns frames with closed foreign keys. *)
Theorem foreign_keys_closed_by_construction :
  (forall n customers w orders w',
     generate_orders n customers w = (Ok orders, w') ->
     Forall (fun o => o_customer_id o ∈ map customer_id customers) orders) /\
  (forall n orders products w items w',
     generate_order_items n orders products w = (Ok items, w') ->
     Forall (fun it => oi_order_id it ∈ map order_id orders /\
                       oi_product_id it ∈ map product_id products) items) /\
  (forall n orders w shipments w',
     generate_shipments n orders w = (Ok shipments, w') ->
     Forall (fun s => s_order_id s ∈ map order_id orders) shipments) /\
  (forall nc np no ni ns fseed pseed w,
     never_asserts_at (generate_with L nc np no ni ns fseed pseed) w) /\
  (forall nc np no ni ns fseed pseed w d w',
     generate_with L nc np no ni ns fseed pseed w = (Ok d, w') ->
     foreign_keys_closed d).
Proof.
  split; [exact orders_reference_customers|].
  split; [exact order_items_reference_parents|].
  split; [exact shipments_reference_orders|].
  split.
  - intros. intros e w' H. rewrite generate_with_seeded in H.
    eapply generate_body_never_asserts; eauto.
  - intros nc np no ni ns fseed pseed w d w' H. rewrite generate_with_seeded in H.
    eapply generate_body_closed; eauto.
Qed.

(** C8. Two runs of the script with the same sizes and the same two
    seeds, from any two states of the machine, end alike: with the same
    five frames row for row (or the same exception), and, when they end
    well, with the same bytes in each of the five CSV files. *)
Theorem same_seeds_same_datasets nc np no ni ns fseed pseed w1 w2 :
  fst (generate_with L nc np no ni ns fseed pseed w1)
    = fst (generate_with L nc np no ni ns fseed pseed w2) /\
  (forall d1 v1 d2 v2,
     generate_with L nc np no ni ns fseed pseed w1 = (Ok d1, v1) ->
     generate_with L nc np no ni ns fseed pseed w2 = (Ok d2, v2) ->
     d1 = d2 /\
     Forall (fun path => is_Some (fs v1 !! path) /\ fs v1 !! path = fs v2 !! path)
       CSV_PATHS).
Proof.
  assert (Hfst : fst (generate_with L nc np no ni ns fseed pseed w1)
                 = fst (generate_with L nc np no ni ns fseed pseed w2)).
  { rewrite !generate_with_seeded. apply rd_generate_body. split; reflexivity. }
  split; [exact Hfst|].
  intros d1 v1 d2 v2 H1 H2. rewrite H1, H2 in Hfst. simpl in Hfst.
  inversion Hfst; subst d2. split; [reflexivity|].
  rewrite generate_with_seeded in H1, H2.
  apply generate_body_inv in H1 as [_ F1]. apply generate_body_inv in H2 as [_ F2].
  simpl in F1, F2. rewrite F1, F2. unfold CSV_PATHS.
  repeat constructor; simplify_map_eq; eauto.
Qed.

End ScriptTheorems.

(* ===================================================================== *)
(** * How a run of the script can end                                     *)
(* ===================================================================== *)

Lemma START_DATE_le_SIGNUP_END : START_DATE <= SIGNUP_END.
Proof. vm_compute. discriminate. Qed.

Lemma START_DATE_le_launch_end : START_DATE <= ymd 2025 9 1.
Proof. vm_compute. discriminate. Qed.

Lemma SIGNUP_END_is_END_DATE : SIGNUP_END = END_DATE.
Proof. reflexivity. Qed.

Section Outcomes.
Context (L : Lib).

Lemma customer_row_total i w : exists c w', customer_row L i w = (Ok c, w').
Proof.
  unfold customer_row, fake_first_name, fake_last_name, fake_domain_name.
  destruct (faker_raw_ok w) as (x1 & w1 & H1).
  rewrite (bind_eq _ _ _ _ _ (bind_eq _ _ _ _ _ H1)). cbn [ret].
  destruct (faker_raw_ok w1) as (x2 & w2 & H2).
  rewrite (bind_eq _ _ _ _ _ (bind_eq _ _ _ _ _ H2)). cbn [ret].
  destruct (randint_total 100 999 w2 ltac:(lia)) as (x3 & w3 & H3).
  rewrite (bind_eq _ _ _ _ _ H3).
  destruct (faker_raw_ok w3) as (x4 & w4 & H4).
  rewrite (bind_eq _ _ _ _ _ (bind_eq _ _ _ _ _ H4)). cbn [ret].
  destruct (date_between_total START_DATE SIGNUP_END w4 START_DATE_le_SIGNUP_END)
    as (x5 & w5 & H5).
  rewrite (bind_eq _ _ _ _ _ H5).
  destruct (choice_total COUNTRIES w5 ltac:(discriminate)) as (x6 & w6 & H6).
  rewrite (bind_eq _ _ _ _ _ H6).
  eexists _, _. reflexivity.
Qed.

Lemma templates_of_category cat :
  cat ∈ CATEGORIES -> exists l, PRODUCT_TEMPLATES !! cat = Some l /\ l <> [].
Proof.
  unfold CATEGORIES. intros Hin.
  repeat (apply elem_of_cons in Hin as [->|Hin];
          [eexists; split; [vm_compute; reflexivity|discriminate]|]).
  inversion Hin.
Qed.

Lemma product_row_total i w : exists p w', product_row L i w = (Ok p, w').
Proof.
  unfold product_row, fake_company.
  destruct (choice_total CATEGORIES w ltac:(discriminate)) as (cat & w1 & H1).
  rewrite (bind_eq _ _ _ _ _ H1). apply choice_ok in H1.
  destruct (templates_of_category cat H1) as (l & Hl & Hne). rewrite Hl.
  unfold bind at 1. cbn [ret].
  destruct (choice_total l w1 Hne) as (template & w2 & H2).
  rewrite (bind_eq _ _ _ _ _ H2).
  destruct (faker_raw_ok w2) as (x3 & w3 & H3).
  rewrite (bind_eq _ _ _ _ _ (bind_eq _ _ _ _ _ H3)). cbn [ret].
  destruct (uniform_total 5 5000 w3) as (x4 & w4 & H4).
  rewrite (bind_eq _ _ _ _ _ H4).
  destruct (date_between_total START_DATE (ymd 2025 9 1) w4 START_DATE_le_launch_end)
    as (x5 & w5 & H5).
  rewrite (bind_eq _ _ _ _ _ H5).
  eexists _, _. reflexivity.
Qed.

Lemma order_row_total customers i w :
  customers <> [] ->
  Forall (fun c => signup_date c <= END_DATE) customers ->
  exists o w', order_row customers (map customer_id customers) i w = (Ok o, w').
Proof.
  intros Hne Hsignup. unfold order_row.
  destruct (choice_total (map customer_id customers) w) as (cid & w1 & H1).
  { destruct customers; [congruence|discriminate]. }
  rewrite (bind_eq _ _ _ _ _ H1). apply choice_ok in H1.
  apply list_elem_of_fmap in H1 as (c & -> & Hc).
  assert (Hf : c ∈ filter (fun c' => customer_id c' = customer_id c) customers)
    by (apply list_elem_of_filter; auto).
  destruct (filter (fun c' => customer_id c' = customer_id c) customers) as [|c1 t] eqn:Hfilter;
    [inversion Hf|].
  assert (Hc1 : c1 ∈ customers).
  { assert (Hin : c1 ∈ filter (fun c' => customer_id c' = customer_id c) customers)
      by (rewrite Hfilter; left).
    apply list_elem_of_filter in Hin. tauto. }
  simpl. unfold bind at 1. cbn [ret].
  rewrite Forall_forall in Hsignup. specialize (Hsignup c1 Hc1).
  assert (Hstart : START_DATE <= END_DATE) by (vm_compute; discriminate).
  destruct (date_between_total (Z.max (signup_date c1) START_DATE) END_DATE w1 ltac:(lia))
    as (odate & w2 & H2).
  rewrite (bind_eq _ _ _ _ _ H2).
  destruct (choice_total ORDER_STATUSES w2 ltac:(discriminate)) as (st & w3 & H3).
  rewrite (bind_eq _ _ _ _ _ H3).
  destruct (bool_decide (st ∈ ["Pending"; "Cancelled"])).
  - unfold bind at 1. cbn [ret]. eexists _, _. reflexivity.
  - destruct (randint_total 1 7 w3 ltac:(lia)) as (days & w4 & H4).
    rewrite (bind_eq _ _ _ _ _ (bind_eq _ _ _ _ _ H4)). cbn [ret].
    eexists _, _. reflexivity.
Qed.

Lemma order_item_row_total orders products i w :
  orders <> [] -> products <> [] ->
  exists it w',
    order_item_row products (map order_id orders) (map product_id products) i w = (Ok it, w').
Proof.
  intros Ho Hp. unfold order_item_row.
  destruct (choice_total (map order_id orders) w) as (oid & w1 & H1).
  { destruct orders; [congruence|discriminate]. }
  rewrite (bind_eq _ _ _ _ _ H1).
  destruct (choice_total (map product_id products) w1) as (pid & w2 & H2).
  { destruct products; [congruence|discriminate]. }
  rewrite (bind_eq _ _ _ _ _ H2). apply choice_ok in H2.
  apply list_elem_of_fmap in H2 as (p & -> & Hin).
  assert (Hf : p ∈ filter (fun p' => product_id p' = product_id p) products)
    by (apply list_elem_of_filter; auto).
  destruct (filter (fun p' => product_id p' = product_id p) products) as [|p1 t];
    [inversion Hf|].
  simpl. unfold bind at 1. cbn [ret].
  destruct (uniform_total (9 # 10) (11 # 10) w2) as (f & w3 & H3).
  rewrite (bind_eq _ _ _ _ _ H3).
  destruct (randint_total 1 5 w3 ltac:(lia)) as (q & w4 & H4).
  rewrite (bind_eq _ _ _ _ _ H4).
  eexists _, _. reflexivity.
Qed.

Lemma generate_customers_total n w :
  exists customers w',
    generate_customers L n w = (Ok customers, w') /\
    length customers = Z.to_nat n /\
    Forall (fun c => signup_date c <= END_DATE) customers.
Proof.
  unfold generate_customers, for_range.
  destruct (iterate_total (customer_row L) (Z.to_nat (n + 1 - 1)) customer_row_total 1 [] w)
    as (customers & w' & Hrun).
  exists customers, w'. split; [exact Hrun|]. split.
  - apply iterate_length in Hrun. simpl in Hrun. lia.
  - eapply iterate_Forall in Hrun; [exact Hrun| |constructor].
    intros i wa c wb Hrow. apply customer_row_signup in Hrow.
    rewrite <- SIGNUP_END_is_END_DATE. lia.
Qed.

Lemma generate_products_total n w :
  exists products w',
    generate_products L n w = (Ok products, w') /\ length products = Z.to_nat n.
Proof.
  unfold generate_products, for_range.
  destruct (iterate_total (product_row L) (Z.to_nat (n + 1 - 1)) product_row_total 1 [] w)
    as (products & w' & Hrun).
  exists products, w'. split; [exact Hrun|].
  apply iterate_length in Hrun. simpl in Hrun. lia.
Qed.

Lemma generate_orders_total n customers w :
  customers <> [] ->
  Forall (fun c => signup_date c <= END_DATE) customers ->
  exists orders w',
    generate_orders n customers w = (Ok orders, w') /\ length orders = Z.to_nat n.
Proof.
  intros Hne Hsignup. unfold generate_orders, for_range.
  destruct (iterate_total (order_row customers (map customer_id customers))
              (Z.to_nat (n + 1 - 1))
              (fun i w => order_row_total customers i w Hne Hsignup) 1 [] w)
    as (orders & w' & Hrun).
  exists orders, w'. split; [exact Hrun|].
  apply iterate_length in Hrun. simpl in Hrun. lia.
Qed.

Lemma generate_order_items_total n orders products w :
  orders <> [] -> products <> [] ->
  exists items w',
    generate_order_items n orders products w = (Ok items, w') /\
    length items = Z.to_nat n.
Proof.
  intros Ho Hp. unfold generate_order_items, while_le.
  destruct (iterate_total
              (order_item_row products (map order_id orders) (map product_id products))
              (Z.to_nat (n - 1 + 1))
              (fun i w => order_item_row_total orders products i w Ho Hp) 1 [] w)
    as (items & w' & Hrun).
  exists items, w'. split; [exact Hrun|].
  apply iterate_length in Hrun. simpl in Hrun. lia.
Qed.

Lemma generate_shipments_outcome n orders w :
  1 <= n ->
  (exists shipments w',
     generate_shipments n orders w = (Ok shipments, w') /\
     length shipments = Z.to_nat n) \/
  generate_shipments n orders w = (Raise IndexError, w).
Proof.
  intros Hn. unfold generate_shipments, while_le. fold (shippable orders).
  destruct (shippable orders) as [|o rest] eqn:Hship.
  - right. replace (Z.to_nat (n - 1 + 1)) with (S (Z.to_nat (n - 1))) by lia.
    apply iterate_raise_first. reflexivity.
  - left. rewrite <- Hship.
    destruct (iterate_total (shipment_row orders (map order_id (shippable orders)))
                (Z.to_nat (n - 1 + 1))
                (fun i w => shipment_row_total orders (map order_id (shippable orders)) i w
                   ltac:(rewrite Hship; discriminate)
                   (fun oid Hin => match shippable_ids orders oid Hin with
                                   | ex_intro _ o' (conj Ho (conj Hid _)) =>
                                       ex_intro _ o' (conj Ho Hid)
                                   end)) 1 [] w)
      as (shipments & w' & Hrun).
    exists shipments, w'. split; [exact Hrun|].
    apply iterate_length in Hrun. simpl in Hrun. lia.
Qed.

Lemma nonempty_of_length {A} (l : list A) (n : Z) :
  length l = Z.to_nat n -> 1 <= n -> l <> [].
Proof. intros Hlen Hn ->. simpl in Hlen. lia. Qed.

(** The script as it stands either writes its five files, of 1000, 500,
    2000, 4000 and 1500 rows, and passes its verification, or stops with
    [IndexError] at the first shipment because no order came out Shipped or
    Delivered. *)
Lemma generate_datasets_outcome w :
  (exists d w',
     generate_datasets L w = (Ok d, w') /\
     length (df_customers d) = 1000%nat /\
     length (df_products d) = 500%nat /\
     length (df_orders d) = 2000%nat /\
     length (df_order_items d) = 4000%nat /\
     length (df_shipments d) = 1500%nat) \/
  (exists w', generate_datasets L w = (Raise IndexError, w')).
Proof.
  unfold generate_datasets. rewrite generate_with_seeded.
  set (w0 := mkWorld _ _ _ _). unfold generate_body.
  erewrite bind_eq by reflexivity. erewrite bind_eq by reflexivity.
  match goal with |- context [bind (generate_customers L _) _ ?v] =>
    destruct (generate_customers_total NUM_CUSTOMERS v) as (cs & w1 & Hc & Lc & Hsignup) end.
  rewrite (bind_eq _ _ _ _ _ Hc).
  erewrite bind_eq by reflexivity. erewrite bind_eq by reflexivity.
  erewrite bind_eq by reflexivity.
  match goal with |- context [bind (generate_products L _) _ ?v] =>
    destruct (generate_products_total NUM_PRODUCTS v) as (ps & w2 & Hp & Lp) end.
  rewrite (bind_eq _ _ _ _ _ Hp).
  erewrite bind_eq by reflexivity. erewrite bind_eq by reflexivity.
  erewrite bind_eq by reflexivity.
  assert (Hcs : cs <> []) by (apply (nonempty_of_length _ _ Lc); vm_compute; discriminate).
  assert (Hps : ps <> []) by (apply (nonempty_of_length _ _ Lp); vm_compute; discriminate).
  match goal with |- context [bind (generate_orders _ _) _ ?v] =>
    destruct (generate_orders_total NUM_ORDERS cs v Hcs Hsignup) as (os & w3 & Ho & Lo) end.
  rewrite (bind_eq _ _ _ _ _ Ho).
  erewrite bind_eq by reflexivity. erewrite bind_eq by reflexivity.
  erewrite bind_eq by reflexivity.
  assert (Hos : os <> []) by (apply (nonempty_of_length _ _ Lo); vm_compute; discriminate).
  match goal with |- context [bind (generate_order_items _ _ _) _ ?v] =>
    destruct (generate_order_items_total NUM_ORDER_ITEMS os ps v Hos Hps)
      as (its & w4 & Hi & Li) end.
  rewrite (bind_eq _ _ _ _ _ Hi).
  erewrite bind_eq by reflexivity. erewrite bind_eq by reflexivity.
  erewrite bind_eq by reflexivity.
  match goal with |- context [bind (generate_shipments _ _) _ ?v] =>
    destruct (generate_shipments_outcome NUM_SHIPMENTS os v ltac:(vm_compute; discriminate))
      as [(ss & w5 & Hs & Ls)|Hs] end.
  - left. rewrite (bind_eq _ _ _ _ _ Hs).
    erewrite bind_eq by reflexivity. erewrite bind_eq by reflexivity.
    match goal with |- context [bind (verification ?d) _ ?v] =>
      destruct (verification_passes d v) as (w6 & Hv) end.
    { split; [|split]; simpl.
      - eapply orders_reference_customers; eauto.
      - eapply order_items_reference_parents; eauto.
      - eapply shipments_reference_orders; eauto. }
    rewrite (bind_eq _ _ _ _ _ Hv). cbn [ret].
    eexists _, _. split; [reflexivity|]. cbn [df_customers df_products df_orders
      df_order_items df_shipments]. rewrite Lc, Lp, Lo, Li, Ls. repeat split.
  - right. rewrite (bind_raise _ _ _ _ _ Hs). eexists. reflexivity.
Qed.

End Outcomes.

(* ===================================================================== *)
(** * The loader: missing files                                           *)
(* ===================================================================== *)

Section MissingFiles.
Context (L : Lib).



End MissingFiles.

(* ===================================================================== *)
(** * The loader: orphan rows                                             *)
(* ===================================================================== *)

Lemma sql_eq_not_null a b : sql_eq a b = true -> is_null b = false.
Proof. destruct a, b; simpl; intros H; try discriminate; reflexivity. Qed.

Lemma matched_rows_dropped (j : nat) (c : list Value) (l : list (list Value)) :
  (forall p, p ∈ l -> is_null (cell p j) = false) ->
  List.filter (fun cp : list Value * option (list Value) =>
                 match cp.2 with
                 | None => true
                 | Some p => is_null (cell p j)
                 end) (map (fun p => (c, Some p)) l) = [].
Proof.
  induction l as [|p l IHl]; intros Hl; [reflexivity|].
  simpl. rewrite (Hl p) by left. apply IHl.
  intros q Hq. apply Hl. right. exact Hq.
Qed.

(** The left-join-and-filter-null query counts the orphan rows. *)
Lemma left_join_counts_orphans (i j : nat) (child parent : list (list Value)) :
  length (List.filter (fun cp => match cp.2 with
                                 | None => true
                                 | Some p => is_null (cell p j)
                                 end)
            (left_join (fun c p => sql_eq (cell c i) (cell p j)) child parent))
  = length (orphan_rows i j child parent).
Proof.
  unfold left_join, orphan_rows.
  induction child as [|c child IH]; [reflexivity|].
  cbn [flat_map List.filter]. rewrite List.filter_app, length_app, IH. clear IH.
  set (on := fun p => sql_eq (cell c i) (cell p j)).
  assert (Hmatch : forall p, p ∈ List.filter on parent -> is_null (cell p j) = false).
  { intros p Hp. apply list_elem_of_In, filter_In in Hp as [_ Hp].
    eapply sql_eq_not_null; exact Hp. }
  assert (Hex : existsb on parent = negb (bool_decide (List.filter on parent = []))).
  { clear Hmatch. induction parent as [|p parent IHp]; [reflexivity|].
    simpl. destruct (on p); simpl; [reflexivity|exact IHp]. }
  rewrite Hex. destruct (List.filter on parent) as [|p0 ps] eqn:Hf.
  - reflexivity.
  - simpl negb. cbn [length].
    assert (Hnone : List.filter (fun cp : list Value * option (list Value) =>
                       match cp.2 with
                       | None => true
                       | Some p => is_null (cell p j)
                       end) (map (fun p => (c, Some p)) (p0 :: ps)) = []).
    { apply matched_rows_dropped. exact Hmatch. }
    rewrite Hnone. reflexivity.
Qed.

Lemma select_orphan_count_spec child child_col parent parent_col db rows :
  orphans_of db (child, child_col, parent, parent_col) = Some rows ->
  select_orphan_count child child_col parent parent_col db
  = Ok (Z.of_nat (length rows), db).
Proof.
  unfold orphans_of, select_orphan_count. simpl.
  destruct (db_tables db !! child) as [ct|]; simpl; [|discriminate].
  destruct (db_tables db !! parent) as [pt|]; simpl; [|discriminate].
  destruct (index_of child_col (table_columns ct)) as [i|]; simpl; [|discriminate].
  destruct (index_of parent_col (table_columns pt)) as [j|]; simpl; [|discriminate].
  intros H. inversion H; subst rows. rewrite left_join_counts_orphans. reflexivity.
Qed.

Lemma execute_orphan_count conn w db child child_col parent parent_col rows :
  fs w !! conn_file conn = Some (SqliteFile db) ->
  orphans_of db (child, child_col, parent, parent_col) = Some rows ->
  exists w',
    execute conn (select_orphan_count child child_col parent parent_col) w
      = (Ok (Z.of_nat (length rows)), w') /\
    fs w' = fs w.
Proof.
  intros Hdb Hrows. unfold execute. rewrite Hdb.
  rewrite (select_orphan_count_spec _ _ _ _ _ _ Hrows).
  eexists. split; [reflexivity|]. simpl. apply insert_id. exact Hdb.
Qed.

Lemma print_keeps_files line w : exists w', print line w = (Ok tt, w') /\ fs w' = fs w.
Proof. eexists. split; reflexivity. Qed.

(** C6. On a database holding the tables and columns of the four
    relationships, [verify_referential_integrity] returns, and it returns
    [True] exactly when each relationship has no orphan row: no child row
    whose foreign-key value matches no parent row. With at least one orphan
    row in some relationship it returns [False]. *)
Theorem verify_true_iff_no_orphans conn w db o1 o2 o3 o4 :
  fs w !! conn_file conn = Some (SqliteFile db) ->
  map (orphans_of db) RELATIONSHIPS = [Some o1; Some o2; Some o3; Some o4] ->
  exists b w',
    verify_referential_integrity conn w = (Ok b, w') /\
    (b = true <->
     length o1 = 0 /\ length o2 = 0 /\ length o3 = 0 /\ length o4 = 0)%nat /\
    (b = false <->
     1 <= length o1 \/ 1 <= length o2 \/ 1 <= length o3 \/ 1 <= length o4)%nat.
Proof.
  intros Hdb Hrels. unfold RELATIONSHIPS in Hrels. cbn [map] in Hrels.
  injection Hrels as H1 H2 H3 H4.
  unfold verify_referential_integrity.
  destruct (print_keeps_files "" w) as (wa & Ea & Fa). rewrite (bind_eq _ _ _ _ _ Ea).
  destruct (print_keeps_files "REFERENTIAL INTEGRITY VERIFICATION" wa) as (wb & Eb & Fb).
  rewrite (bind_eq _ _ _ _ _ Eb).
  assert (Hb : fs wb !! conn_file conn = Some (SqliteFile db)) by (rewrite Fb, Fa; exact Hdb).
  destruct (execute_orphan_count conn wb db _ _ _ _ o1 Hb H1) as (w1 & E1 & F1).
  rewrite (bind_eq _ _ _ _ _ E1). rewrite <- F1 in Hb.
  destruct (execute_orphan_count conn w1 db _ _ _ _ o2 Hb H2) as (w2 & E2 & F2).
  rewrite (bind_eq _ _ _ _ _ E2). rewrite <- F2 in Hb.
  destruct (execute_orphan_count conn w2 db _ _ _ _ o3 Hb H3) as (w3 & E3 & F3).
  rewrite (bind_eq _ _ _ _ _ E3). rewrite <- F3 in Hb.
  destruct (execute_orphan_count conn w3 db _ _ _ _ o4 Hb H4) as (w4 & E4 & F4).
  rewrite (bind_eq _ _ _ _ _ E4).
  cbn [app report_checks]. unfold bind at 1. unfold bind at 1. unfold bind at 1.
  unfold bind at 1. unfold bind at 1. unfold bind at 1. unfold print. cbn [ret].
  destruct (Z.eqb_spec (Z.of_nat (length o1)) 0) as [Z1|Z1];
  destruct (Z.eqb_spec (Z.of_nat (length o2)) 0) as [Z2|Z2];
  destruct (Z.eqb_spec (Z.of_nat (length o3)) 0) as [Z3|Z3];
  destruct (Z.eqb_spec (Z.of_nat (length o4)) 0) as [Z4|Z4];
  cbn [negb]; eexists _, _; (split; [reflexivity|]); split; split;
    intros; try discriminate; try lia; try reflexivity.
Qed.

(* ===================================================================== *)
(** * The loader: duplicate primary keys                                  *)
(* ===================================================================== *)

Section KeepFirst.
Context (key : list Value -> Value).








End KeepFirst.




Lemma print_stdout line w u w' :
  print line w = (Ok u, w') -> fs w' = fs w /\ stdout w' = stdout w ++ [line].
Proof. unfold print. intros H. inversion H. simpl. auto. Qed.


Section Duplicates.
Context (L : Lib).


End Duplicates.

(* ===================================================================== *)
(** * The statements on concrete runs                                     *)
(* ===================================================================== *)

Lemma orders_ship_date_rule_witness :
  fst (generate_orders 2 demo_customers (demo_world counting counting)) = Ok demo_orders /\
  Forall ship_date_rule demo_orders.
Proof.
  split; [vm_compute; reflexivity|].
  apply (orders_ship_date_rule 2 demo_customers (demo_world counting counting) demo_orders
           (snd (generate_orders 2 demo_customers (demo_world counting counting)))).
  vm_compute. reflexivity.
Defined.

Lemma orders_after_signup_witness :
  fst (generate_customers (demo_lib counting counting) 2 (demo_world counting counting))
    = Ok demo_customers /\
  fst (generate_orders 2 demo_customers (demo_world counting counting)) = Ok demo_orders /\
  Forall (order_after_signup demo_customers) demo_orders.
Proof.
  split; [vm_compute; reflexivity|]. split; [vm_compute; reflexivity|].
  apply (orders_after_signup (demo_lib counting counting)
           2 (demo_world counting counting) demo_customers
           (snd (generate_customers (demo_lib counting counting) 2
                   (demo_world counting counting)))
           2 (demo_world counting counting) demo_orders
           (snd (generate_orders 2 demo_customers (demo_world counting counting))));
    vm_compute; reflexivity.
Defined.


Lemma shipments_date_rule_witness :
  fst (generate_orders 2 demo_customers (demo_world counting (always 2))) = Ok shipped_orders /\
  fst (generate_shipments 2 shipped_orders (demo_world counting counting)) = Ok demo_shipments /\
  Forall (shipment_date_rule shipped_orders) demo_shipments.
Proof.
  split; [vm_compute; reflexivity|]. split; [vm_compute; reflexivity|].
  apply (shipments_date_rule 2 demo_customers (demo_world counting (always 2)) shipped_orders
           (snd (generate_orders 2 demo_customers (demo_world counting (always 2))))
           2 (demo_world counting counting) demo_shipments
           (snd (generate_shipments 2 shipped_orders (demo_world counting counting))));
    vm_compute; reflexivity.
Defined.

(** C1 as the specification words it fails on a run of the script: the
    order of 2025-10-30 is to ship on 2025-11-02, after [END_DATE], and its
    shipment is dated 2025-10-30, before that ship date. *)
Lemma shipment_dated_before_ship_date :
  fst (generate_with (demo_lib (always 1398) (always 2)) 1 1 1 1 1 42 42 used_world)
    = Ok late_datasets /\
  ~ Forall (shipment_date_claim (df_orders late_datasets)) (df_shipments late_datasets).
Proof.
  split; [vm_compute; reflexivity|].
  intros Hall. apply Forall_cons in Hall as [(o & Hin & _ & Hdate & _) _].
  apply list_elem_of_singleton in Hin. subst o. vm_compute in Hdate.
  apply Hdate. reflexivity.
Qed.

Lemma shipments_need_shippable_order_witness :
  1 <= 2 /\
  (shippable demo_orders = [] /\
   generate_shipments 2 demo_orders (demo_world counting counting)
     = (Raise IndexError, demo_world counting counting)) /\
  (shippable shipped_orders <> [] /\
   exists shipments w',
     generate_shipments 2 shipped_orders (demo_world counting counting) = (Ok shipments, w') /\
     length shipments = Z.to_nat 2 /\
     Forall (ships_shippable_order shipped_orders) shipments).
Proof.
  split; [lia|]. split.
  - split; [reflexivity|].
    apply (shipments_need_shippable_order 2 demo_orders (demo_world counting counting));
      [lia|reflexivity].
  - split; [discriminate|].
    apply (shipments_need_shippable_order 2 shipped_orders (demo_world counting counting));
      [lia|discriminate].
Defined.

Lemma foreign_keys_closed_by_construction_witness :
  fst (generate_with (demo_lib counting (counting_from 1)) 1 1 1 1 1 42 42 used_world)
    = Ok demo_datasets /\
  foreign_keys_closed demo_datasets.
Proof.
  split; [vm_compute; reflexivity|].
  apply (proj2 (proj2 (proj2 (proj2
           (foreign_keys_closed_by_construction (demo_lib counting (counting_from 1))))))
           1 1 1 1 1 42 42 used_world demo_datasets
           (snd (generate_with (demo_lib counting (counting_from 1)) 1 1 1 1 1 42 42
                   used_world))).
  vm_compute. reflexivity.
Defined.

Lemma same_seeds_same_datasets_witness :
  let run := generate_with (demo_lib counting (counting_from 1)) 1 1 1 1 1 42 42 in
  fst (run used_world) = Ok demo_datasets /\
  fst (run (demo_world counting counting)) = Ok demo_datasets /\
  Forall (fun path =>
            is_Some (fs (snd (run used_world)) !! path) /\
            fs (snd (run used_world)) !! path
              = fs (snd (run (demo_world counting counting))) !! path) CSV_PATHS.
Proof.
  intros run. split; [vm_compute; reflexivity|]. split; [vm_compute; reflexivity|].
  apply (proj2 (same_seeds_same_datasets (demo_lib counting (counting_from 1))
                  1 1 1 1 1 42 42 used_world (demo_world counting counting))
           demo_datasets (snd (run used_world))
           demo_datasets (snd (run (demo_world counting counting))));
    vm_compute; reflexivity.
Defined.

(** [create_database_schema] on a new database file gives [created_db]. *)
Example create_database_schema_run :
  let w := world_with_files [ (DB_FILE, SqliteFile empty_database) ] in
  fs (snd (create_database_schema demo_conn w)) !! DB_FILE = Some (SqliteFile created_db).
Proof. vm_compute. reflexivity. Qed.



Lemma verify_true_iff_no_orphans_witness :
  let with_store := fun db => world_with_files [ (DB_FILE, SqliteFile db) ] in
  map (orphans_of orphan_db) RELATIONSHIPS
    = [ Some [ order_of_customer 2 9 ]; Some []; Some []; Some [] ] /\
  fst (verify_referential_integrity demo_conn (with_store orphan_db)) = Ok false /\
  map (orphans_of clean_db) RELATIONSHIPS = [ Some []; Some []; Some []; Some [] ] /\
  fst (verify_referential_integrity demo_conn (with_store clean_db)) = Ok true.
Proof.
  intros with_store.
  assert (Ho : map (orphans_of orphan_db) RELATIONSHIPS
               = [ Some [ order_of_customer 2 9 ]; Some []; Some []; Some [] ])
    by (vm_compute; reflexivity).
  assert (Hc : map (orphans_of clean_db) RELATIONSHIPS = [ Some []; Some []; Some []; Some [] ])
    by (vm_compute; reflexivity).
  split; [exact Ho|]. split; [|split; [exact Hc|]].
  - destruct (verify_true_iff_no_orphans demo_conn (with_store orphan_db) orphan_db
                [ order_of_customer 2 9 ] [] [] [] ltac:(vm_compute; reflexivity) Ho)
      as (b & w' & Hrun & _ & Hfalse).
    rewrite Hrun. cbn [fst]. f_equal. apply Hfalse. left. cbn [length]. lia.
  - destruct (verify_true_iff_no_orphans demo_conn (with_store clean_db) clean_db
                [] [] [] [] ltac:(vm_compute; reflexivity) Hc)
      as (b & w' & Hrun & Htrue & _).
    rewrite Hrun. cbn [fst]. f_equal. apply Htrue. cbn [length]. lia.
Defined.


(* ===================================================================== *)
(** * Further properties of generate_datasets.py                          *)
(* ===================================================================== *)

Lemma seqZ_to_nat (m n : Z) : seqZ m (Z.of_nat (Z.to_nat n)) = seqZ m n.
Proof. unfold seqZ. rewrite Nat2Z.id. reflexivity. Qed.

(** A value of [lo .. hi] cents stays there when rounded to cents. *)
Lemma round_half_even_within (lo hi : Z) (y : Q) :
  (inject_Z lo <= y <= inject_Z hi)%Q -> lo <= round_half_even y <= hi.
Proof.
  intros [Hlo Hhi]. pose proof (round_half_even_near y) as [Hn1 Hn2].
  set (n := round_half_even y) in *.
  assert (H1 : (inject_Z lo - (1 # 2) <= inject_Z n)%Q) by lra.
  assert (H2 : (inject_Z n <= inject_Z hi + (1 # 2))%Q) by lra.
  unfold Qle, Qminus, Qplus, Qopp, inject_Z in H1, H2. simpl in H1, H2. lia.
Qed.

Lemma round2_cents (lo hi : Z) (x : Q) :
  (inject_Z lo / 100 <= x <= inject_Z hi / 100)%Q ->
  exists cents, lo <= cents <= hi /\ round2 x = (inject_Z cents / 100)%Q.
Proof.
  intros Hx. exists (round_half_even (x * 100)). split; [|reflexivity].
  apply round_half_even_within.
  unfold Qdiv in Hx. change (/ 100)%Q with (1 # 100)%Q in Hx. lra.
Qed.

Section RowShapes.
Context (L : Lib).

Lemma customer_row_shape i w c w' :
  customer_row L i w = (Ok c, w') -> customer_id c = i /\ customer_well_formed c.
Proof.
  unfold customer_row, fake_first_name, fake_last_name, fake_domain_name. intros H.
  apply bind_ok in H as (first & w1 & _ & H).
  apply bind_ok in H as (last & w2 & _ & H).
  apply bind_ok in H as (suffix & w3 & Hsuffix & H).
  apply bind_ok in H as (domain & w4 & _ & H).
  apply bind_ok in H as (signup & w5 & Hsignup & H).
  apply bind_ok in H as (ctry & w6 & Hctry & H).
  apply ret_ok in H as [<- _]. split; [reflexivity|].
  apply randint_ok in Hsuffix. apply date_between_ok in Hsignup. apply choice_ok in Hctry.
  split; [exact Hsignup|]. split; [exact Hctry|].
  exists suffix, domain. split; [exact Hsuffix|reflexivity].
Qed.

(** X1. The customers loop cannot fail. It returns one row per id, the
    ids being 1, 2, ... in row order (none for a size below 1); each row
    signs up between [START_DATE] and [SIGNUP_END], lives in one of
    [COUNTRIES], and has the e-mail address
    [first.last<3 digits>@domain] in lower case. *)
Theorem customers_stage_rows n w :
  exists customers w',
    generate_customers L n w = (Ok customers, w') /\
    map customer_id customers = seqZ 1 n /\
    Forall customer_well_formed customers.
Proof.
  destruct (generate_customers_total L n w) as (customers & w' & Hrun & _).
  exists customers, w'. split; [exact Hrun|].
  unfold generate_customers, for_range in Hrun. split.
  - apply (iterate_ids customer_id) in Hrun.
    + rewrite Hrun. simpl. rewrite seqZ_to_nat. f_equal. lia.
    + intros. eapply customer_row_shape; eauto.
  - eapply iterate_Forall in Hrun; [exact Hrun| |constructor].
    intros. eapply customer_row_shape; eauto.
Qed.

Lemma product_row_shape i w p w' :
  product_row L i w = (Ok p, w') -> product_id p = i /\ product_well_formed p.
Proof.
  unfold product_row, fake_company. intros H.
  apply bind_ok in H as (cat & w1 & Hcat & H).
  apply bind_ok in H as (templates & w2 & Htemplates & H).
  apply bind_ok in H as (template & w3 & Htemplate & H).
  apply bind_ok in H as (company & w4 & _ & H).
  apply bind_ok in H as (u & w5 & Hu & H).
  apply bind_ok in H as (launch & w6 & Hlaunch & H).
  apply ret_ok in H as [<- _]. split; [reflexivity|].
  apply choice_ok in Hcat. apply choice_ok in Htemplate.
  apply date_between_ok in Hlaunch. apply uniform_ok in Hu; [|lra].
  unfold product_well_formed. cbn [category name price launch_date].
  split; [exact Hcat|]. split; [|split; [|exact Hlaunch]].
  - exists templates, company, template.
    destruct (PRODUCT_TEMPLATES !! cat) as [l|]; [|discriminate].
    apply ret_ok in Htemplates as [-> _]. auto.
  - apply round2_cents. unfold Qdiv. change (/ 100)%Q with (1 # 100)%Q.
    change (inject_Z 500 * (1 # 100))%Q with (500 # 100)%Q.
    change (inject_Z 500000 * (1 # 100))%Q with (500000 # 100)%Q. lra.
Qed.

(** X2. The products loop cannot fail. It returns one row per id, the
    ids being 1, 2, ... in row order; each row has one of [CATEGORIES], a
    name ending in a template of that very category, a price that is a
    whole number of cents from 5.00 to 5000.00, and a launch date between
    [START_DATE] and 2025-09-01. *)
Theorem products_stage_rows n w :
  exists products w',
    generate_products L n w = (Ok products, w') /\
    map product_id products = seqZ 1 n /\
    Forall product_well_formed products.
Proof.
  destruct (generate_products_total L n w) as (products & w' & Hrun & _).
  exists products, w'. split; [exact Hrun|].
  unfold generate_products, for_range in Hrun. split.
  - apply (iterate_ids product_id) in Hrun.
    + rewrite Hrun. simpl. rewrite seqZ_to_nat. f_equal. lia.
    + intros. eapply product_row_shape; eauto.
  - eapply iterate_Forall in Hrun; [exact Hrun| |constructor].
    intros. eapply product_row_shape; eauto.
Qed.

End RowShapes.


Section StageOutcomes.

Lemma order_row_shape customers ids i w o w' :
  order_row customers ids i w = (Ok o, w') -> order_id o = i /\ order_well_formed o.
Proof.
  intros H. apply order_row_ok in H as (Hid & _ & (c & _ & Hrange) & Hst & Hship).
  split; [exact Hid|]. split; [exact Hst|]. split; [lia|].
  intros d Hd. destruct (bool_decide (status o ∈ ["Pending"; "Cancelled"])).
  - congruence.
  - destruct Hship as (days & Hdays & Hs). rewrite Hs in Hd. inversion Hd. lia.
Qed.





Lemma shipment_row_shape orders eligible i w s w' :
  shipment_row orders eligible i w = (Ok s, w') ->
  shipment_id s = i /\ shipment_well_formed s.
Proof.
  unfold shipment_row. intros H.
  apply bind_ok in H as (oid & w1 & _ & H).
  apply bind_ok in H as (odate & w2 & _ & H).
  apply bind_ok in H as (sfo & w3 & _ & H).
  apply bind_ok in H as (sdate & w4 & _ & H).
  apply bind_ok in H as (carr & w5 & Hcarr & H).
  apply bind_ok in H as (digits & w6 & Hdigits & H).
  apply bind_ok in H as (cost & w7 & Hcost & H).
  apply ret_ok in H as [<- _]. split; [reflexivity|].
  apply choice_ok in Hcarr. apply randint_ok in Hdigits.
  apply uniform_ok in Hcost; [|lra].
  unfold shipment_well_formed. cbn [carrier tracking_number shipment_cost].
  split; [exact Hcarr|]. split; [exists digits; auto|].
  apply round2_cents. unfold Qdiv. change (/ 100)%Q with (1 # 100)%Q.
  change (inject_Z 500 * (1 # 100))%Q with (500 # 100)%Q.
  change (inject_Z 5000 * (1 # 100))%Q with (5000 # 100)%Q. lra.
Qed.

(** X5. The shipments a run of the shipments loop returns are numbered
    1, 2, ... in row order; each names a carrier of [CARRIERS], carries as
    tracking number the first two letters of that carrier in upper case
    followed by a number of ten digits, and costs a whole number of cents
    from 5.00 to 50.00. *)
Theorem shipments_stage_rows n orders w shipments w' :
  generate_shipments n orders w = (Ok shipments, w') ->
  map shipment_id shipments = seqZ 1 n /\
  Forall shipment_well_formed shipments.
Proof.
  unfold generate_shipments, while_le. intros Hrun. split.
  - apply (iterate_ids shipment_id) in Hrun.
    + rewrite Hrun. simpl. rewrite seqZ_to_nat. f_equal. lia.
    + intros. eapply shipment_row_shape; eauto.
  - eapply iterate_Forall in Hrun; [exact Hrun| |constructor].
    intros. eapply shipment_row_shape; eauto.
Qed.

End StageOutcomes.



Lemma shipments_stage_rows_witness :
  fst (generate_shipments 2 shipped_orders (demo_world counting counting)) = Ok demo_shipments /\
  map shipment_id demo_shipments = seqZ 1 2 /\
  Forall shipment_well_formed demo_shipments.
Proof.
  split; [vm_compute; reflexivity|].
  apply (shipments_stage_rows 2 shipped_orders (demo_world counting counting) demo_shipments
           (snd (generate_shipments 2 shipped_orders (demo_world counting counting)))).
  vm_compute. reflexivity.
Defined.

(* ===================================================================== *)
(** * Further properties: the script from top to bottom                   *)
(* ===================================================================== *)

Lemma verification_console d w u w' :
  verification d w = (Ok u, w') ->
  stdout w' = stdout w ++
    [ ""; "Verifying referential integrity...";
      "[OK] All referential integrity checks passed!"; "";
      "All datasets generated successfully!" ].
Proof.
  unfold verification, bind, print, py_assert. simpl.
  repeat (destruct (bool_decide _); simpl); intros H; inversion H.
  simpl. rewrite <- !app_assoc. reflexivity.
Qed.


Lemma generate_orders_ids n customers w orders w' :
  generate_orders n customers w = (Ok orders, w') -> map order_id orders = seqZ 1 n.
Proof.
  unfold generate_orders, for_range. intros Ho. apply (iterate_ids order_id) in Ho.
  - rewrite Ho. simpl. rewrite seqZ_to_nat. f_equal. lia.
  - intros i w0 o w1 Hrow. apply order_row_shape in Hrow. tauto.
Qed.

Lemma generate_order_items_ids n orders products w items w' :
  generate_order_items n orders products w = (Ok items, w') ->
  map order_item_id items = seqZ 1 n.
Proof.
  unfold generate_order_items, while_le. intros Hi. apply (iterate_ids order_item_id) in Hi.
  - rewrite Hi. simpl. rewrite seqZ_to_nat. f_equal. lia.
  - intros i w0 it w1 Hrow. apply order_item_row_ok in Hrow. tauto.
Qed.

Lemma generate_shipments_ids n orders w shipments w' :
  generate_shipments n orders w = (Ok shipments, w') -> map shipment_id shipments = seqZ 1 n.
Proof.
  unfold generate_shipments, while_le. intros Hs. apply (iterate_ids shipment_id) in Hs.
  - rewrite Hs. simpl. rewrite seqZ_to_nat. f_equal. lia.
  - intros i w0 s w1 Hrow. apply shipment_row_shape in Hrow. tauto.
Qed.

Section ScriptRuns.
Context (L : Lib).

Lemma generate_body_console nc np no ni ns w d w' :
  generate_body L nc np no ni ns w = (Ok d, w') ->
  stdout w' = stdout w ++
    [ "Generating synthetic e-commerce datasets...";
      "Generating customers...";
      generated_line "customers.csv" (length (df_customers d));
      "Generating products...";
      generated_line "products.csv" (length (df_products d));
      "Generating orders...";
      generated_line "orders.csv" (length (df_orders d));
      "Generating order items...";
      generated_line "order_items.csv" (length (df_order_items d));
      "Generating shipments...";
      generated_line "shipments.csv" (length (df_shipments d));
      ""; "Verifying referential integrity...";
      "[OK] All referential integrity checks passed!"; "";
      "All datasets generated successfully!" ].
Proof.
  unfold generate_body. intros H.
  apply bind_ok in H as (u1 & w1 & H1 & H). apply print_stdout in H1 as (_ & S1).
  apply bind_ok in H as (u2 & w2 & H2 & H). apply print_stdout in H2 as (_ & S2).
  apply bind_ok in H as (customers & w3 & Hc & H).
  pose proof (draws_keep_files _ _ _ _ (draws_generate_customers L nc) Hc) as [_ S3].
  apply bind_ok in H as (u4 & w4 & H4 & H).
  assert (S4 : stdout w4 = stdout w3) by (inversion H4; reflexivity).
  apply bind_ok in H as (u5 & w5 & H5 & H). apply print_stdout in H5 as (_ & S5).
  apply bind_ok in H as (u6 & w6 & H6 & H). apply print_stdout in H6 as (_ & S6).
  apply bind_ok in H as (products & w7 & Hp & H).
  pose proof (draws_keep_files _ _ _ _ (draws_generate_products L np) Hp) as [_ S7].
  apply bind_ok in H as (u8 & w8 & H8 & H).
  assert (S8 : stdout w8 = stdout w7) by (inversion H8; reflexivity).
  apply bind_ok in H as (u9 & w9 & H9 & H). apply print_stdout in H9 as (_ & S9).
  apply bind_ok in H as (u10 & w10 & H10 & H). apply print_stdout in H10 as (_ & S10).
  apply bind_ok in H as (orders & w11 & Ho & H).
  pose proof (draws_keep_files _ _ _ _ (draws_generate_orders no customers) Ho) as [_ S11].
  apply bind_ok in H as (u12 & w12 & H12 & H).
  assert (S12 : stdout w12 = stdout w11) by (inversion H12; reflexivity).
  apply bind_ok in H as (u13 & w13 & H13 & H). apply print_stdout in H13 as (_ & S13).
  apply bind_ok in H as (u14 & w14 & H14 & H). apply print_stdout in H14 as (_ & S14).
  apply bind_ok in H as (items & w15 & Hi & H).
  pose proof (draws_keep_files _ _ _ _ (draws_generate_order_items ni orders products) Hi)
    as [_ S15].
  apply bind_ok in H as (u16 & w16 & H16 & H).
  assert (S16 : stdout w16 = stdout w15) by (inversion H16; reflexivity).
  apply bind_ok in H as (u17 & w17 & H17 & H). apply print_stdout in H17 as (_ & S17).
  apply bind_ok in H as (u18 & w18 & H18 & H). apply print_stdout in H18 as (_ & S18).
  apply bind_ok in H as (shipments & w19 & Hs & H).
  pose proof (draws_keep_files _ _ _ _ (draws_generate_shipments ns orders) Hs) as [_ S19].
  apply bind_ok in H as (u20 & w20 & H20 & H).
  assert (S20 : stdout w20 = stdout w19) by (inversion H20; reflexivity).
  apply bind_ok in H as (u21 & w21 & H21 & H). apply print_stdout in H21 as (_ & S21).
  apply bind_ok in H as (u22 & w22 & Hv & H). apply verification_console in Hv as S22.
  apply ret_ok in H as [<- <-]. cbn [df_customers df_products df_orders df_order_items
    df_shipments].
  rewrite S22, S21, S20, S19, S18, S17, S16, S15, S14, S13, S12, S11, S10, S9, S8, S7,
    S6, S5, S4, S3, S2, S1.
  rewrite <- !app_assoc. reflexivity.
Qed.

Lemma length_of_ids {A} (f : A -> Z) (l : list A) (n : Z) :
  map f l = seqZ 1 n -> length l = Z.to_nat n.
Proof.
  intros H. apply (f_equal length) in H. rewrite length_map, length_seqZ in H. exact H.
Qed.

(** X6. A run of the script that ends well returns five frames whose rows
    are numbered 1, 2, ... up to the size asked, in row order; it leaves
    the CSV rendering of each frame in its file and every other file as it
    was; and it adds to the console exactly the sixteen lines of a full
    run, each ["[OK] Generated ..."] line giving the size asked for its
    file. *)
Theorem successful_run_report nc np no ni ns fseed pseed w d w' :
  generate_with L nc np no ni ns fseed pseed w = (Ok d, w') ->
  map customer_id (df_customers d) = seqZ 1 nc /\
  map product_id (df_products d) = seqZ 1 np /\
  map order_id (df_orders d) = seqZ 1 no /\
  map order_item_id (df_order_items d) = seqZ 1 ni /\
  map shipment_id (df_shipments d) = seqZ 1 ns /\
  fs w' =
    <["shipments.csv" := TextFile (to_csv_bytes L (ShipmentsFrame (df_shipments d)))]>
    (<["order_items.csv" := TextFile (to_csv_bytes L (OrderItemsFrame (df_order_items d)))]>
    (<["orders.csv" := TextFile (to_csv_bytes L (OrdersFrame (df_orders d)))]>
    (<["products.csv" := TextFile (to_csv_bytes L (ProductsFrame (df_products d)))]>
    (<["customers.csv" := TextFile (to_csv_bytes L (CustomersFrame (df_customers d)))]>
       (fs w))))) /\
  stdout w' = stdout w ++
    [ "Generating synthetic e-commerce datasets...";
      "Generating customers...";
      generated_line "customers.csv" (Z.to_nat nc);
      "Generating products...";
      generated_line "products.csv" (Z.to_nat np);
      "Generating orders...";
      generated_line "orders.csv" (Z.to_nat no);
      "Generating order items...";
      generated_line "order_items.csv" (Z.to_nat ni);
      "Generating shipments...";
      generated_line "shipments.csv" (Z.to_nat ns);
      ""; "Verifying referential integrity...";
      "[OK] All referential integrity checks passed!"; "";
      "All datasets generated successfully!" ].
Proof.
  rewrite generate_with_seeded. intros H.
  pose proof (generate_body_console _ _ _ _ _ _ _ _ H) as Hout.
  apply generate_body_inv in H as [(wa & wa' & wb & wb' & wc & wc' & wd & wd'
    & we & we' & Hc & Hp & Ho & Hi & Hs) Hfs].
  assert (Ic : map customer_id (df_customers d) = seqZ 1 nc).
  { apply generate_customers_ids in Hc. rewrite Hc, seqZ_to_nat. f_equal. lia. }
  assert (Ip : map product_id (df_products d) = seqZ 1 np).
  { unfold generate_products, for_range in Hp. apply (iterate_ids product_id) in Hp.
    - rewrite Hp. simpl. rewrite seqZ_to_nat. f_equal. lia.
    - intros i w0 p w1 Hrow. apply (product_row_shape L) in Hrow. tauto. }
  assert (Io : map order_id (df_orders d) = seqZ 1 no).
  { eapply generate_orders_ids; eauto. }
  assert (Ii : map order_item_id (df_order_items d) = seqZ 1 ni).
  { eapply generate_order_items_ids; eauto. }
  assert (Is : map shipment_id (df_shipments d) = seqZ 1 ns).
  { eapply generate_shipments_ids; eauto. }
  repeat (split; [assumption|]).
  rewrite Hout. cbn [stdout].
  rewrite (length_of_ids _ _ _ Ic), (length_of_ids _ _ _ Ip), (length_of_ids _ _ _ Io),
    (length_of_ids _ _ _ Ii), (length_of_ids _ _ _ Is).
  reflexivity.
Qed.


End ScriptRuns.



(* ===================================================================== *)
(** * Further properties of load_to_database.py                           *)
(* ===================================================================== *)

Lemma triple_ret {A} (P : World -> Prop) (a : A) Q E :
  (forall w, P w -> Q a w) -> triple P (ret a) Q E.
Proof. intros H w Hw. simpl. auto. Qed.

Lemma triple_raise {A} (P : World -> Prop) e (Q : A -> World -> Prop) E :
  (forall w, P w -> E e w) -> triple P (raise e) Q E.
Proof. intros H w Hw. simpl. auto. Qed.

Lemma triple_bind {A B} P (m : M A) (k : A -> M B) R Q E :
  triple P m R E -> (forall a, triple (R a) (k a) Q E) -> triple P (bind m k) Q E.
Proof.
  intros Hm Hk w Hw. specialize (Hm w Hw). unfold bind.
  destruct (m w) as [[a|e] w1]; [apply Hk; exact Hm|exact Hm].
Qed.

Lemma triple_try_except {A} P (m : M A) h Q E' E :
  triple P m Q E' -> (forall e, triple (E' e) (h e) Q E) -> triple P (try_except m h) Q E.
Proof.
  intros Hm Hh w Hw. specialize (Hm w Hw). unfold try_except.
  destruct (m w) as [[a|e] w1]; [exact Hm|apply Hh; exact Hm].
Qed.

Lemma triple_conseq {A} (P P' : World -> Prop) (m : M A) (Q Q' : A -> World -> Prop)
    (E E' : Exception -> World -> Prop) :
  triple P' m Q' E' ->
  (forall w, P w -> P' w) -> (forall a w, Q' a w -> Q a w) -> (forall e w, E' e w -> E e w) ->
  triple P m Q E.
Proof.
  intros Hm HP HQ HE w Hw. specialize (Hm w (HP w Hw)).
  destruct (m w) as [[a|e] w1]; auto.
Qed.

Lemma triple_print P line Q E :
  (forall w, P w ->
     Q tt (mkWorld (py_random w) (faker_random w) (fs w) (stdout w ++ [line]))) ->
  triple P (print line) Q E.
Proof. intros H w Hw. simpl. auto. Qed.

Lemma triple_for_each {A} (I : World -> Prop) (items : list A) (body : A -> M unit) E :
  (forall x, x ∈ items -> triple I (body x) (fun _ => I) E) ->
  triple I (for_each items body) (fun _ => I) E.
Proof.
  induction items as [|x items IH]; intros Hbody.
  - apply triple_ret. auto.
  - simpl. eapply triple_bind.
    + apply Hbody. left.
    + intros u. apply IH. intros y Hy. apply Hbody. right. exact Hy.
Qed.

Lemma triple_lift {A} (P : World -> Prop) (r : Result A) (Q : A -> World -> Prop) E :
  (forall w, P w -> match r with Ok a => Q a w | Raise e => E e w end) ->
  triple P (lift r) Q E.
Proof. intros H w Hw. unfold lift. specialize (H w Hw). destruct r; exact H. Qed.

(** Constraints under growth of the store *)

Lemma extends_refl db : extends db db.
Proof. intros name t Ht. exists t. auto. Qed.

Lemma extends_trans db1 db2 db3 : extends db1 db2 -> extends db2 db3 -> extends db1 db3.
Proof.
  intros H12 H23 name t Ht.
  destruct (H12 name t Ht) as (t2 & Ht2 & Hs2 & Hr2).
  destruct (H23 name t2 Ht2) as (t3 & Ht3 & Hs3 & Hr3).
  exists t3. split; [exact Ht3|]. split; [congruence|auto].
Qed.

Lemma existsb_elem_of {A} (f : A -> bool) (l : list A) :
  existsb f l = true <-> exists x, x ∈ l /\ f x = true.
Proof.
  rewrite existsb_exists. split; intros (x & Hx & Hf); exists x; split; auto;
    apply list_elem_of_In; auto.
Qed.

Lemma check_foreign_key_mono db db' cols r fk :
  extends db db' ->
  check_foreign_key db cols r fk = Ok tt -> check_foreign_key db' cols r fk = Ok tt.
Proof.
  intros Hext. unfold check_foreign_key.
  destruct (index_of (fk_column fk) cols) as [i|]; [|discriminate].
  destruct (is_null (cell r i)); [reflexivity|].
  destruct (db_tables db !! fk_parent fk) as [parent|] eqn:Hp; [|discriminate].
  destruct (Hext _ _ Hp) as (parent' & Hp' & Hs & Hr). rewrite Hp'.
  unfold table_columns. rewrite Hs.
  destruct (index_of (fk_parent_column fk) (map fst (ts_columns (tbl_schema parent)))) as [j|];
    [|discriminate].
  destruct (existsb _ (tbl_rows parent)) eqn:Hex; [|discriminate].
  apply existsb_elem_of in Hex as (x & Hx & Hf).
  intros _. replace (existsb _ (tbl_rows parent')) with true; [reflexivity|].
  symmetry. apply existsb_elem_of. exists x. auto.
Qed.

Lemma check_foreign_keys_mono db db' cols r fks :
  extends db db' ->
  check_foreign_keys db cols r fks = Ok tt -> check_foreign_keys db' cols r fks = Ok tt.
Proof.
  intros Hext. induction fks as [|fk fks IH]; [reflexivity|]. simpl.
  destruct (check_foreign_key db cols r fk) as [[]|e] eqn:Hfk; [|discriminate].
  rewrite (check_foreign_key_mono _ _ _ _ _ Hext Hfk). exact IH.
Qed.

Lemma row_ok_mono db db' t t' r :
  extends db db' -> tbl_schema t' = tbl_schema t -> row_ok db t r -> row_ok db' t' r.
Proof.
  intros Hext Hs [Hnn Hfk]. unfold row_ok, table_columns. rewrite Hs.
  split; [exact Hnn|]. eapply check_foreign_keys_mono; eauto.
Qed.

(** One table of [db] replaced by one of the same schema and more rows. *)
Lemma extends_insert db name t rows' idx :
  db_tables db !! name = Some t ->
  (forall r, r ∈ tbl_rows t -> r ∈ rows') ->
  extends db (mkDatabase (<[name := mkTable (tbl_schema t) rows']> (db_tables db)) idx).
Proof.
  intros Ht Hrows n t0 Ht0. simpl.
  destruct (decide (n = name)) as [->|Hne].
  - rewrite lookup_insert_eq. rewrite Ht in Ht0. inversion Ht0; subst t0.
    eexists. split; [reflexivity|]. simpl. auto.
  - rewrite lookup_insert_ne by congruence. exists t0. auto.
Qed.

Lemma extends_new_table db name t idx :
  db_tables db !! name = None ->
  extends db (mkDatabase (<[name := t]> (db_tables db)) idx).
Proof.
  intros Hnone n t0 Ht0. simpl.
  rewrite lookup_insert_ne by congruence. exists t0. auto.
Qed.

Lemma consistent_updated db name t rows' idx :
  consistent db ->
  db_tables db !! name = Some t ->
  (forall r, r ∈ tbl_rows t -> r ∈ rows') ->
  (forall r, r ∈ rows' -> r ∈ tbl_rows t \/ row_ok db t r) ->
  consistent (mkDatabase (<[name := mkTable (tbl_schema t) rows']> (db_tables db)) idx).
Proof.
  intros Hc Ht Hold Hnew.
  pose proof (extends_insert db name t rows' idx Ht Hold) as Hext.
  intros n t0. simpl. destruct (decide (n = name)) as [->|Hne].
  - rewrite lookup_insert_eq. intros H0. inversion H0; subst t0. simpl.
    apply Forall_forall. intros r Hr.
    apply (row_ok_mono db _ t); [exact Hext|reflexivity|].
    destruct (Hnew r Hr) as [Hin|Hok]; [|exact Hok].
    specialize (Hc name t Ht). rewrite Forall_forall in Hc. auto.
  - rewrite lookup_insert_ne by congruence. intros H0.
    specialize (Hc n t0 H0). eapply Forall_impl; [exact Hc|].
    intros r Hr. eapply row_ok_mono; eauto.
Qed.

Lemma insert_row_consistent name df_cols db row db' :
  consistent db ->
  insert_row true name df_cols db row = Ok db' ->
  consistent db' /\ extends db db'.
Proof.
  intros Hc. unfold insert_row.
  destruct (db_tables db !! name) as [t|] eqn:Ht; [|discriminate].
  destruct (negb _); [discriminate|].
  destruct (assign_primary_key t _) as [stored|e]; [|discriminate].
  destruct (check_not_null _ _) as [[]|e] eqn:Hnn; [|discriminate].
  destruct (check_foreign_keys _ _ _ _) as [[]|e] eqn:Hfk; [|discriminate].
  intros H. inversion H; subst db'; clear H. split.
  - apply consistent_updated; auto.
    + intros r Hr. apply elem_of_app. auto.
    + intros r Hr. apply elem_of_app in Hr as [Hr|Hr]; [auto|].
      apply list_elem_of_singleton in Hr. subst r. right. split; assumption.
  - apply extends_insert; auto. intros r Hr. apply elem_of_app. auto.
Qed.

Lemma insert_rows_consistent name df_cols rows :
  forall db db',
    consistent db ->
    insert_rows true name df_cols db rows = Ok db' ->
    consistent db' /\ extends db db'.
Proof.
  induction rows as [|row rows IH]; intros db db' Hc H.
  - simpl in H. inversion H; subst. split; [exact Hc|apply extends_refl].
  - simpl in H. destruct (insert_row true name df_cols db row) as [db1|e] eqn:Hrow;
      [|discriminate].
    apply insert_row_consistent in Hrow as [Hc1 He1]; [|exact Hc].
    apply IH in H as [Hc' He']; [|exact Hc1].
    split; [exact Hc'|]. eapply extends_trans; eauto.
Qed.

Lemma has_schema_extends db db' : has_schema db -> extends db db' -> has_schema db'.
Proof.
  unfold has_schema. intros Hs Hext. eapply Forall_impl; [exact Hs|].
  intros [name schema] (rows & Ht).
  destruct (Hext _ _ Ht) as ([schema' rows'] & Ht' & Hsch & _). simpl in Hsch. subst schema'.
  eauto.
Qed.

(** A new, empty table breaks no constraint. *)
Lemma consistent_new_table db name schema idx :
  consistent db ->
  db_tables db !! name = None ->
  consistent (mkDatabase (<[name := mkTable schema []]> (db_tables db)) idx).
Proof.
  intros Hc Hnone n t0. simpl.
  pose proof (extends_new_table db name (mkTable schema []) idx Hnone) as Hext.
  destruct (decide (n = name)) as [->|Hne].
  - rewrite lookup_insert_eq. intros H0. inversion H0. constructor.
  - rewrite lookup_insert_ne by congruence. intros H0.
    specialize (Hc n t0 H0). eapply Forall_impl; [exact Hc|].
    intros r Hr. eapply row_ok_mono; eauto.
Qed.

Lemma orphan_rows_nil i j child parent :
  Forall (fun c => existsb (fun p => sql_eq (cell c i) (cell p j)) parent = true) child ->
  orphan_rows i j child parent = [].
Proof.
  unfold orphan_rows. induction 1 as [|c child Hc _ IH]; [reflexivity|].
  simpl. rewrite Hc. simpl. exact IH.
Qed.

(** A foreign key on a NOT NULL column that passed its check has a matching
    parent row. *)
Lemma checked_key_matches db cols r fk i parent j :
  check_foreign_key db cols r fk = Ok tt ->
  index_of (fk_column fk) cols = Some i ->
  is_null (cell r i) = false ->
  db_tables db !! fk_parent fk = Some parent ->
  index_of (fk_parent_column fk) (table_columns parent) = Some j ->
  existsb (fun p => sql_eq (cell r i) (cell p j)) (tbl_rows parent) = true.
Proof.
  unfold check_foreign_key. intros H Hi Hnull Hp Hj.
  rewrite Hi, Hnull, Hp, Hj in H.
  destruct (existsb _ _); [reflexivity|discriminate].
Qed.

Lemma consistent_no_orphans db : has_schema db -> consistent db -> no_orphans db.
Proof.
  intros Hs Hc. unfold has_schema, SCHEMAS in Hs.
  apply Forall_cons in Hs as [(cs & Hcs) Hs].
  apply Forall_cons in Hs as [(ps & Hps) Hs].
  apply Forall_cons in Hs as [(os & Hos) Hs].
  apply Forall_cons in Hs as [(its & Hits) Hs].
  apply Forall_cons in Hs as [(ss & Hss) _].
  pose proof (Hc _ _ Hos) as Ro. pose proof (Hc _ _ Hits) as Ri.
  pose proof (Hc _ _ Hss) as Rs. simpl in Ro, Ri, Rs.
  unfold no_orphans, RELATIONSHIPS. repeat apply Forall_cons_2; [| | | |constructor].
  - unfold orphans_of. rewrite Hos, Hcs. simpl. f_equal. apply orphan_rows_nil.
    eapply Forall_impl; [exact Ro|]. intros r [Hnn Hfk].
    unfold check_not_null in Hnn. simpl in Hnn.
    destruct (is_null (cell r 1)) eqn:Hnull; [simpl in Hnn; discriminate|].
    simpl in Hfk.
    destruct (check_foreign_key _ _ _ _) as [[]|e] eqn:Hk in Hfk; [|discriminate].
    apply (checked_key_matches _ _ _ _ 1%nat (mkTable customers_schema cs) 0%nat Hk);
      auto.
  - unfold orphans_of. rewrite Hits, Hos. simpl. f_equal. apply orphan_rows_nil.
    eapply Forall_impl; [exact Ri|]. intros r [Hnn Hfk].
    unfold check_not_null in Hnn. simpl in Hnn.
    destruct (is_null (cell r 1)) eqn:Hnull; [simpl in Hnn; discriminate|].
    simpl in Hfk.
    destruct (check_foreign_key _ _ _ _) as [[]|e] eqn:Hk in Hfk; [|discriminate].
    apply (checked_key_matches _ _ _ _ 1%nat (mkTable orders_schema os) 0%nat Hk);
      auto.
  - unfold orphans_of. rewrite Hits, Hps. simpl. f_equal. apply orphan_rows_nil.
    eapply Forall_impl; [exact Ri|]. intros r [Hnn Hfk].
    unfold check_not_null in Hnn. simpl in Hnn.
    destruct (is_null (cell r 1)) eqn:Hnull1; [simpl in Hnn; discriminate|].
    destruct (is_null (cell r 2)) eqn:Hnull; [simpl in Hnn; discriminate|].
    simpl in Hfk.
    destruct (check_foreign_key _ _ _ _) as [[]|e] in Hfk; [|discriminate].
    destruct (check_foreign_key _ _ _ _) as [[]|e] eqn:Hk in Hfk; [|discriminate].
    apply (checked_key_matches _ _ _ _ 2%nat (mkTable products_schema ps) 0%nat Hk);
      auto.
  - unfold orphans_of. rewrite Hss, Hos. simpl. f_equal. apply orphan_rows_nil.
    eapply Forall_impl; [exact Rs|]. intros r [Hnn Hfk].
    unfold check_not_null in Hnn. simpl in Hnn.
    destruct (is_null (cell r 1)) eqn:Hnull; [simpl in Hnn; discriminate|].
    simpl in Hfk.
    destruct (check_foreign_key _ _ _ _) as [[]|e] eqn:Hk in Hfk; [|discriminate].
    apply (checked_key_matches _ _ _ _ 1%nat (mkTable orders_schema os) 0%nat Hk);
      auto.
Qed.

Lemma execute_ok {A} conn (stmt : Database -> Result (A * Database)) w db a db' :
  fs w !! conn_file conn = Some (SqliteFile db) ->
  stmt db = Ok (a, db') ->
  execute conn stmt w
  = (Ok a, mkWorld (py_random w) (faker_random w)
             (<[conn_file conn := SqliteFile db']> (fs w)) (stdout w)).
Proof. intros Hdb Hs. unfold execute. rewrite Hdb, Hs. reflexivity. Qed.

Lemma execute_raise {A} conn (stmt : Database -> Result (A * Database)) w db e :
  fs w !! conn_file conn = Some (SqliteFile db) ->
  stmt db = Raise e ->
  execute conn stmt w = (Raise e, w).
Proof. intros Hdb Hs. unfold execute. rewrite Hdb, Hs. reflexivity. Qed.

Lemma filter_none {A} (P : A -> Prop) `{forall x, Decision (P x)} (l : list A) :
  Forall (fun x => ~ P x) l -> filter P l = [].
Proof.
  induction 1 as [|x l Hx _ IH]; [reflexivity|].
  rewrite filter_cons_False by exact Hx. exact IH.
Qed.

Lemma tables_dropped (tables : gmap string Table) :
  (forall name t, tables !! name = Some t -> name ∈ TABLES) ->
  delete "customers" (delete "products" (delete "orders" (delete "order_items"
    (delete "shipments" tables)))) = ∅.
Proof.
  intros Hnames. apply map_eq. intros name. rewrite lookup_empty.
  destruct (tables !! name) as [t|] eqn:Ht.
  - apply Hnames in Ht. unfold TABLES in Ht.
    repeat (apply elem_of_cons in Ht as [->|Ht]; [simplify_map_eq; reflexivity|]).
    inversion Ht.
  - rewrite !lookup_delete_None. auto 10.
Qed.

Lemma indexes_dropped (indexes : list (string * string * string)) :
  Forall (fun ix => ix.1.2 ∈ TABLES) indexes ->
  filter (fun ix => ix.1.2 ≠ "customers")
    (filter (fun ix => ix.1.2 ≠ "products")
       (filter (fun ix => ix.1.2 ≠ "orders")
          (filter (fun ix => ix.1.2 ≠ "order_items")
             (filter (fun ix => ix.1.2 ≠ "shipments") indexes)))) = [].
Proof.
  intros Hidx. rewrite !list_filter_filter. apply filter_none.
  eapply Forall_impl; [exact Hidx|]. intros ix Hin. cbn beta. unfold TABLES in Hin.
  repeat (apply elem_of_cons in Hin as [Hin|Hin]; [tauto|]). inversion Hin.
Qed.

(** Once the five DROP statements have left no table and no index, the
    five CREATE statements cannot fail. *)
Lemma create_database_schema_on_cleared conn w db :
  fs w !! conn_file conn = Some (SqliteFile db) ->
  delete "customers" (delete "products" (delete "orders" (delete "order_items"
    (delete "shipments" (db_tables db))))) = ∅ ->
  filter (fun ix => ix.1.2 ≠ "customers")
    (filter (fun ix => ix.1.2 ≠ "products")
       (filter (fun ix => ix.1.2 ≠ "orders")
          (filter (fun ix => ix.1.2 ≠ "order_items")
             (filter (fun ix => ix.1.2 ≠ "shipments") (db_indexes db))))) = [] ->
  exists w',
    create_database_schema conn w = (Ok tt, w') /\
    fs w' = <[conn_file conn := SqliteFile created_db]> (fs w) /\
    stdout w' = stdout w ++
      [ "Creating database schema..."; "[OK] Database schema created successfully" ].
Proof.
  intros Hdb Htables Hidx. unfold create_database_schema.
  erewrite bind_eq by reflexivity.
  do 5 (erewrite bind_eq
          by (eapply execute_ok;
              [cbn [fs]; first [exact Hdb|apply lookup_insert_eq]|reflexivity])).
  cbn [fs py_random faker_random stdout]. rewrite !insert_insert_eq.
  cbn [db_tables db_indexes]. rewrite Htables, Hidx.
  do 5 (erewrite bind_eq
          by (eapply execute_ok; [cbn [fs]; apply lookup_insert_eq|reflexivity])).
  eexists. split; [reflexivity|]. cbn [fs stdout].
  rewrite !insert_insert_eq. split.
  - f_equal.
  - rewrite <- app_assoc. reflexivity.
Qed.

(** X9. On a database that holds no tables but those of the loader, with
    the loader's schemas, and no indexes but on them,
    [create_database_schema] never fails and leaves the five tables
    empty and no index, whatever rows and indexes were there. *)
Theorem create_database_schema_resets conn w db :
  fs w !! conn_file conn = Some (SqliteFile db) ->
  (forall name t, db_tables db !! name = Some t -> (name, tbl_schema t) ∈ SCHEMAS) ->
  Forall (fun ix => ix.1.2 ∈ TABLES) (db_indexes db) ->
  exists w',
    create_database_schema conn w = (Ok tt, w') /\
    fs w' = <[conn_file conn := SqliteFile created_db]> (fs w) /\
    stdout w' = stdout w ++
      [ "Creating database schema..."; "[OK] Database schema created successfully" ].
Proof.
  intros Hdb Htables Hidx.
  apply (create_database_schema_on_cleared conn w db Hdb).
  - apply tables_dropped. intros name t Ht. apply Htables in Ht.
    unfold SCHEMAS in Ht. unfold TABLES.
    repeat (apply elem_of_cons in Ht as [Ht|Ht];
            [inversion Ht; subst; repeat constructor|]).
    inversion Ht.
  - apply indexes_dropped. exact Hidx.
Qed.

Lemma np_silent {A} line (m : M A) :
  (forall w, stdout (snd (m w)) = stdout w) -> never_prints line m.
Proof.
  intros H w. exists []. rewrite app_nil_r. split; [apply H|]. apply not_elem_of_nil.
Qed.

Lemma np_bind {A B} line (m : M A) (k : A -> M B) :
  never_prints line m -> (forall a, never_prints line (k a)) -> never_prints line (bind m k).
Proof.
  intros Hm Hk w. unfold bind. destruct (Hm w) as (l1 & H1 & N1).
  destruct (m w) as [[a|e] w1]; simpl in H1.
  - destruct (Hk a w1) as (l2 & H2 & N2). exists (l1 ++ l2).
    rewrite H2, H1, app_assoc. split; [reflexivity|].
    rewrite elem_of_app. tauto.
  - exists l1. auto.
Qed.

Lemma np_try_except {A} line (m : M A) h :
  never_prints line m -> (forall e, never_prints line (h e)) ->
  never_prints line (try_except m h).
Proof.
  intros Hm Hh w. unfold try_except. destruct (Hm w) as (l1 & H1 & N1).
  destruct (m w) as [[a|e] w1]; simpl in H1.
  - exists l1. auto.
  - destruct (Hh e w1) as (l2 & H2 & N2). exists (l1 ++ l2).
    rewrite H2, H1, app_assoc. split; [reflexivity|].
    rewrite elem_of_app. tauto.
Qed.

Lemma np_print line l : l <> line -> never_prints line (print l).
Proof.
  intros Hne w. exists [l]. split; [reflexivity|].
  intros Hin. apply list_elem_of_singleton in Hin. congruence.
Qed.

Lemma np_ret {A} line (a : A) : never_prints line (ret a).
Proof. apply np_silent. reflexivity. Qed.

Lemma np_raise {A} line e : never_prints line (@raise A e).
Proof. apply np_silent. reflexivity. Qed.

Lemma np_lift {A} line (r : Result A) : never_prints line (lift r).
Proof. apply np_silent. reflexivity. Qed.

Lemma np_execute {A} line conn (stmt : Database -> Result (A * Database)) :
  never_prints line (execute conn stmt).
Proof.
  apply np_silent. intros w. unfold execute.
  destruct (fs w !! conn_file conn) as [[bytes|db]|]; try reflexivity.
  destruct (stmt db) as [[a db']|e]; reflexivity.
Qed.

Lemma np_for_each {A} line (items : list A) (body : A -> M unit) :
  (forall x, x ∈ items -> never_prints line (body x)) ->
  never_prints line (for_each items body).
Proof.
  induction items as [|x items IH]; intros Hbody; [apply np_ret|].
  simpl. apply np_bind; [apply Hbody; left|].
  intros _. apply IH. intros y Hy. apply Hbody. right. exact Hy.
Qed.

Section LoaderConsole.
Context (L : Lib).

Lemma np_read_csv line path : never_prints line (read_csv L path).
Proof.
  apply np_silent. intros w. unfold read_csv.
  destruct (fs w !! path) as [[bytes|db]|]; reflexivity.
Qed.

Lemma np_load_csv_to_table conn csv table pk :
  never_prints WARNINGS_LINE (load_csv_to_table L conn csv table pk).
Proof.
  unfold load_csv_to_table. apply np_try_except.
  - apply np_bind; [apply np_print; discriminate|intros _].
    apply np_bind; [apply np_print; discriminate|intros _].
    apply np_bind; [apply np_silent; reflexivity|intros present].
    apply np_bind; [destruct present; [apply np_ret|apply np_raise]|intros _].
    apply np_bind; [apply np_read_csv|intros df0].
    apply np_bind; [destruct (String.eqb table "orders"); [apply np_lift|apply np_ret]
                   |intros df1].
    apply np_bind; [apply np_lift|intros df].
    apply np_bind; [|intros _].
    { destruct (0 <? _); [apply np_print; discriminate|apply np_ret]. }
    apply np_bind; [apply np_execute|intros _].
    apply np_print. discriminate.
  - intros e. apply np_bind; [apply np_print; discriminate|intros _]. apply np_raise.
Qed.

Lemma np_create_database_schema conn :
  never_prints WARNINGS_LINE (create_database_schema conn).
Proof.
  unfold create_database_schema.
  repeat (apply np_bind; [first [apply np_print; discriminate|apply np_execute]|intros _]).
  apply np_print. discriminate.
Qed.

Lemma np_create_indexes conn : never_prints WARNINGS_LINE (create_indexes conn).
Proof.
  unfold create_indexes.
  apply np_bind; [apply np_print; discriminate|intros _].
  apply np_bind; [apply np_print; discriminate|intros _].
  apply np_for_each. intros [[index_name table_name] column_name] _.
  apply np_try_except.
  - apply np_bind; [apply np_execute|intros _]. apply np_print. discriminate.
  - intros e. apply np_print. discriminate.
Qed.

Lemma np_print_table_counts conn : never_prints WARNINGS_LINE (print_table_counts conn).
Proof.
  unfold print_table_counts.
  apply np_bind; [apply np_print; discriminate|intros _].
  apply np_bind; [apply np_print; discriminate|intros _].
  apply np_for_each. intros table Hin. unfold TABLES in Hin.
  repeat (apply elem_of_cons in Hin as [->|Hin];
          [apply np_try_except;
           [apply np_bind; [apply np_execute|intros count]; apply np_print; discriminate
           |intros e; apply np_print; discriminate]|]).
  inversion Hin.
Qed.

Lemma np_report_checks checks all_passed :
  Forall (fun c => exists rest, c.1.1 = String "O" rest \/ c.1.1 = String "S" rest) checks ->
  never_prints WARNINGS_LINE (report_checks checks all_passed).
Proof.
  intros Hall. revert all_passed.
  induction Hall as [|[[check_name passed] orphan_count] checks Hc _ IH]; intros all_passed.
  - apply np_ret.
  - simpl. apply np_bind; [|intros _; apply IH].
    apply np_print. destruct Hc as (rest & [Hn|Hn]); simpl in Hn; subst check_name;
      discriminate.
Qed.

Lemma np_verify_referential_integrity conn :
  never_prints WARNINGS_LINE (verify_referential_integrity conn).
Proof.
  unfold verify_referential_integrity.
  apply np_bind; [apply np_print; discriminate|intros _].
  apply np_bind; [apply np_print; discriminate|intros _].
  apply np_bind; [apply np_execute|intros n1].
  apply np_bind; [apply np_execute|intros n2].
  apply np_bind; [apply np_execute|intros n3].
  apply np_bind; [apply np_execute|intros n4].
  apply np_bind; [|intros all_passed].
  { apply np_report_checks. repeat constructor; eexists; simpl; eauto. }
  apply np_bind; [|intros _; apply np_ret].
  destruct all_passed; apply np_print; discriminate.
Qed.

End LoaderConsole.

Lemma triple_console {A} s0 line (P : World -> Prop) (m : M A) Q E :
  never_prints line m -> triple P m Q E ->
  triple (fun w => P w /\ console s0 line w) m
    (fun a w => Q a w /\ console s0 line w) (fun e w => E e w /\ console s0 line w).
Proof.
  intros Hnp Hm w [HP (l0 & H0 & N0)]. specialize (Hm w HP).
  destruct (Hnp w) as (l1 & H1 & N1).
  assert (Hc : console s0 line (snd (m w))).
  { exists (l0 ++ l1). rewrite H1, H0, app_assoc. split; [reflexivity|].
    rewrite elem_of_app. tauto. }
  destruct (m w) as [[a|e] w1]; simpl in Hc; auto.
Qed.

Lemma triple_pure {A} (phi : Prop) (P : World -> Prop) (m : M A) Q E :
  (phi -> triple P m Q E) -> triple (fun w => phi /\ P w) m Q E.
Proof. intros H w [Hphi HP]. apply H; assumption. Qed.

Lemma triple_run {A} (P : World -> Prop) (m : M A) (Q : A -> World -> Prop) E :
  (forall w, P w -> exists a w', m w = (Ok a, w') /\ Q a w') -> triple P m Q E.
Proof. intros H w Hw. destruct (H w Hw) as (a & w' & -> & HQ). exact HQ. Qed.

Lemma triple_print_fs (F : gmap string File -> Prop) line E :
  triple (fun w => F (fs w)) (print line) (fun _ w => F (fs w)) E.
Proof. intros w Hw. exact Hw. Qed.

Lemma consistent_same_tables db db' :
  db_tables db' = db_tables db -> consistent db -> consistent db'.
Proof.
  intros Ht Hc name t Hn. rewrite Ht in Hn.
  eapply Forall_impl; [exact (Hc name t Hn)|].
  intros r Hr. apply (row_ok_mono db db' t t); [|reflexivity|exact Hr].
  intros n t0 H0. exists t0. rewrite Ht. auto.
Qed.

Lemma extends_same_tables db0 db db' :
  db_tables db' = db_tables db -> extends db0 db -> extends db0 db'.
Proof. intros Ht He name t Hn. rewrite Ht. apply He. exact Hn. Qed.

Section LoaderStore.
Context (L : Lib).

(** With foreign keys on, a load keeps the store's constraints and loses no
    row, whether it succeeds or fails. *)
Lemma load_csv_to_table_grows conn csv table pk fs0 db0 :
  conn_foreign_keys conn = true ->
  triple (store_grows (conn_file conn) fs0 db0)
    (load_csv_to_table L conn csv table pk)
    (fun _ => store_grows (conn_file conn) fs0 db0)
    (fun _ => store_grows (conn_file conn) fs0 db0).
Proof.
  intros Hfk. set (I := store_grows (conn_file conn) fs0 db0).
  unfold load_csv_to_table. eapply triple_try_except with (E' := fun _ => I).
  - eapply triple_bind with (R := fun _ => I); [intros w Hw; exact Hw|intros _].
    eapply triple_bind with (R := fun _ => I); [intros w Hw; exact Hw|intros _].
    eapply triple_bind with (R := fun _ => I); [intros w Hw; exact Hw|intros present].
    eapply triple_bind with (R := fun _ => I); [|intros _].
    { destruct present; intros w Hw; exact Hw. }
    eapply triple_bind with (R := fun _ => I); [|intros df0].
    { intros w Hw. unfold read_csv.
      destruct (fs w !! csv) as [[bytes|dbf]|]; [|exact Hw|exact Hw].
      destruct (read_csv_bytes L bytes); exact Hw. }
    eapply triple_bind with (R := fun _ => I); [|intros df1].
    { destruct (String.eqb table "orders"); [|intros w Hw; exact Hw].
      apply triple_lift. intros w Hw. destruct (replace_empty_with_none _ _); exact Hw. }
    eapply triple_bind with (R := fun _ => I); [|intros df].
    { apply triple_lift. intros w Hw. destruct (drop_duplicates _ _); exact Hw. }
    eapply triple_bind with (R := fun _ => I); [|intros _].
    { destruct (0 <? _); intros w Hw; exact Hw. }
    eapply triple_bind with (R := fun _ => I); [|intros _; intros w Hw; exact Hw].
    intros w (db & Hw & Hc & He). unfold to_sql, execute.
    rewrite Hw, lookup_insert_eq, Hfk.
    match goal with |- context [insert_rows true table (df_columns df) ?d (df_rows df)] =>
      assert (Hd : consistent d /\ extends db d); [|set (db1 := d) in *] end.
    { destruct (db_tables db !! table) as [t|] eqn:Ht.
      - split; [exact Hc|apply extends_refl].
      - split; [apply consistent_new_table; auto|apply extends_new_table; auto]. }
    destruct Hd as [Hc1 He1].
    destruct (insert_rows true table (df_columns df) db1 (df_rows df)) as [db2|e] eqn:Hins.
    + apply insert_rows_consistent in Hins as [Hc2 He2]; [|exact Hc1].
      exists db2. cbn [fs]. rewrite insert_insert_eq. split; [reflexivity|].
      split; [exact Hc2|]. eauto using extends_trans.
    + exists db. rewrite Hw. auto.
  - intros e. eapply triple_bind with (R := fun _ => I); [intros w Hw; exact Hw|intros _].
    intros w Hw. exact Hw.
Qed.

End LoaderStore.

Lemma triple_at {A} (m : M A) (w : World) (Q : A -> World -> Prop) E :
  triple (fun v => v = w) m Q E ->
  match m w with
  | (Ok a, w') => Q a w'
  | (Raise e, w') => E e w'
  end.
Proof. intros H. apply H. reflexivity. Qed.

(** A statement that leaves the database as it is leaves every file as it is. *)
Lemma execute_read_only {A} conn (stmt : Database -> Result (A * Database)) w :
  (forall db a db', stmt db = Ok (a, db') -> db' = db) ->
  fs (snd (execute conn stmt w)) = fs w.
Proof.
  intros Hro. unfold execute.
  destruct (fs w !! conn_file conn) as [[bytes|db]|] eqn:Hf; try reflexivity.
  destruct (stmt db) as [[a db']|e] eqn:Hs; [|reflexivity].
  apply Hro in Hs. subst db'. simpl. apply insert_id. exact Hf.
Qed.

Lemma select_count_read_only table db a db' :
  select_count table db = Ok (a, db') -> db' = db.
Proof.
  unfold select_count. destruct (db_tables db !! table); [|discriminate].
  intros H. inversion H. reflexivity.
Qed.

Lemma select_orphan_count_read_only child child_col parent parent_col db a db' :
  select_orphan_count child child_col parent parent_col db = Ok (a, db') -> db' = db.
Proof.
  unfold select_orphan_count.
  destruct (db_tables db !! child); [|discriminate].
  destruct (db_tables db !! parent); [|discriminate].
  destruct (index_of _ _); [|discriminate]. destruct (index_of _ _); [|discriminate].
  intros H. inversion H. reflexivity.
Qed.

Lemma print_table_counts_run conn w :
  exists w', print_table_counts conn w = (Ok tt, w') /\ fs w' = fs w.
Proof.
  assert (H : triple (fun v => fs v = fs w) (print_table_counts conn)
                (fun _ v => fs v = fs w) (fun _ _ => False)).
  { unfold print_table_counts.
    eapply triple_bind; [apply (triple_print_fs (fun f => f = fs w))|intros ?].
    eapply triple_bind; [apply (triple_print_fs (fun f => f = fs w))|intros ?].
    apply triple_for_each. intros table _. intros v Hv. unfold try_except, bind.
    pose proof (execute_read_only conn (select_count table) v
                  (select_count_read_only table)) as Hro.
    destruct (execute conn (select_count table) v) as [[count|e] v1]; simpl in Hro |- *;
      congruence. }
  specialize (H w eq_refl).
  destruct (print_table_counts conn w) as [[[]|e] w']; [eauto|contradiction].
Qed.

Lemma report_checks_keeps_files checks all_passed w :
  exists b w', report_checks checks all_passed w = (Ok b, w') /\ fs w' = fs w.
Proof.
  revert all_passed w.
  induction checks as [|[[check_name passed] orphan_count] checks IH]; intros all_passed w.
  - exists all_passed, w. auto.
  - simpl. erewrite bind_eq by reflexivity.
    match goal with |- context [report_checks checks ?b ?v] =>
      destruct (IH b v) as (b' & w' & Hrun & Hfs) end.
    exists b', w'. split; [exact Hrun|]. rewrite Hfs. reflexivity.
Qed.

(** [verify_referential_integrity] writes nothing, and can fail only on a
    statement. *)
Lemma verify_referential_integrity_keeps_files conn w :
  triple (fun v => fs v = fs w) (verify_referential_integrity conn)
    (fun _ v => fs v = fs w) (fun e v => fs v = fs w /\ exists msg, e = OperationalError msg).
Proof.
  assert (Hq : forall c cc p pc,
    triple (fun v => fs v = fs w) (execute conn (select_orphan_count c cc p pc))
      (fun _ v => fs v = fs w)
      (fun e v => fs v = fs w /\ exists msg, e = OperationalError msg)).
  { intros c cc p pc v Hv.
    pose proof (execute_read_only conn (select_orphan_count c cc p pc) v
                  (select_orphan_count_read_only c cc p pc)) as Hro.
    destruct (execute conn (select_orphan_count c cc p pc) v) as [[n|e] v1] eqn:Hrun;
      simpl in Hro; [congruence|]. split; [congruence|].
    unfold execute in Hrun. destruct (fs v !! conn_file conn) as [[bytes|db]|];
      [inversion Hrun; eauto| |inversion Hrun; eauto].
    unfold select_orphan_count in Hrun.
    destruct (db_tables db !! c); [|inversion Hrun; eauto].
    destruct (db_tables db !! p); [|inversion Hrun; eauto].
    destruct (index_of cc _); [|inversion Hrun; eauto].
    destruct (index_of pc _); [|inversion Hrun; eauto].
    discriminate. }
  unfold verify_referential_integrity.
  eapply triple_bind; [apply (triple_print_fs (fun f => f = fs w))|intros ?].
  eapply triple_bind; [apply (triple_print_fs (fun f => f = fs w))|intros ?].
  eapply triple_bind; [apply Hq|intros n1].
  eapply triple_bind; [apply Hq|intros n2].
  eapply triple_bind; [apply Hq|intros n3].
  eapply triple_bind; [apply Hq|intros n4].
  eapply triple_bind with (R := fun _ v => fs v = fs w).
  - intros v Hv.
    match goal with |- context [report_checks ?c ?b v] =>
      destruct (report_checks_keeps_files c b v) as (b' & v' & -> & Hfs) end.
    congruence.
  - intros all_passed. eapply triple_bind with (R := fun _ v => fs v = fs w).
    + destruct all_passed; apply (triple_print_fs (fun f => f = fs w)).
    + intros _. apply triple_ret. auto.
Qed.


Lemma verify_no_orphans_run conn w db :
  fs w !! conn_file conn = Some (SqliteFile db) ->
  no_orphans db ->
  exists w', verify_referential_integrity conn w = (Ok true, w') /\ fs w' = fs w.
Proof.
  intros Hdb Hno. unfold no_orphans, RELATIONSHIPS in Hno.
  apply Forall_cons in Hno as [H1 Hno]. apply Forall_cons in Hno as [H2 Hno].
  apply Forall_cons in Hno as [H3 Hno]. apply Forall_cons in Hno as [H4 _].
  unfold verify_referential_integrity.
  destruct (print_keeps_files "" w) as (wa & Ea & Fa). rewrite (bind_eq _ _ _ _ _ Ea).
  destruct (print_keeps_files "REFERENTIAL INTEGRITY VERIFICATION" wa) as (wb & Eb & Fb).
  rewrite (bind_eq _ _ _ _ _ Eb).
  assert (Hb : fs wb !! conn_file conn = Some (SqliteFile db)) by (rewrite Fb, Fa; exact Hdb).
  destruct (execute_orphan_count conn wb db _ _ _ _ [] Hb H1) as (w1 & E1 & F1).
  rewrite (bind_eq _ _ _ _ _ E1). rewrite <- F1 in Hb.
  destruct (execute_orphan_count conn w1 db _ _ _ _ [] Hb H2) as (w2 & E2 & F2).
  rewrite (bind_eq _ _ _ _ _ E2). rewrite <- F2 in Hb.
  destruct (execute_orphan_count conn w2 db _ _ _ _ [] Hb H3) as (w3 & E3 & F3).
  rewrite (bind_eq _ _ _ _ _ E3). rewrite <- F3 in Hb.
  destruct (execute_orphan_count conn w3 db _ _ _ _ [] Hb H4) as (w4 & E4 & F4).
  rewrite (bind_eq _ _ _ _ _ E4).
  eexists. split; [reflexivity|]. cbn [fs]. rewrite F4, F3, F2, F1, Fb, Fa. reflexivity.
Qed.

Lemma create_index_step conn iname tname cname (done : string) (failed : Exception -> string) v :
  exists v',
    try_except
      (let! _ := execute conn (create_index_if_not_exists iname tname cname) in print done)
      (fun e => print (failed e)) v = (Ok tt, v') /\
    ((forall db, fs v !! conn_file conn <> Some (SqliteFile db)) -> fs v' = fs v) /\
    (forall db, fs v !! conn_file conn = Some (SqliteFile db) ->
       exists new,
         fs v' = <[conn_file conn :=
                     SqliteFile (mkDatabase (db_tables db) (db_indexes db ++ new))]> (fs v) /\
         ((exists t, db_tables db !! tname = Some t /\
                     is_Some (index_of cname (table_columns t))) ->
          exists ix, ix ∈ db_indexes db ++ new /\ ix.1.1 = iname)).
Proof.
  assert (Hid : forall db, fs v !! conn_file conn = Some (SqliteFile db) ->
            fs v = <[conn_file conn :=
                       SqliteFile (mkDatabase (db_tables db) (db_indexes db ++ []))]> (fs v)).
  { intros db Hf. rewrite app_nil_r. destruct db. symmetry. apply insert_id. exact Hf. }
  unfold try_except, bind, execute.
  destruct (fs v !! conn_file conn) as [[bytes|db]|] eqn:Hf.
  - eexists. split; [reflexivity|]. split; [reflexivity|]. intros db Hdb. discriminate.
  - unfold create_index_if_not_exists.
    destruct (existsb _ (db_indexes db)) eqn:Hex.
    + eexists. split; [reflexivity|]. split; [intros Hno; destruct (Hno db); reflexivity|].
      intros db0 Hdb0. inversion Hdb0; subst db0. exists []. cbn [fs].
      split.
      { rewrite app_nil_r. destruct db. reflexivity. }
      intros _. apply existsb_elem_of in Hex as (ix & Hix & Heq).
      exists ix. rewrite app_nil_r. split; [exact Hix|]. apply String.eqb_eq. exact Heq.
    + destruct (db_tables db !! tname) as [t|] eqn:Ht.
      * destruct (index_of cname (table_columns t)) as [j|] eqn:Hj.
        -- eexists. split; [reflexivity|].
           split; [intros Hno; destruct (Hno db); reflexivity|].
           intros db0 Hdb0. inversion Hdb0; subst db0. exists [(iname, tname, cname)].
           cbn [fs]. split; [reflexivity|]. intros _.
           exists (iname, tname, cname). split; [|reflexivity].
           apply elem_of_app. right. left.
        -- eexists. split; [reflexivity|]. split; [reflexivity|].
           intros db0 Hdb0. inversion Hdb0; subst db0. exists []. cbn [fs].
           split; [apply Hid; reflexivity|].
           intros (t' & Ht' & Hsome). rewrite Ht in Ht'. inversion Ht'; subst t'.
           rewrite Hj in Hsome. destruct Hsome as [x Hx]. discriminate.
      * eexists. split; [reflexivity|]. split; [reflexivity|].
        intros db0 Hdb0. inversion Hdb0; subst db0. exists []. cbn [fs].
        split; [apply Hid; reflexivity|].
        intros (t' & Ht' & _). rewrite Ht in Ht'. discriminate.
  - eexists. split; [reflexivity|]. split; [reflexivity|]. intros db Hdb. discriminate.
Qed.

Lemma create_indexes_run conn w :
  exists w',
    create_indexes conn w = (Ok tt, w') /\
    ((forall db, fs w !! conn_file conn <> Some (SqliteFile db)) -> fs w' = fs w) /\
    (forall db, fs w !! conn_file conn = Some (SqliteFile db) ->
       exists new,
         fs w' = <[conn_file conn :=
                     SqliteFile (mkDatabase (db_tables db) (db_indexes db ++ new))]> (fs w) /\
         forall ix, ix ∈ INDEXES ->
           (exists t, db_tables db !! ix.1.2 = Some t /\
                      is_Some (index_of ix.2 (table_columns t))) ->
           exists ix', ix' ∈ db_indexes db ++ new /\ ix'.1.1 = ix.1.1).
Proof.
  unfold create_indexes.
  erewrite bind_eq by reflexivity. erewrite bind_eq by reflexivity.
  match goal with |- context [for_each INDEXES ?b ?v] =>
    set (body := b); assert (Hv : fs v = fs w) by reflexivity; generalize dependent v end.
  intros v Hv. rewrite <- Hv. clear Hv w.
  generalize INDEXES. intros ixs. revert v.
  induction ixs as [|[[iname tname] cname] ixs IH]; intros v.
  - exists v. split; [reflexivity|]. split; [reflexivity|].
    intros db Hf. exists []. split.
    + rewrite app_nil_r. destruct db. symmetry. apply insert_id. exact Hf.
    + intros ix Hix. inversion Hix.
  - destruct (create_index_step conn iname tname cname
                ("  [OK] Created index " +:+ iname +:+ " on " +:+ tname +:+ "." +:+ cname)
                (fun e => "  [ERROR] Failed to create index " +:+ iname +:+ ": "
                          +:+ exception_text e) v)
      as (v1 & Hstep & Hno1 & Hdb1).
    destruct (IH v1) as (v' & Hrest & Hno2 & Hdb2).
    exists v'. split.
    { change (for_each ((iname, tname, cname) :: ixs) body v)
        with (bind (body (iname, tname, cname)) (fun _ => for_each ixs body) v).
      erewrite bind_eq by exact Hstep. exact Hrest. }
    split.
    + intros Hno. rewrite Hno2, Hno1; auto. intros db. rewrite Hno1 by exact Hno. apply Hno.
    + intros db Hf. destruct (Hdb1 db Hf) as (new1 & Hfs1 & Hix1).
      destruct (Hdb2 (mkDatabase (db_tables db) (db_indexes db ++ new1)))
        as (new2 & Hfs2 & Hix2).
      { rewrite Hfs1. apply lookup_insert_eq. }
      exists (new1 ++ new2). cbn [db_tables db_indexes] in Hfs2, Hix2.
      split.
      { rewrite Hfs2, Hfs1, insert_insert_eq, app_assoc. reflexivity. }
      intros ix Hin Hcol. rewrite app_assoc.
      apply elem_of_cons in Hin as [->|Hin].
      * destruct (Hix1 Hcol) as (ix' & Hin' & Hname). exists ix'.
        split; [apply elem_of_app; left; exact Hin'|exact Hname].
      * apply Hix2; assumption.
Qed.

(** X12. [create_indexes] never fails: a statement that fails is reported
    on the console and the loop goes on. It leaves every table as it was
    and keeps the indexes that were there; a file that is no database is
    left as it is. On a store that has the loader's five tables, each of
    the eight index names is an index afterwards. *)
Theorem create_indexes_outcome conn w :
  exists w',
    create_indexes conn w = (Ok tt, w') /\
    ((forall db, fs w !! conn_file conn <> Some (SqliteFile db)) -> fs w' = fs w) /\
    (forall db, fs w !! conn_file conn = Some (SqliteFile db) ->
       exists db',
         fs w' = <[conn_file conn := SqliteFile db']> (fs w) /\
         db_tables db' = db_tables db /\
         (exists new, db_indexes db' = db_indexes db ++ new) /\
         (has_schema db ->
          Forall (fun ix => exists ix', ix' ∈ db_indexes db' /\ ix'.1.1 = ix.1.1) INDEXES)).
Proof.
  destruct (create_indexes_run conn w) as (w' & Hrun & Hno & Hdb).
  exists w'. split; [exact Hrun|]. split; [exact Hno|].
  intros db Hf. destruct (Hdb db Hf) as (new & Hfs & Hix).
  eexists. split; [exact Hfs|]. split; [reflexivity|]. split; [eauto|].
  intros Hs. cbn [db_indexes]. apply Forall_forall. intros ix Hin. apply Hix; [exact Hin|].
  unfold has_schema, SCHEMAS in Hs.
  apply Forall_cons in Hs as [(cs & Hcs) Hs].
  apply Forall_cons in Hs as [(ps & Hps) Hs].
  apply Forall_cons in Hs as [(os & Hos) Hs].
  apply Forall_cons in Hs as [(its & Hits) Hs].
  apply Forall_cons in Hs as [(ss & Hss) _].
  unfold INDEXES in Hin.
  repeat (apply elem_of_cons in Hin as [->|Hin];
          [eexists; split; [eassumption|eexists; reflexivity]|]).
  inversion Hin.
Qed.

Lemma created_db_consistent : consistent created_db.
Proof.
  intros name t Ht. unfold created_db in Ht. cbn [db_tables] in Ht.
  apply elem_of_list_to_map_2 in Ht.
  repeat (apply elem_of_cons in Ht as [Ht|Ht]; [inversion Ht; subst; constructor|]).
  inversion Ht.
Qed.

Lemma created_db_has_schema : has_schema created_db.
Proof. unfold has_schema, SCHEMAS. repeat constructor; exists []; reflexivity. Qed.

Lemma create_database_schema_fresh conn w :
  fs w !! conn_file conn = Some (SqliteFile empty_database) ->
  exists w',
    create_database_schema conn w = (Ok tt, w') /\
    fs w' = <[conn_file conn := SqliteFile created_db]> (fs w).
Proof.
  intros Hdb.
  destruct (create_database_schema_on_cleared conn w empty_database Hdb)
    as (w' & Hrun & Hfs & _).
  - apply tables_dropped. intros name t Ht. simpl in Ht.
    rewrite lookup_empty in Ht. discriminate.
  - reflexivity.
  - eauto.
Qed.

Lemma filter_missing_nil (files : gmap string File) (l : list string) :
  Forall (fun f => is_Some (files !! f)) l ->
  List.filter (fun f => negb (bool_decide (is_Some (files !! f)))) l = [].
Proof.
  induction 1 as [|f l Hf _ IH]; [reflexivity|].
  simpl. rewrite bool_decide_eq_true_2 by exact Hf. exact IH.
Qed.

Lemma console_print s0 line l w :
  console s0 line w -> l <> line ->
  console s0 line (mkWorld (py_random w) (faker_random w) (fs w) (stdout w ++ [l])).
Proof.
  intros (lines & Hs & Hn) Hne. exists (lines ++ [l]). cbn [stdout].
  rewrite Hs, app_assoc. split; [reflexivity|].
  rewrite elem_of_app, list_elem_of_singleton. intros [H|H]; [auto|congruence].
Qed.

Lemma triple_pure_console {A} (phi : Prop) (P C : World -> Prop) (m : M A) Q E :
  (phi -> triple (fun w => P w /\ C w) m Q E) ->
  triple (fun w => (phi /\ P w) /\ C w) m Q E.
Proof. intros H w [[Hphi HP] HC]. apply H; auto. Qed.

Section MainRuns.
Context (L : Lib).

(** X14. With the five CSV files in place [main] never fails and never
    ends with warnings, whatever the files hold. It leaves the CSV files as
    they were and a database with the loader's five tables in which no
    foreign key is left without its parent row: a file that would break
    one is refused by the store, and its load is the failed operation the
    console reports. The console shows either the line of success or the
    line of the failed operation, and never
    ["DATABASE LOADING COMPLETED WITH WARNINGS!"]. *)
Theorem main_never_warns w :
  Forall (fun f => is_Some (fs w !! f)) (map fst csv_files) ->
  exists w' db lines,
    main L w = (Ok tt, w') /\
    fs w' = <[DB_FILE := SqliteFile db]> (fs w) /\
    has_schema db /\ no_orphans db /\
    stdout w' = stdout w ++ lines /\
    (WARNINGS_LINE ∉ lines) /\
    ("DATABASE LOADING COMPLETED SUCCESSFULLY!" ∈ lines \/
     exists msg, ("[ERROR] Database operation failed: " +:+ msg) ∈ lines).
Proof.
  intros Hall. unfold main.
  erewrite bind_eq by reflexivity. erewrite bind_eq by reflexivity.
  cbn [fs]. rewrite (filter_missing_nil _ _ Hall).
  set (I := store_grows DB_FILE (fs w) created_db).
  set (C := console (stdout w) WARNINGS_LINE).
  set (S := fun v : World => exists lines, stdout v = stdout w ++ lines /\
              "DATABASE LOADING COMPLETED SUCCESSFULLY!" ∈ lines).
  match goal with |- context [try_except ?b ?h ?v0] =>
    set (w1 := v0);
    assert (Hbody : triple (fun v => fs v = fs w /\ C v) b
              (fun _ v => (I v /\ C v) /\ S v) (fun _ v => I v /\ C v));
    [|specialize (Hbody w1)] end.
  { eapply triple_bind
      with (R := fun b v => (b = bool_decide (is_Some (fs w !! DB_FILE)) /\ fs v = fs w) /\ C v).
    { apply triple_console; [apply np_silent; reflexivity|].
      intros v Hv. simpl. rewrite Hv. auto. }
    intros present.
    eapply triple_bind with (R := fun _ v => fs v = delete DB_FILE (fs w) /\ C v).
    { apply triple_console.
      - destruct present; [|apply np_ret].
        apply np_bind; [apply np_print; discriminate|intros ?].
        apply np_bind; [apply np_print; discriminate|intros ?].
        apply np_silent. intros v. unfold remove_file. destruct (fs v !! DB_FILE); reflexivity.
      - intros v [Hp Hv]. destruct present.
        + symmetry in Hp. apply bool_decide_eq_true in Hp as [f Hf].
          unfold bind, print, remove_file. cbn [fs]. rewrite Hv, Hf. cbn [fs]. reflexivity.
        + symmetry in Hp. apply bool_decide_eq_false in Hp.
          simpl. rewrite Hv. symmetry. apply delete_id.
          apply eq_None_not_Some. exact Hp. }
    intros ?.
    eapply triple_bind
      with (R := fun conn v => (conn = mkConnection DB_FILE false /\
                                fs v = <[DB_FILE := SqliteFile empty_database]> (fs w)) /\ C v).
    { apply triple_console.
      - apply np_silent. intros v. unfold connect. destruct (fs v !! DB_FILE); reflexivity.
      - intros v Hv. unfold connect. rewrite Hv, lookup_delete_eq. cbn [fs].
        split; [reflexivity|]. apply insert_delete_eq. }
    intros conn. apply triple_pure_console. intros ->.
    set (F := fun f : gmap string File => f = <[DB_FILE := SqliteFile empty_database]> (fs w)).
    eapply triple_bind with (R := fun _ v => F (fs v) /\ C v).
    { apply triple_console; [apply np_print; discriminate|apply (triple_print_fs F)]. }
    intros ?.
    eapply triple_bind with (R := fun _ v => F (fs v) /\ C v).
    { apply triple_console; [apply np_print; discriminate|apply (triple_print_fs F)]. }
    intros ?. cbn zeta.
    eapply triple_bind with (R := fun _ v => F (fs v) /\ C v).
    { apply triple_console; [apply np_print; discriminate|apply (triple_print_fs F)]. }
    intros ?.
    eapply triple_bind with (R := fun _ v => I v /\ C v).
    { apply triple_console; [apply np_create_database_schema|].
      apply triple_run. intros v Hv. unfold F in Hv.
      destruct (create_database_schema_fresh
                  (enable_foreign_keys (mkConnection DB_FILE false)) v) as (v' & Hrun & Hfs).
      { rewrite Hv. apply lookup_insert_eq. }
      exists tt, v'. split; [exact Hrun|]. exists created_db.
      split; [rewrite Hfs, Hv; apply insert_insert_eq|].
      split; [apply created_db_consistent|apply extends_refl]. }
    intros ?.
    eapply triple_bind with (R := fun _ v => I v /\ C v).
    { apply triple_for_each. intros csv Hin. unfold load_order in Hin.
      repeat (apply elem_of_cons in Hin as [->|Hin];
              [apply triple_console;
               [apply np_load_csv_to_table
               |apply (load_csv_to_table_grows L
                         (enable_foreign_keys (mkConnection DB_FILE false))); reflexivity]|]).
      inversion Hin. }
    intros ?.
    eapply triple_bind with (R := fun _ v => I v /\ C v).
    { apply triple_console; [apply np_create_indexes|].
      apply triple_run. intros v (db & Hv & Hc & He).
      destruct (create_indexes_run (enable_foreign_keys (mkConnection DB_FILE false)) v)
        as (v' & Hrun & _ & Hdb).
      destruct (Hdb db) as (new & Hfs & _); [rewrite Hv; apply lookup_insert_eq|].
      exists tt, v'. split; [exact Hrun|]. eexists.
      split; [rewrite Hfs, Hv; apply insert_insert_eq|].
      split; [eapply consistent_same_tables; [|exact Hc]; reflexivity
             |eapply extends_same_tables; [|exact He]; reflexivity]. }
    intros ?.
    eapply triple_bind with (R := fun _ v => I v /\ C v).
    { apply triple_console; [apply np_print_table_counts|].
      apply triple_run. intros v (db & Hv & Hc & He).
      destruct (print_table_counts_run (enable_foreign_keys (mkConnection DB_FILE false)) v)
        as (v' & Hrun & Hfs).
      exists tt, v'. split; [exact Hrun|]. exists db. rewrite Hfs. auto. }
    intros ?.
    eapply triple_bind with (R := fun b v => (b = true /\ I v) /\ C v).
    { apply triple_console; [apply np_verify_referential_integrity|].
      apply triple_run. intros v (db & Hv & Hc & He).
      destruct (verify_no_orphans_run (enable_foreign_keys (mkConnection DB_FILE false)) v db)
        as (v' & Hrun & Hfs).
      { rewrite Hv. apply lookup_insert_eq. }
      { apply consistent_no_orphans; [|exact Hc].
        eapply has_schema_extends; [apply created_db_has_schema|exact He]. }
      exists true, v'. split; [exact Hrun|]. split; [reflexivity|].
      exists db. rewrite Hfs. auto. }
    intros integrity_ok. apply triple_pure_console. intros ->.
    eapply triple_bind with (R := fun _ v => I v /\ C v).
    { intros v [Hi Hc]. split; [exact Hi|]. apply console_print; [exact Hc|discriminate]. }
    intros ?.
    eapply triple_bind with (R := fun _ v => (I v /\ C v) /\ S v).
    { intros v [Hi Hc]. split; [split; [exact Hi|]|].
      - apply console_print; [exact Hc|discriminate].
      - destruct Hc as (lines & Hs & _). eexists. cbn [stdout]. rewrite Hs, <- app_assoc.
        split; [reflexivity|]. apply elem_of_app. right. left. }
    intros ?.
    eapply triple_bind with (R := fun _ v => (I v /\ C v) /\ S v).
    { intros v [[Hi Hc] (lines & Hs & Hin)]. split; [split; [exact Hi|]|].
      - apply console_print; [exact Hc|discriminate].
      - eexists. cbn [stdout]. rewrite Hs, <- app_assoc.
        split; [reflexivity|]. apply elem_of_app. left. exact Hin. }
    intros ?.
    intros v [[Hi Hc] (lines & Hs & Hin)]. split; [split; [exact Hi|]|].
    - apply console_print; [exact Hc|discriminate].
    - eexists. cbn [stdout]. rewrite Hs, <- app_assoc.
      split; [reflexivity|]. apply elem_of_app. left. exact Hin. }
  assert (Hpre : fs w1 = fs w /\ C w1).
  { split; [reflexivity|]. exists ["E-COMMERCE DATABASE LOADING SCRIPT"].
    split; [reflexivity|]. intros Hin. apply list_elem_of_singleton in Hin. discriminate. }
  specialize (Hbody Hpre). unfold try_except.
  match goal with |- context [match ?b w1 with _ => _ end] =>
    destruct (b w1) as [[[]|e] w2] end.
  - destruct Hbody as [[(db & Hfs & Hc & He) (lines & Hs & Hn)] (lines' & Hs' & Hin)].
    assert (lines' = lines) as -> by (rewrite Hs in Hs'; apply app_inv_head in Hs'; auto).
    exists w2, db, lines. split; [reflexivity|]. split; [exact Hfs|].
    assert (Hsch : has_schema db)
      by (eapply has_schema_extends; [apply created_db_has_schema|exact He]).
    split; [exact Hsch|]. split; [apply consistent_no_orphans; assumption|].
    split; [exact Hs|]. split; [exact Hn|]. left. exact Hin.
  - destruct Hbody as [(db & Hfs & Hc & He) (lines & Hs & Hn)].
    eexists _, db, (lines ++ [""; "[ERROR] Database operation failed: " +:+ exception_text e]).
    split; [reflexivity|]. cbn [fs stdout]. split; [exact Hfs|].
    assert (Hsch : has_schema db)
      by (eapply has_schema_extends; [apply created_db_has_schema|exact He]).
    split; [exact Hsch|]. split; [apply consistent_no_orphans; assumption|].
    split; [rewrite Hs, <- !app_assoc; reflexivity|]. split.
    + rewrite elem_of_app. intros [Hin|Hin]; [auto|].
      apply elem_of_cons in Hin as [Hin|Hin]; [discriminate|].
      apply list_elem_of_singleton in Hin. discriminate.
    + right. exists (exception_text e). apply elem_of_app. right. right. left.
Qed.

End MainRuns.

Section LoadOutcomes.
Context (L : Lib).


(** X11. With foreign keys enforced on the connection, a load keeps the
    store sound, whether it succeeds or fails: if every stored row met the
    NOT NULL and foreign-key constraints of its table before, every stored
    row does after; no table is lost and none loses a row or changes its
    schema; and no file but the database is written. *)
Theorem load_keeps_constraints conn csv table pk w db :
  conn_foreign_keys conn = true ->
  fs w !! conn_file conn = Some (SqliteFile db) ->
  consistent db ->
  exists db',
    fs (snd (load_csv_to_table L conn csv table pk w))
      = <[conn_file conn := SqliteFile db']> (fs w) /\
    consistent db' /\ extends db db'.
Proof.
  intros Hfk Hdb Hc.
  pose proof (load_csv_to_table_grows L conn csv table pk (fs w) db Hfk w) as H.
  assert (Hpre : store_grows (conn_file conn) (fs w) db w).
  { exists db. split; [symmetry; apply insert_id; exact Hdb|].
    split; [exact Hc|apply extends_refl]. }
  specialize (H Hpre).
  destruct (load_csv_to_table L conn csv table pk w) as [[u|e] w']; exact H.
Qed.

End LoadOutcomes.

(* ===================================================================== *)
(** * Further properties of load_to_database.py: whole loads              *)
(* ===================================================================== *)





Section FittingLoads.
Context (L : Lib).


End FittingLoads.












Section FittingFiles.
Context (L : Lib).


End FittingFiles.

Lemma fd_ret {A} (a : A) : fs_driven (ret a).
Proof. intros w w' H. auto. Qed.

Lemma fd_raise {A} e : fs_driven (@raise A e).
Proof. intros w w' H. auto. Qed.

Lemma fd_print line : fs_driven (print line).
Proof. intros w w' H. auto. Qed.

Lemma fd_lift {A} (r : Result A) : fs_driven (lift r).
Proof. intros w w' H. auto. Qed.

Lemma fd_bind {A B} (m : M A) (k : A -> M B) :
  fs_driven m -> (forall a, fs_driven (k a)) -> fs_driven (bind m k).
Proof.
  intros Hm Hk w w' H. unfold bind. destruct (Hm w w' H) as [H1 H2].
  destruct (m w) as [[a|e] v], (m w') as [[a'|e'] v']; simpl in *; try discriminate.
  - inversion H1; subst a'. apply Hk. exact H2.
  - inversion H1; subst e'. auto.
Qed.

Lemma fd_try_except {A} (m : M A) h :
  fs_driven m -> (forall e, fs_driven (h e)) -> fs_driven (try_except m h).
Proof.
  intros Hm Hh w w' H. unfold try_except. destruct (Hm w w' H) as [H1 H2].
  destruct (m w) as [[a|e] v], (m w') as [[a'|e'] v']; simpl in *; try discriminate.
  - auto.
  - inversion H1; subst e'. apply Hh. exact H2.
Qed.

Lemma fd_path_exists path : fs_driven (path_exists path).
Proof. intros w w' H. unfold path_exists. simpl. rewrite H. auto. Qed.

Lemma fd_remove_file path : fs_driven (remove_file path).
Proof.
  intros w w' H. unfold remove_file. rewrite H.
  destruct (fs w' !! path); simpl; rewrite ?H; auto.
Qed.

Lemma fd_for_each {A} (items : list A) (body : A -> M unit) :
  (forall x, fs_driven (body x)) -> fs_driven (for_each items body).
Proof.
  intros Hbody. induction items as [|x items IH]; [apply fd_ret|].
  simpl. apply fd_bind; [apply Hbody|intros _; exact IH].
Qed.

Section LoaderFiles.
Context (L : Lib).

Lemma fd_execute {A} conn (stmt : Database -> Result (A * Database)) :
  fs_driven (execute conn stmt).
Proof.
  intros w w' H. unfold execute. rewrite H.
  destruct (fs w' !! conn_file conn) as [[bytes|db]|]; simpl; auto.
  destruct (stmt db) as [[a db']|e]; simpl; rewrite ?H; auto.
Qed.

Lemma fd_connect path : fs_driven (connect path).
Proof.
  intros w w' H. unfold connect. rewrite H.
  destruct (fs w' !! path); simpl; rewrite ?H; auto.
Qed.

Lemma fd_read_csv path : fs_driven (read_csv L path).
Proof.
  intros w w' H. unfold read_csv. rewrite H.
  destruct (fs w' !! path) as [[bytes|db]|]; simpl; auto.
Qed.

Lemma fd_load_csv_to_table conn csv table pk :
  fs_driven (load_csv_to_table L conn csv table pk).
Proof.
  unfold load_csv_to_table. apply fd_try_except.
  - apply fd_bind; [apply fd_print|intros _].
    apply fd_bind; [apply fd_print|intros _].
    apply fd_bind; [apply fd_path_exists|intros present].
    apply fd_bind; [destruct present; [apply fd_ret|apply fd_raise]|intros _].
    apply fd_bind; [apply fd_read_csv|intros df0].
    apply fd_bind; [destruct (String.eqb table "orders"); [apply fd_lift|apply fd_ret]
                   |intros df1].
    apply fd_bind; [apply fd_lift|intros df].
    apply fd_bind; [destruct (0 <? _); [apply fd_print|apply fd_ret]|intros _].
    apply fd_bind; [apply fd_execute|intros _].
    apply fd_print.
  - intros e. apply fd_bind; [apply fd_print|intros _]. apply fd_raise.
Qed.

Lemma fd_create_database_schema conn : fs_driven (create_database_schema conn).
Proof.
  unfold create_database_schema.
  repeat (apply fd_bind; [first [apply fd_print|apply fd_execute]|intros _]).
  apply fd_print.
Qed.

Lemma fd_create_indexes conn : fs_driven (create_indexes conn).
Proof.
  unfold create_indexes.
  apply fd_bind; [apply fd_print|intros _].
  apply fd_bind; [apply fd_print|intros _].
  apply fd_for_each. intros [[index_name table_name] column_name].
  apply fd_try_except.
  - apply fd_bind; [apply fd_execute|intros _]. apply fd_print.
  - intros e. apply fd_print.
Qed.

Lemma fd_print_table_counts conn : fs_driven (print_table_counts conn).
Proof.
  unfold print_table_counts.
  apply fd_bind; [apply fd_print|intros _].
  apply fd_bind; [apply fd_print|intros _].
  apply fd_for_each. intros table. apply fd_try_except.
  - apply fd_bind; [apply fd_execute|intros count]. apply fd_print.
  - intros e. apply fd_print.
Qed.

Lemma fd_report_checks checks all_passed : fs_driven (report_checks checks all_passed).
Proof.
  revert all_passed.
  induction checks as [|[[check_name passed] orphan_count] checks IH]; intros all_passed.
  - apply fd_ret.
  - simpl. apply fd_bind; [apply fd_print|intros _; apply IH].
Qed.

Lemma fd_verify_referential_integrity conn :
  fs_driven (verify_referential_integrity conn).
Proof.
  unfold verify_referential_integrity.
  apply fd_bind; [apply fd_print|intros _].
  apply fd_bind; [apply fd_print|intros _].
  apply fd_bind; [apply fd_execute|intros n1].
  apply fd_bind; [apply fd_execute|intros n2].
  apply fd_bind; [apply fd_execute|intros n3].
  apply fd_bind; [apply fd_execute|intros n4].
  apply fd_bind; [apply fd_report_checks|intros all_passed].
  apply fd_bind; [destruct all_passed; apply fd_print|intros _; apply fd_ret].
Qed.

End LoaderFiles.

Lemma ow_same {A} path (m : M A) :
  (forall w, fs (snd (m w)) = fs w) -> only_writes path m.
Proof. intros H w. rewrite H. reflexivity. Qed.

Lemma ow_bind {A B} path (m : M A) (k : A -> M B) :
  only_writes path m -> (forall a, only_writes path (k a)) -> only_writes path (bind m k).
Proof.
  intros Hm Hk w. unfold bind. specialize (Hm w).
  destruct (m w) as [[a|e] v]; simpl in *; [rewrite Hk|]; exact Hm.
Qed.

Lemma ow_bind_result {A B} path (m : M A) (k : A -> M B) (known : A -> Prop) :
  only_writes path m ->
  (forall w a v, m w = (Ok a, v) -> known a) ->
  (forall a, known a -> only_writes path (k a)) ->
  only_writes path (bind m k).
Proof.
  intros Hm Hres Hk w. unfold bind. specialize (Hm w). specialize (Hres w).
  destruct (m w) as [[a|e] v]; simpl in *; [rewrite Hk; eauto|exact Hm].
Qed.

Lemma ow_try_except {A} path (m : M A) h :
  only_writes path m -> (forall e, only_writes path (h e)) ->
  only_writes path (try_except m h).
Proof.
  intros Hm Hh w. unfold try_except. specialize (Hm w).
  destruct (m w) as [[a|e] v]; simpl in *; [|rewrite Hh]; exact Hm.
Qed.

Lemma ow_for_each {A} path (items : list A) (body : A -> M unit) :
  (forall x, only_writes path (body x)) -> only_writes path (for_each items body).
Proof.
  intros Hbody. induction items as [|x items IH]; [apply ow_same; reflexivity|].
  simpl. apply ow_bind; [apply Hbody|intros _; exact IH].
Qed.

Lemma ow_print path line : only_writes path (print line).
Proof. apply ow_same. reflexivity. Qed.

Lemma ow_execute {A} conn (stmt : Database -> Result (A * Database)) :
  only_writes (conn_file conn) (execute conn stmt).
Proof.
  intros w. unfold execute.
  destruct (fs w !! conn_file conn) as [[bytes|db]|]; try reflexivity.
  destruct (stmt db) as [[a db']|e]; [|reflexivity].
  simpl. apply delete_insert_eq.
Qed.

Section LoaderWrites.
Context (L : Lib).

Lemma ow_load_csv_to_table conn csv table pk :
  only_writes (conn_file conn) (load_csv_to_table L conn csv table pk).
Proof.
  unfold load_csv_to_table. apply ow_try_except.
  - apply ow_bind; [apply ow_print|intros _].
    apply ow_bind; [apply ow_print|intros _].
    apply ow_bind; [apply ow_same; reflexivity|intros present].
    apply ow_bind; [destruct present; apply ow_same; reflexivity|intros _].
    apply ow_bind; [|intros df0].
    { apply ow_same. intros w. unfold read_csv.
      destruct (fs w !! csv) as [[bytes|db]|]; reflexivity. }
    apply ow_bind; [destruct (String.eqb table "orders"); apply ow_same; reflexivity
                   |intros df1].
    apply ow_bind; [apply ow_same; reflexivity|intros df].
    apply ow_bind; [destruct (0 <? _); apply ow_same; reflexivity|intros _].
    apply ow_bind; [apply ow_execute|intros _].
    apply ow_print.
  - intros e. apply ow_bind; [apply ow_print|intros _]. apply ow_same. reflexivity.
Qed.

Lemma ow_create_database_schema conn :
  only_writes (conn_file conn) (create_database_schema conn).
Proof.
  unfold create_database_schema.
  repeat (apply ow_bind; [first [apply ow_print|apply ow_execute]|intros _]).
  apply ow_print.
Qed.

Lemma ow_create_indexes conn : only_writes (conn_file conn) (create_indexes conn).
Proof.
  unfold create_indexes.
  apply ow_bind; [apply ow_print|intros _].
  apply ow_bind; [apply ow_print|intros _].
  apply ow_for_each. intros [[index_name table_name] column_name].
  apply ow_try_except.
  - apply ow_bind; [apply ow_execute|intros _]. apply ow_print.
  - intros e. apply ow_print.
Qed.

Lemma ow_main : only_writes DB_FILE (main L).
Proof.
  unfold main. apply ow_bind; [apply ow_print|intros _].
  apply ow_bind; [apply ow_same; reflexivity|intros missing].
  destruct missing as [|f missing].
  - apply ow_try_except.
    + apply ow_bind; [apply ow_same; reflexivity|intros present].
      apply ow_bind; [|intros _].
      { destruct present; [|apply ow_same; reflexivity].
        apply ow_bind; [apply ow_print|intros _].
        apply ow_bind; [apply ow_print|intros _].
        intros w. unfold remove_file. destruct (fs w !! DB_FILE); [|reflexivity].
        simpl. apply delete_delete_eq. }
      apply (ow_bind_result _ _ _ (fun conn => conn = mkConnection DB_FILE false)).
      { intros w. unfold connect. destruct (fs w !! DB_FILE); [reflexivity|].
        simpl. apply delete_insert_eq. }
      { intros w conn v. unfold connect. destruct (fs w !! DB_FILE); intros H;
          inversion H; reflexivity. }
      intros conn ->.
      apply ow_bind; [apply ow_print|intros _].
      apply ow_bind; [apply ow_print|intros _]. cbn zeta.
      apply ow_bind; [apply ow_print|intros _].
      apply ow_bind;
        [apply (ow_create_database_schema (enable_foreign_keys (mkConnection DB_FILE false)))
        |intros _].
      apply ow_bind; [|intros _].
      { apply ow_for_each. intros csv.
        destruct (list_to_map csv_files !! csv) as [[table pk]|];
          [|apply ow_same; reflexivity].
        apply (ow_load_csv_to_table (enable_foreign_keys (mkConnection DB_FILE false))). }
      apply ow_bind;
        [apply (ow_create_indexes (enable_foreign_keys (mkConnection DB_FILE false)))
        |intros _].
      apply ow_bind; [|intros _].
      { apply ow_same. intros w.
        destruct (print_table_counts_run
                    (enable_foreign_keys (mkConnection DB_FILE false)) w)
          as (w' & -> & Hfs). exact Hfs. }
      apply ow_bind; [|intros integrity_ok].
      { apply ow_same. intros w.
        pose proof (verify_referential_integrity_keeps_files
                      (enable_foreign_keys (mkConnection DB_FILE false)) w w eq_refl) as H.
        destruct (verify_referential_integrity _ w) as [[b|e] w']; simpl; tauto. }
      apply ow_bind; [apply ow_print|intros _].
      apply ow_bind; [destruct integrity_ok; apply ow_print|intros _].
      apply ow_bind; [apply ow_print|intros _]. apply ow_print.
    + intros e. apply ow_bind; [apply ow_print|intros _]. apply ow_print.
  - apply ow_bind; [apply ow_print|intros _].
    apply ow_bind; [apply ow_print|intros _]. apply ow_print.
Qed.

Lemma present_elsewhere (files files' : gmap string File) :
  delete DB_FILE files = delete DB_FILE files' ->
  Forall (fun f => is_Some (files !! f)) (map fst csv_files) ->
  Forall (fun f => is_Some (files' !! f)) (map fst csv_files).
Proof.
  intros Hdel. unfold csv_files. cbn [map fst]. intros H.
  repeat (apply Forall_cons in H as [?H H]).
  repeat (apply Forall_cons_2 || apply Forall_nil_2);
    match goal with
    | Hf : is_Some (files !! ?f) |- is_Some (files' !! ?f) =>
        rewrite <- (lookup_delete_ne files' DB_FILE f) by discriminate;
        rewrite <- Hdel; rewrite lookup_delete_ne by discriminate; exact Hf
    end.
Qed.

(** Once the old database is out of the way, the rest of the run has the
    files without it to go by. *)
Lemma prelude_forgets {B} (removing1 removing2 : string) (rest : unit -> M B) v1 v2 :
  fs_driven (rest tt) ->
  delete DB_FILE (fs v1) = delete DB_FILE (fs v2) ->
  let body :=
    bind (path_exists DB_FILE) (fun db_present =>
      bind (if db_present
            then bind (print removing1) (fun _ =>
                   bind (print removing2) (fun _ => remove_file DB_FILE))
            else ret tt) rest) in
  fst (body v1) = fst (body v2) /\ fs (snd (body v1)) = fs (snd (body v2)).
Proof.
  intros Hrest Hdel body.
  assert (Hpre : forall v, exists v', body v = rest tt v' /\ fs v' = delete DB_FILE (fs v)).
  { intros v. unfold body. erewrite bind_eq by reflexivity.
    destruct (fs v !! DB_FILE) eqn:E.
    - rewrite bool_decide_eq_true_2 by eauto.
      erewrite bind_eq.
      2:{ unfold bind, print, remove_file. cbn [fs]. rewrite E. reflexivity. }
      eexists. split; reflexivity.
    - rewrite bool_decide_eq_false_2 by (intros [? ?]; discriminate).
      erewrite bind_eq by reflexivity.
      eexists. split; [reflexivity|]. symmetry. apply delete_id. exact E. }
  destruct (Hpre v1) as (v1' & -> & F1). destruct (Hpre v2) as (v2' & -> & F2).
  apply Hrest. congruence.
Qed.

Lemma try_except_same_files {A} (m : M A) h v1 v2 :
  (forall e, fs_driven (h e)) ->
  fst (m v1) = fst (m v2) /\ fs (snd (m v1)) = fs (snd (m v2)) ->
  fs (snd (try_except m h v1)) = fs (snd (try_except m h v2)).
Proof.
  intros Hh [H1 H2]. unfold try_except.
  destruct (m v1) as [[a|e] u1], (m v2) as [[a'|e'] u2]; simpl in *; try discriminate.
  - exact H2.
  - inversion H1; subst e'. apply Hh. exact H2.
Qed.

Lemma main_files_from_files w1 w2 :
  Forall (fun f => is_Some (fs w1 !! f)) (map fst csv_files) ->
  delete DB_FILE (fs w1) = delete DB_FILE (fs w2) ->
  fs (snd (main L w1)) = fs (snd (main L w2)).
Proof.
  intros Hp1 Hdel. pose proof (present_elsewhere _ _ Hdel Hp1) as Hp2.
  unfold main.
  do 2 (erewrite bind_eq by reflexivity). do 2 (erewrite bind_eq by reflexivity).
  cbn [fs]. rewrite (filter_missing_nil _ _ Hp1), (filter_missing_nil _ _ Hp2).
  apply try_except_same_files.
  - intros e. apply fd_bind; [apply fd_print|intros _]. apply fd_print.
  - apply prelude_forgets; [|exact Hdel].
    apply fd_bind; [apply fd_connect|intros conn].
    apply fd_bind; [apply fd_print|intros _].
    apply fd_bind; [apply fd_print|intros _]. cbn zeta.
    apply fd_bind; [apply fd_print|intros _].
    apply fd_bind; [apply fd_create_database_schema|intros _].
    apply fd_bind; [|intros _].
    { apply fd_for_each. intros csv.
      destruct (list_to_map csv_files !! csv) as [[table pk]|];
        [apply fd_load_csv_to_table|apply fd_raise]. }
    apply fd_bind; [apply fd_create_indexes|intros _].
    apply fd_bind; [apply fd_print_table_counts|intros _].
    apply fd_bind; [apply fd_verify_referential_integrity|intros integrity_ok].
    apply fd_bind; [apply fd_print|intros _].
    apply fd_bind; [destruct integrity_ok; apply fd_print|intros _].
    apply fd_bind; [apply fd_print|intros _]. apply fd_print.
Qed.

(** X16. With the five CSV files present, what [main] leaves on disk
    depends on the files other than the database only: an old database,
    whatever it holds, has no part in the new one, and neither have the
    console or the random sources. [main] writes no file but the database,
    so a second run leaves every file as the first run left it. *)
Theorem main_ignores_old_database w1 w2 :
  Forall (fun f => is_Some (fs w1 !! f)) (map fst csv_files) ->
  delete DB_FILE (fs w1) = delete DB_FILE (fs w2) ->
  fs (snd (main L w1)) = fs (snd (main L w2)) /\
  delete DB_FILE (fs (snd (main L w1))) = delete DB_FILE (fs w1) /\
  fs (snd (main L (snd (main L w1)))) = fs (snd (main L w1)).
Proof.
  intros Hp Hdel. split; [apply main_files_from_files; assumption|].
  split; [apply ow_main|].
  apply main_files_from_files.
  - eapply present_elsewhere; [|exact Hp]. symmetry. apply ow_main.
  - apply ow_main.
Qed.

End LoaderWrites.

(* ===================================================================== *)
(** * Properties of verify_integrity.py and test_fk_constraints.py        *)
(* ===================================================================== *)

Lemma read_csv_parses L w path df :
  parses_to L w path df -> read_csv L path w = (Ok df, w).
Proof. intros (bytes & Hf & Hp). unfold read_csv. rewrite Hf, Hp. reflexivity. Qed.

Lemma column_known df col cells w :
  column_values df col = Some cells -> column df col w = (Ok cells, w).
Proof. intros H. unfold column. rewrite H. reflexivity. Qed.

Section VerifyIntegrityFacts.
Context (L : Lib).

(** X17. [verify_integrity.py] reports but never judges. When the five
    files parse and have the key columns, it prints a line for each of its
    four checks, [True] or [False] as the keys of the child column are or
    are not all keys of the parent column, and then, whatever the checks
    gave, ["[OK] All checks passed!"]; it never fails and writes no file.
    When [customers.csv] is missing it stops with [FileNotFoundError]
    before it prints anything. *)
Theorem verify_integrity_always_ok w :
  (forall customers products orders order_items shipments oc cc ip pp io oo so,
     parses_to L w "customers.csv" customers ->
     parses_to L w "products.csv" products ->
     parses_to L w "orders.csv" orders ->
     parses_to L w "order_items.csv" order_items ->
     parses_to L w "shipments.csv" shipments ->
     column_values orders "customer_id" = Some oc ->
     column_values customers "customer_id" = Some cc ->
     column_values order_items "product_id" = Some ip ->
     column_values products "product_id" = Some pp ->
     column_values order_items "order_id" = Some io ->
     column_values orders "order_id" = Some oo ->
     column_values shipments "order_id" = Some so ->
     exists w',
       verify_integrity L w = (Ok tt, w') /\
       fs w' = fs w /\
       stdout w' = stdout w ++
         [ "Referential Integrity Check:";
           "All order customer_ids in customers: " +:+ str_of_bool (issubset oc cc);
           "All order_item product_ids in products: " +:+ str_of_bool (issubset ip pp);
           "All order_item order_ids in orders: " +:+ str_of_bool (issubset io oo);
           "All shipment order_ids in orders: " +:+ str_of_bool (issubset so oo);
           ""; "[OK] All checks passed!" ]) /\
  (fs w !! "customers.csv" = None ->
   verify_integrity L w = (Raise (FileNotFoundError "customers.csv"), w)).
Proof.
  split.
  - intros customers products orders order_items shipments oc cc ip pp io oo so
      Pc Pp Po Pi Ps Hoc Hcc Hip Hpp Hio Hoo Hso.
    unfold verify_integrity.
    rewrite (bind_eq _ _ _ _ _ (read_csv_parses L w _ _ Pc)).
    rewrite (bind_eq _ _ _ _ _ (read_csv_parses L w _ _ Pp)).
    rewrite (bind_eq _ _ _ _ _ (read_csv_parses L w _ _ Po)).
    rewrite (bind_eq _ _ _ _ _ (read_csv_parses L w _ _ Pi)).
    rewrite (bind_eq _ _ _ _ _ (read_csv_parses L w _ _ Ps)).
    erewrite bind_eq by reflexivity.
    erewrite bind_eq by (apply column_known; exact Hoc).
    erewrite bind_eq by (apply column_known; exact Hcc).
    erewrite bind_eq by reflexivity.
    erewrite bind_eq by (apply column_known; exact Hip).
    erewrite bind_eq by (apply column_known; exact Hpp).
    erewrite bind_eq by reflexivity.
    erewrite bind_eq by (apply column_known; exact Hio).
    erewrite bind_eq by (apply column_known; exact Hoo).
    erewrite bind_eq by reflexivity.
    erewrite bind_eq by (apply column_known; exact Hso).
    erewrite bind_eq by (apply column_known; exact Hoo).
    erewrite bind_eq by reflexivity.
    erewrite bind_eq by reflexivity.
    eexists. split; [reflexivity|]. split; [reflexivity|].
    cbn [stdout]. rewrite <- !app_assoc. reflexivity.
  - intros Hnone. unfold verify_integrity, bind, read_csv. rewrite Hnone. reflexivity.
Qed.

End VerifyIntegrityFacts.

Lemma key_absent_not_in k rows :
  key_absent k rows -> VInt k ∉ map (fun r => cell r 0) rows.
Proof.
  intros Habs Hin. apply list_elem_of_fmap in Hin as (r & Hk & Hr).
  unfold key_absent in Habs. rewrite Forall_forall in Habs. specialize (Habs r Hr).
  unfold row_key in Habs. rewrite <- Hk in Habs. simpl in Habs.
  rewrite bool_decide_eq_true_2 in Habs by reflexivity. discriminate.
Qed.

Lemma key_absent_no_match k rows :
  key_absent k rows -> existsb (fun pr => sql_eq (VInt k) (cell pr 0)) rows = false.
Proof.
  intros Habs. destruct (existsb _ rows) eqn:Hex; [|reflexivity].
  apply existsb_elem_of in Hex as (r & Hr & Heq).
  unfold key_absent in Habs. rewrite Forall_forall in Habs. specialize (Habs r Hr).
  unfold row_key in Habs. congruence.
Qed.

(** The four statements of the test against a store of the loader. *)
Lemma stray_order_refused db cs os :
  db_tables db !! "customers" = Some (mkTable customers_schema cs) ->
  db_tables db !! "orders" = Some (mkTable orders_schema os) ->
  key_absent 99999 cs -> key_absent 99999 os ->
  insert_into true "orders" [ "order_id"; "customer_id"; "order_date"; "status" ]
    [ VInt 99999; VInt 99999; VText "2024-01-01"; VText "Pending" ] db
  = Raise (IntegrityError "FOREIGN KEY constraint failed").
Proof.
  intros Hc Ho Ac Ao. unfold insert_into, insert_row. rewrite Ho.
  unfold assign_primary_key, table_columns. cbn [tbl_schema tbl_rows]. simpl.
  rewrite bool_decide_eq_false_2 by (apply key_absent_not_in; exact Ao).
  unfold check_foreign_key. simpl. rewrite Hc. simpl.
  pose proof (key_absent_no_match _ _ Ac) as Hn. simpl in Hn. rewrite Hn. reflexivity.
Qed.

Lemma stray_item_refused db os its product :
  db_tables db !! "orders" = Some (mkTable orders_schema os) ->
  db_tables db !! "order_items" = Some (mkTable order_items_schema its) ->
  key_absent 99999 os -> key_absent 99999 its ->
  insert_into true "order_items"
    [ "order_item_id"; "order_id"; "product_id"; "quantity"; "item_price" ]
    [ VInt 99999; VInt 99999; VInt product; VInt 1; VReal (Q2Qc 10) ] db
  = Raise (IntegrityError "FOREIGN KEY constraint failed").
Proof.
  intros Ho Hi Ao Ai. unfold insert_into, insert_row. rewrite Hi.
  unfold assign_primary_key, table_columns. cbn [tbl_schema tbl_rows]. simpl.
  rewrite bool_decide_eq_false_2 by (apply key_absent_not_in; exact Ai).
  unfold check_foreign_key. simpl. rewrite Ho. simpl.
  pose proof (key_absent_no_match _ _ Ao) as Hn. simpl in Hn. rewrite Hn. reflexivity.
Qed.

Lemma item_of_stray_product_refused db ps os its order :
  db_tables db !! "products" = Some (mkTable products_schema ps) ->
  db_tables db !! "orders" = Some (mkTable orders_schema os) ->
  db_tables db !! "order_items" = Some (mkTable order_items_schema its) ->
  key_absent 99999 ps -> key_absent 99998 its ->
  insert_into true "order_items"
    [ "order_item_id"; "order_id"; "product_id"; "quantity"; "item_price" ]
    [ VInt 99998; VInt order; VInt 99999; VInt 1; VReal (Q2Qc 10) ] db
  = Raise (IntegrityError "FOREIGN KEY constraint failed").
Proof.
  intros Hp Ho Hi Ap Ai. unfold insert_into, insert_row. rewrite Hi.
  unfold assign_primary_key, table_columns. cbn [tbl_schema tbl_rows]. simpl.
  rewrite bool_decide_eq_false_2 by (apply key_absent_not_in; exact Ai).
  unfold check_foreign_key. simpl. rewrite Ho, Hp. simpl.
  pose proof (key_absent_no_match _ _ Ap) as Hn. simpl in Hn. rewrite Hn.
  destruct (existsb _ os); reflexivity.
Qed.

Lemma stray_shipment_refused db os ss :
  db_tables db !! "orders" = Some (mkTable orders_schema os) ->
  db_tables db !! "shipments" = Some (mkTable shipments_schema ss) ->
  key_absent 99999 os -> key_absent 99999 ss ->
  insert_into true "shipments"
    [ "shipment_id"; "order_id"; "shipment_date"; "carrier"; "tracking_number";
      "shipment_cost" ]
    [ VInt 99999; VInt 99999; VText "2024-01-01"; VText "UPS"; VText "TEST123";
      VReal (Q2Qc 10) ] db
  = Raise (IntegrityError "FOREIGN KEY constraint failed").
Proof.
  intros Ho Hs Ao As. unfold insert_into, insert_row. rewrite Hs.
  unfold assign_primary_key, table_columns. cbn [tbl_schema tbl_rows]. simpl.
  rewrite bool_decide_eq_false_2 by (apply key_absent_not_in; exact As).
  unfold check_foreign_key. simpl. rewrite Ho. simpl.
  pose proof (key_absent_no_match _ _ Ao) as Hn. simpl in Hn. rewrite Hn. reflexivity.
Qed.

Lemma refused_test conn (stmt : Database -> Result (unit * Database)) w db
    (failed passed : string) msg :
  fs w !! conn_file conn = Some (SqliteFile db) ->
  stmt db = Raise (IntegrityError msg) ->
  try_except_integrity
    (let! _ := execute conn stmt in print failed)
    (fun e => let! _ := print passed in print ("      Error: " +:+ substring 0 60 e +:+ "..."))
    w
  = (Ok tt, mkWorld (py_random w) (faker_random w) (fs w)
              (stdout w ++ [passed; "      Error: " +:+ substring 0 60 msg +:+ "..."])).
Proof.
  intros Hdb Hs. unfold try_except_integrity.
  rewrite (bind_raise _ _ _ _ _ (execute_raise conn stmt w db _ Hdb Hs)).
  unfold bind, print. cbn [fs stdout py_random faker_random].
  rewrite <- app_assoc. reflexivity.
Qed.

(** X18. [test_fk_constraints.py] on a database of the loader in which
    99999 is the key of no customer, product, order, order item or
    shipment and 99998 the key of no order item: each of its four inserts
    is refused by the foreign-key check, so the script prints its four
    [PASS] lines, each with the error of the store, and leaves the
    database as it found it. Run where there is no database file, it makes
    an empty one and stops at its first insert with the error of the
    store, which it does not catch. *)
Theorem test_fk_constraints_outcome w :
  (forall db cs ps os its ss,
     fs w !! DB_FILE = Some (SqliteFile db) ->
     db_tables db !! "customers" = Some (mkTable customers_schema cs) ->
     db_tables db !! "products" = Some (mkTable products_schema ps) ->
     db_tables db !! "orders" = Some (mkTable orders_schema os) ->
     db_tables db !! "order_items" = Some (mkTable order_items_schema its) ->
     db_tables db !! "shipments" = Some (mkTable shipments_schema ss) ->
     key_absent 99999 cs -> key_absent 99999 ps -> key_absent 99999 os ->
     key_absent 99999 its -> key_absent 99998 its -> key_absent 99999 ss ->
     exists w',
       test_fk_constraints w = (Ok tt, w') /\
       fs w' = fs w /\
       stdout w' = stdout w ++
         [ "Testing Foreign Key Constraints...";
           "[PASS] Foreign key constraint enforced - invalid customer_id was rejected";
           "      Error: FOREIGN KEY constraint failed...";
           "[PASS] Foreign key constraint enforced - invalid order_id was rejected";
           "      Error: FOREIGN KEY constraint failed...";
           "[PASS] Foreign key constraint enforced - invalid product_id was rejected";
           "      Error: FOREIGN KEY constraint failed...";
           "[PASS] Foreign key constraint enforced - invalid order_id was rejected";
           "      Error: FOREIGN KEY constraint failed...";
           ""; "[OK] All foreign key constraint tests completed!" ]) /\
  (fs w !! DB_FILE = None ->
   exists w',
     test_fk_constraints w = (Raise (OperationalError "no such table: orders"), w') /\
     fs w' = <[DB_FILE := SqliteFile empty_database]> (fs w) /\
     stdout w' = stdout w ++ [ "Testing Foreign Key Constraints..." ]).
Proof.
  split.
  - intros db cs ps os its ss Hdb Hc Hp Ho Hi Hs Ac Ap Ao Ai Ai' As.
    unfold test_fk_constraints.
    erewrite bind_eq by (unfold connect; rewrite Hdb; reflexivity).
    cbn zeta. erewrite bind_eq by reflexivity.
    erewrite bind_eq.
    2:{ apply (refused_test _ _ _ db); [exact Hdb|].
        apply (stray_order_refused db cs os); assumption. }
    erewrite bind_eq.
    2:{ apply (refused_test _ _ _ db); [exact Hdb|].
        apply (stray_item_refused db os its); assumption. }
    erewrite bind_eq.
    2:{ apply (refused_test _ _ _ db); [exact Hdb|].
        apply (item_of_stray_product_refused db ps os its); assumption. }
    erewrite bind_eq.
    2:{ apply (refused_test _ _ _ db); [exact Hdb|].
        apply (stray_shipment_refused db os ss); assumption. }
    erewrite bind_eq by reflexivity.
    eexists. split; [reflexivity|]. split; [reflexivity|].
    cbn [stdout]. rewrite <- !app_assoc. reflexivity.
  - intros Hnone. unfold test_fk_constraints.
    erewrite bind_eq by (unfold connect; rewrite Hnone; reflexivity).
    cbn zeta. erewrite bind_eq by reflexivity.
    erewrite bind_raise.
    2:{ unfold try_except_integrity. erewrite bind_raise.
        2:{ eapply execute_raise; [cbn [fs]; apply lookup_insert_eq|].
            unfold insert_into, insert_row, empty_database. cbn [db_tables].
            rewrite lookup_empty. reflexivity. }
        reflexivity. }
    eexists. split; [reflexivity|]. split; reflexivity.
Qed.

(* ===================================================================== *)
(** * The further statements on concrete runs                             *)
(* ===================================================================== *)

Lemma successful_run_report_witness :
  let run := generate_with (demo_lib counting (counting_from 1)) 1 1 1 1 1 42 42 used_world in
  fst run = Ok demo_datasets /\
  map order_id (df_orders demo_datasets) = seqZ 1 1 /\
  fs (snd run) !! "notes.txt" = Some (TextFile "to do") /\
  last (stdout (snd run)) = Some "All datasets generated successfully!".
Proof.
  intros run.
  assert (Hrun : run = (Ok demo_datasets, snd run)) by (vm_compute; reflexivity).
  split; [vm_compute; reflexivity|].
  destruct (successful_run_report (demo_lib counting (counting_from 1)) 1 1 1 1 1 42 42
              used_world demo_datasets (snd run) Hrun)
    as (_ & _ & Ho & _ & _ & Hfs & Hout).
  split; [exact Ho|]. split.
  - rewrite Hfs. vm_compute. reflexivity.
  - rewrite Hout. reflexivity.
Defined.



Lemma create_database_schema_resets_witness :
  let old := mkDatabase (db_tables orphan_db) [ ("idx_orders_status", "orders", "status") ] in
  let w := world_with_files [ (DB_FILE, SqliteFile old) ] in
  exists w',
    create_database_schema demo_conn w = (Ok tt, w') /\
    fs w' !! DB_FILE = Some (SqliteFile created_db).
Proof.
  intros old w.
  destruct (create_database_schema_resets demo_conn w old) as (w' & Hrun & Hfs & _).
  - vm_compute. reflexivity.
  - intros name t Ht. apply elem_of_list_to_map_2 in Ht.
    repeat (apply elem_of_cons in Ht as [Ht|Ht];
            [inversion Ht; subst; cbn [tbl_schema]; unfold SCHEMAS; repeat constructor|]).
    inversion Ht.
  - repeat constructor.
  - exists w'. split; [exact Hrun|]. rewrite Hfs. apply lookup_insert_eq.
Defined.


Lemma load_keeps_constraints_witness :
  let run := load_csv_to_table (demo_lib counting counting) demo_conn
               "customers.csv" "customers" "customer_id" dup_world in
  fst run = Ok tt /\
  exists db',
    fs (snd run) = <[DB_FILE := SqliteFile db']> (fs dup_world) /\
    consistent db' /\ extends created_db db'.
Proof.
  intros run. split; [vm_compute; reflexivity|].
  apply (load_keeps_constraints (demo_lib counting counting) demo_conn
           "customers.csv" "customers" "customer_id" dup_world created_db).
  - reflexivity.
  - vm_compute. reflexivity.
  - apply created_db_consistent.
Defined.

Lemma create_indexes_outcome_witness :
  let w := world_with_files [ (DB_FILE, SqliteFile created_db) ] in
  exists w' db',
    create_indexes demo_conn w = (Ok tt, w') /\
    fs w' = <[DB_FILE := SqliteFile db']> (fs w) /\
    db_tables db' = db_tables created_db /\
    Forall (fun ix => exists ix', ix' ∈ db_indexes db' /\ ix'.1.1 = ix.1.1) INDEXES.
Proof.
  intros w.
  destruct (create_indexes_outcome demo_conn w) as (w' & Hrun & _ & Hdb).
  destruct (Hdb created_db) as (db' & Hfs & Ht & _ & Hix); [vm_compute; reflexivity|].
  exists w', db'. split; [exact Hrun|]. split; [exact Hfs|]. split; [exact Ht|].
  apply Hix. apply created_db_has_schema.
Defined.


Lemma main_never_warns_witness :
  let outcome := fun w =>
    exists w' db lines,
      main shop_lib w = (Ok tt, w') /\
      fs w' = <[DB_FILE := SqliteFile db]> (fs w) /\
      has_schema db /\ no_orphans db /\
      stdout w' = stdout w ++ lines /\
      (WARNINGS_LINE ∉ lines) in
  "DATABASE LOADING COMPLETED SUCCESSFULLY!" ∈ stdout (snd (main shop_lib shop_world)) /\
  outcome shop_world /\
  "[ERROR] Database operation failed: FOREIGN KEY constraint failed"
    ∈ stdout (snd (main shop_lib stray_world)) /\
  outcome stray_world.
Proof.
  intros outcome.
  assert (Hfiles : forall w,
            Forall (fun f => is_Some (fs w !! f)) (map fst csv_files) -> outcome w).
  { intros w Hw.
    destruct (main_never_warns shop_lib w Hw) as (w' & db & lines & H).
    exists w', db, lines. tauto. }
  split; [apply (bool_decide_unpack _); vm_compute; exact I|].
  split.
  { apply Hfiles. unfold csv_files. cbn [map fst].
    repeat (apply Forall_cons_2 || apply Forall_nil_2);
      apply (bool_decide_unpack _); vm_compute; exact I. }
  split; [apply (bool_decide_unpack _); vm_compute; exact I|].
  apply Hfiles. unfold csv_files. cbn [map fst].
  repeat (apply Forall_cons_2 || apply Forall_nil_2);
    apply (bool_decide_unpack _); vm_compute; exact I.
Defined.


Lemma main_ignores_old_database_witness :
  let fresh := world_with_files
    [ ("customers.csv", TextFile "customers"); ("products.csv", TextFile "products");
      ("orders.csv", TextFile "orders"); ("order_items.csv", TextFile "order_items");
      ("shipments.csv", TextFile "shipments") ] in
  fs shop_world !! DB_FILE = Some (SqliteFile orphan_db) /\
  fs fresh !! DB_FILE = None /\
  fs (snd (main shop_lib shop_world)) = fs (snd (main shop_lib fresh)) /\
  fs (snd (main shop_lib (snd (main shop_lib shop_world))))
    = fs (snd (main shop_lib shop_world)).
Proof.
  intros fresh. split; [vm_compute; reflexivity|]. split; [vm_compute; reflexivity|].
  destruct (main_ignores_old_database shop_lib shop_world fresh) as (H1 & _ & H2).
  - unfold csv_files. cbn [map fst].
    repeat (apply Forall_cons_2 || apply Forall_nil_2);
      apply (bool_decide_unpack _); vm_compute; exact I.
  - vm_compute. reflexivity.
  - split; [exact H1|exact H2].
Defined.

Lemma verify_integrity_always_ok_witness :
  (exists w',
     verify_integrity shop_lib stray_world = (Ok tt, w') /\
     fs w' = fs stray_world /\
     stdout w' =
       [ "Referential Integrity Check:";
         "All order customer_ids in customers: False";
         "All order_item product_ids in products: True";
         "All order_item order_ids in orders: True";
         "All shipment order_ids in orders: True";
         ""; "[OK] All checks passed!" ]) /\
  verify_integrity shop_lib (world_with_files [])
  = (Raise (FileNotFoundError "customers.csv"), world_with_files []).
Proof.
  pose (frame := fun name =>
    default (mkDataFrame [] []) (list_to_map (M := gmap string DataFrame) shop_frames !! name)).
  pose (col := fun name c => default [] (column_values (frame name) c)).
  assert (Hparse : forall path name,
            fs stray_world !! path = Some (TextFile name) ->
            read_csv_bytes shop_lib name = Ok (frame name) ->
            parses_to shop_lib stray_world path (frame name)).
  { intros path name H1 H2. exists name. auto. }
  split.
  - destruct (verify_integrity_always_ok shop_lib stray_world) as [H _].
    destruct (H (frame "customers") (frame "products") (frame "stray orders")
                (frame "order_items") (frame "shipments")
                (col "stray orders" "customer_id") (col "customers" "customer_id")
                (col "order_items" "product_id") (col "products" "product_id")
                (col "order_items" "order_id") (col "stray orders" "order_id")
                (col "shipments" "order_id"))
      as (w' & Hrun & Hfs & Hout).
    + apply Hparse; vm_compute; reflexivity.
    + apply Hparse; vm_compute; reflexivity.
    + apply Hparse; vm_compute; reflexivity.
    + apply Hparse; vm_compute; reflexivity.
    + apply Hparse; vm_compute; reflexivity.
    + vm_compute. reflexivity.
    + vm_compute. reflexivity.
    + vm_compute. reflexivity.
    + vm_compute. reflexivity.
    + vm_compute. reflexivity.
    + vm_compute. reflexivity.
    + vm_compute. reflexivity.
    + exists w'. split; [exact Hrun|]. split; [exact Hfs|].
      rewrite Hout. vm_compute. reflexivity.
  - destruct (verify_integrity_always_ok shop_lib (world_with_files [])) as [_ H].
    apply H. vm_compute. reflexivity.
Defined.

Lemma test_fk_constraints_outcome_witness :
  (exists w',
     test_fk_constraints (world_with_files [ (DB_FILE, SqliteFile clean_db) ]) = (Ok tt, w') /\
     fs w' = fs (world_with_files [ (DB_FILE, SqliteFile clean_db) ]) /\
     stdout w' =
       [ "Testing Foreign Key Constraints...";
         "[PASS] Foreign key constraint enforced - invalid customer_id was rejected";
         "      Error: FOREIGN KEY constraint failed...";
         "[PASS] Foreign key constraint enforced - invalid order_id was rejected";
         "      Error: FOREIGN KEY constraint failed...";
         "[PASS] Foreign key constraint enforced - invalid product_id was rejected";
         "      Error: FOREIGN KEY constraint failed...";
         "[PASS] Foreign key constraint enforced - invalid order_id was rejected";
         "      Error: FOREIGN KEY constraint failed...";
         ""; "[OK] All foreign key constraint tests completed!" ]) /\
  (exists w',
     test_fk_constraints (world_with_files [])
     = (Raise (OperationalError "no such table: orders"), w') /\
     fs w' = {[ DB_FILE := SqliteFile empty_database ]} /\
     stdout w' = [ "Testing Foreign Key Constraints..." ]).
Proof.
  split.
  - destruct (test_fk_constraints_outcome (world_with_files [ (DB_FILE, SqliteFile clean_db) ]))
      as [H _].
    destruct (H clean_db [ customer_1 ] [] [ order_of_customer 1 1 ] [] [])
      as (w' & Hrun & Hfs & Hout).
    + vm_compute. reflexivity.
    + vm_compute. reflexivity.
    + vm_compute. reflexivity.
    + vm_compute. reflexivity.
    + vm_compute. reflexivity.
    + vm_compute. reflexivity.
    + repeat (constructor; [vm_compute; reflexivity|]). constructor.
    + constructor.
    + repeat (constructor; [vm_compute; reflexivity|]). constructor.
    + constructor.
    + constructor.
    + constructor.
    + exists w'. split; [exact Hrun|]. split; [exact Hfs|]. rewrite Hout. reflexivity.
  - destruct (test_fk_constraints_outcome (world_with_files [])) as [_ H].
    destruct H as (w' & Hrun & Hfs & Hout).
    + vm_compute. reflexivity.
    + exists w'. split; [exact Hrun|]. split.
      * rewrite Hfs. reflexivity.
      * rewrite Hout. reflexivity.
Defined.
